(** * unified_ai_api: configuration resolution, client dispatch and chat
      session lifecycle

    A shallow embedding of the Python package [unified_ai_api]
    (modules [providers_config_handlers], [auth_keys],
    [compatible_client_api], [api_connection] and [types]) together with
    the properties of its specification.

    Conventions of the embedding.
    - A Python [str] is a [string]; the text is taken to be ASCII, so a
      character is one [ascii].
    - A Python [dict] used as a keyed store is a [gmap]; a dict or list whose
      order is observed (the providers file, the registry, a JSON object) is a
      list of pairs in insertion order.
    - A method that may raise returns an [outcome]; a method that also
      mutates [self] is a function from the object's state to the new state
      and an outcome, so the state reached by a raising call is visible.
    - What lives outside the package (the [requests] and [openai] calls,
      pydantic's [model_validate]) is taken as a record of functions,
      [External]. *)

From Stdlib Require Import ZArith Ascii String List Bool Lia.
From stdpp Require Import base option list strings gmap pretty.

Local Open Scope Z_scope.

(** ** Python built-ins used by the package *)

Module Py.

(** [dq] is the one-character string made of a double quote. *)
Definition dq : string := String (ascii_of_nat 34) EmptyString.

(** The ASCII part of [str.isspace]: tab, line feed, vertical tab, form
    feed, carriage return, the four separators 28..31 and the space. *)
Definition isspace (c : ascii) : bool :=
  let n := nat_of_ascii c in
  ((9 <=? n)%nat && (n <=? 13)%nat) || ((28 <=? n)%nat && (n <=? 32)%nat).

Fixpoint lstrip (s : string) : string :=
  match s with
  | EmptyString => EmptyString
  | String c r => if isspace c then lstrip r else s
  end.

(** [rstrip] keeps a character when it is not a space or when something
    is kept after it. *)
Fixpoint rstrip (s : string) : string :=
  match s with
  | EmptyString => EmptyString
  | String c r =>
      match rstrip r with
      | EmptyString => if isspace c then EmptyString else String c EmptyString
      | r' => String c r'
      end
  end.

(** [s.strip()] *)
Definition strip (s : string) : string := rstrip (lstrip s).

(** Truth value of a [str]: [bool(s)]. *)
Definition truthy (s : string) : bool :=
  match s with EmptyString => false | _ => true end.

(** The recurring test [not s or not s.strip()]. *)
Definition blank (s : string) : bool :=
  negb (truthy s) || negb (truthy (strip s)).

(** Every character of [s] is whitespace: [s] is empty or
    whitespace-only. *)
Fixpoint all_space (s : string) : bool :=
  match s with
  | EmptyString => true
  | String c r => isspace c && all_space r
  end.

(** [c * n] for a character [c]. *)
Fixpoint replicate (n : nat) (c : ascii) : string :=
  match n with
  | O => EmptyString
  | S k => String c (replicate k c)
  end.

(** [needle in hay] on strings. *)
Fixpoint contains (needle hay : string) : bool :=
  String.prefix needle hay
  || match hay with
     | EmptyString => false
     | String _ r => contains needle r
     end.

(** [s[:n]] for [n >= 0]. *)
Fixpoint take (n : nat) (s : string) : string :=
  match n, s with
  | O, _ => EmptyString
  | _, EmptyString => EmptyString
  | S k, String c r => String c (take k r)
  end.

(** [x in l] on a list of strings. *)
Definition mem (x : string) (l : list string) : bool :=
  existsb (String.eqb x) l.

(** [str(n)] for an [int]. *)
Definition str_int (z : Z) : string := pretty z.

(** [l[i]] with Python's negative indices; [None] stands for the
    [IndexError]. *)
Definition index {A} (l : list A) (i : Z) : option A :=
  let n := Z.of_nat (length l) in
  if (0 <=? i) && (i <? n) then l !! Z.to_nat i
  else if (- n <=? i) && (i <? 0) then l !! Z.to_nat (n + i)
  else None.

(** Lookup in an insertion-ordered dict. *)
Fixpoint get {V} (k : string) (d : list (string * V)) : option V :=
  match d with
  | [] => None
  | (k', v) :: r => if String.eqb k k' then Some v else get k r
  end.

Definition keys {V} (d : list (string * V)) : list string := map fst d.

(** *** [repr] *)

Definition hex_digit (n : nat) : ascii :=
  if (n <? 10)%nat then ascii_of_nat (48 + n) else ascii_of_nat (87 + n).

(** One character of [repr(s)] when [q] is the surrounding quote. *)
Definition repr_char (q : ascii) (c : ascii) : string :=
  let n := nat_of_ascii c in
  let bs := ascii_of_nat 92 in
  if Ascii.eqb c q || Ascii.eqb c bs then String bs (String c EmptyString)
  else if (n =? 9)%nat then String bs "t"
  else if (n =? 10)%nat then String bs "n"
  else if (n =? 13)%nat then String bs "r"
  else if (n <? 32)%nat || (n =? 127)%nat then
    String bs (String "x" (String (hex_digit (n / 16))
                             (String (hex_digit (n mod 16)) EmptyString)))
  else String c EmptyString.

Fixpoint has_char (c : ascii) (s : string) : bool :=
  match s with
  | EmptyString => false
  | String c' r => Ascii.eqb c c' || has_char c r
  end.

Fixpoint repr_body (q : ascii) (s : string) : string :=
  match s with
  | EmptyString => EmptyString
  | String c r => repr_char q c +:+ repr_body q r
  end.

(** [repr(s)]: single quotes, unless [s] has a single quote and no double
    quote. *)
Definition repr_str (s : string) : string :=
  let sq := ascii_of_nat 39 in
  let dqc := ascii_of_nat 34 in
  let q := if has_char sq s && negb (has_char dqc s) then dqc else sq in
  String q (repr_body q s +:+ String q EmptyString).

Fixpoint join (sep : string) (l : list string) : string :=
  match l with
  | [] => EmptyString
  | [x] => x
  | x :: r => x +:+ sep +:+ join sep r
  end.

(** [repr] of a list of strings, as an f-string prints it. *)
Definition repr_list (l : list string) : string :=
  "[" +:+ join ", " (map repr_str l) +:+ "]".

(** [repr] of a dict from strings to strings. *)
Definition repr_dict (d : list (string * string)) : string :=
  "{" +:+ join ", " (map (fun kv => repr_str (fst kv) +:+ ": " +:+ repr_str (snd kv)) d)
      +:+ "}".

End Py.

(** ** Exceptions and outcomes *)

(** The exception classes that occur: the package's own taxonomy
    ([compatible_client_api]), the built-in ones its code can raise, the two
    library classes that derive from [ValueError], and [OtherError] for any
    other exception of a collaborator (a network failure, an SDK error). *)
Inductive exn_class :=
| APIClientError | UnsupportedAPITypeError | InvalidParameterError
| ResponseConversionError
| ValueError | KeyError | IndexError | AttributeError | TypeError
| JSONDecodeError | ValidationError | OtherError.

(** An exception: its class and [str(e)]. *)
Record exn := Exn { cls : exn_class; msg : string }.

Definition exn_class_eqb (a b : exn_class) : bool :=
  match a, b with
  | APIClientError, APIClientError | UnsupportedAPITypeError, UnsupportedAPITypeError
  | InvalidParameterError, InvalidParameterError
  | ResponseConversionError, ResponseConversionError
  | ValueError, ValueError | KeyError, KeyError | IndexError, IndexError
  | AttributeError, AttributeError | TypeError, TypeError
  | JSONDecodeError, JSONDecodeError | ValidationError, ValidationError
  | OtherError, OtherError => true
  | _, _ => false
  end.

(** [issubclass a b]: the three specific errors derive from [APIClientError];
    [requests]' [JSONDecodeError] and pydantic's [ValidationError] derive from
    [ValueError]. *)
Definition issubclass (a b : exn_class) : bool :=
  exn_class_eqb a b ||
  match a, b with
  | (UnsupportedAPITypeError | InvalidParameterError | ResponseConversionError),
    APIClientError => true
  | (JSONDecodeError | ValidationError), ValueError => true
  | _, _ => false
  end.

Definition isinstance (e : exn) (c : exn_class) : bool := issubclass (cls e) c.

(** [KeyError(k)], whose [str] is [repr(k)]. *)
Definition KeyError_of (k : string) : exn := Exn KeyError (Py.repr_str k).

Inductive outcome (A : Type) :=
| Return (a : A)
| Raise (e : exn).
Arguments Return {A} a.
Arguments Raise {A} e.

Definition obind {A B} (m : outcome A) (k : A -> outcome B) : outcome B :=
  match m with
  | Return a => k a
  | Raise e => Raise e
  end.

Declare Scope outcome_scope.
Delimit Scope outcome_scope with outcome.
Notation "'let!' x ':=' m 'in' k" := (obind m (fun x => k))
  (at level 10, x name, m at level 100, k at level 200) : outcome_scope.

(** A method on a mutable object of state [S]: the state after the call is
    returned also when the call raises. *)
Definition M (S A : Type) : Type := S -> S * outcome A.

Module St.
Definition ret {S A} (a : A) : M S A := fun s => (s, Return a).
Definition raise {S A} (e : exn) : M S A := fun s => (s, Raise e).
Definition bind {S A B} (m : M S A) (k : A -> M S B) : M S B :=
  fun s => match m s with
           | (s', Return a) => k a s'
           | (s', Raise e) => (s', Raise e)
           end.
Definition lift {S A} (o : outcome A) : M S A := fun s => (s, o).
Definition get {S} : M S S := fun s => (s, Return s).
Definition gets {S A} (f : S -> A) : M S A := fun s => (s, Return (f s)).
Definition modify {S} (f : S -> S) : M S unit := fun s => (f s, Return tt).
(** [try: body except Exception as e: handler e] *)
Definition try_except {S A} (body : M S A) (handler : exn -> M S A) : M S A :=
  fun s => match body s with
           | (s', Raise e) => handler e s'
           | r => r
           end.
End St.

Declare Scope py_scope.
Delimit Scope py_scope with py.
Notation "x <- m ;; k" := (St.bind m (fun x => k))
  (at level 100, m at next level, right associativity) : py_scope.
Notation "m ;; k" := (St.bind m (fun _ => k))
  (at level 100, right associativity) : py_scope.

(** ** [types]: chat messages and the normalized response *)

Inductive MessageRole := system | user | assistant.

Module ChatMessage.
Record t := Build { role : MessageRole; content : option string; name : option string }.
Definition create_message (role : MessageRole) (content name : option string) : t :=
  Build role content name.
End ChatMessage.

Module ChatChoice.
Record t := Build {
  index : Z;
  message : ChatMessage.t;
  finish_reason : option string;
  delta : option ChatMessage.t }.
End ChatChoice.

Module ChatUsage.
Record t := Build {
  prompt_tokens : option Z;
  completion_tokens : option Z;
  total_tokens : option Z }.
End ChatUsage.

Module ChatCompletionResponse.
Record t := Build {
  id : option string;
  object : option string;
  created : option Z;
  model : option string;
  choices : option (list ChatChoice.t);
  usage : option ChatUsage.t;
  system_fingerprint : option string }.

Definition create_response := Build.

(** Content of the first choice, if any. *)
Definition get_content (r : t) : option string :=
  match choices r with
  | Some (c :: _) => ChatMessage.content (ChatChoice.message c)
  | _ => None
  end.

Definition get_role (r : t) : option MessageRole :=
  match choices r with
  | Some (c :: _) => Some (ChatMessage.role (ChatChoice.message c))
  | _ => None
  end.
End ChatCompletionResponse.

(** ** JSON values, as [json.loads] and [Response.json()] return them

    Numbers are the integers; a body with a fractional number is outside
    the embedding. *)
#[warnings="-register-all"]
Inductive json :=
| JNull
| JBool (b : bool)
| JInt (z : Z)
| JStr (s : string)
| JList (l : list json)
| JObj (d : list (string * json)).

Module Json.
(** [repr(v)] of the decoded value. *)
Fixpoint repr (j : json) : string :=
  match j with
  | JNull => "None"
  | JBool true => "True"
  | JBool false => "False"
  | JInt z => Py.str_int z
  | JStr s => Py.repr_str s
  | JList l => "[" +:+ Py.join ", " (map repr l) +:+ "]"
  | JObj d =>
      "{" +:+ Py.join ", "
               (map (fun kv => match kv with
                               | (k, v) => Py.repr_str k +:+ ": " +:+ repr v
                               end) d)
          +:+ "}"
  end.

(** [str(v)], which is also how an f-string prints [v]. *)
Definition str (j : json) : string :=
  match j with
  | JStr s => s
  | _ => repr j
  end.

(** The name Python gives the type in an [AttributeError]. *)
Definition type_name (j : json) : string :=
  match j with
  | JNull => "NoneType"
  | JBool _ => "bool"
  | JInt _ => "int"
  | JStr _ => "str"
  | JList _ => "list"
  | JObj _ => "dict"
  end.

(** [v.get(k, default)]: defined on dicts, an [AttributeError] elsewhere. *)
Definition get (v : json) (k : string) (default : json) : outcome json :=
  match v with
  | JObj d => Return (match Py.get k d with Some x => x | None => default end)
  | _ => Raise (Exn AttributeError
                  ("'" +:+ type_name v +:+ "' object has no attribute 'get'"))
  end.
End Json.

(** ** The configuration files

    [providers.json] and [secret.json] as the cached loaders return them.
    A provider configuration is the [TypedDict] [ProvidersConfigParams]
    ([total=False]: every key may be missing); its keys are listed in the
    order of the declaration. [PROVIDER_NAMES] is the module constant of
    [types.providers_types]. *)

Module ProvidersConfigParams.
Record t := Build {
  config_name : option string;
  model_url : option string;
  model_name : option string;
  init_config_msg : option string;
  api_supported : option (list string);
  api_endpoints : option (list (string * string)) }.
End ProvidersConfigParams.

(** The [Literal] type [ProviderAttributes]. *)
Inductive ProviderAttributes :=
| a_config_name | a_model_url | a_model_name | a_init_config_msg
| a_api_supported | a_api_endpoints.

Definition attribute_key (a : ProviderAttributes) : string :=
  match a with
  | a_config_name => "config_name"
  | a_model_url => "model_url"
  | a_model_name => "model_name"
  | a_init_config_msg => "init_config_msg"
  | a_api_supported => "api_supported"
  | a_api_endpoints => "api_endpoints"
  end.

Definition PROVIDER_ATTRIBUTES : list ProviderAttributes :=
  [a_config_name; a_model_url; a_model_name; a_init_config_msg;
   a_api_supported; a_api_endpoints].

(** [str(provider_config[attribute])] when the key is present. *)
Definition attribute_str (c : ProvidersConfigParams.t) (a : ProviderAttributes)
  : option string :=
  match a with
  | a_config_name => ProvidersConfigParams.config_name c
  | a_model_url => ProvidersConfigParams.model_url c
  | a_model_name => ProvidersConfigParams.model_name c
  | a_init_config_msg => ProvidersConfigParams.init_config_msg c
  | a_api_supported => Py.repr_list <$> ProvidersConfigParams.api_supported c
  | a_api_endpoints => Py.repr_dict <$> ProvidersConfigParams.api_endpoints c
  end.

(** [list(provider_config.keys())] *)
Definition config_keys (c : ProvidersConfigParams.t) : list string :=
  map attribute_key
      (filter (fun a => is_Some (attribute_str c a)) PROVIDER_ATTRIBUTES).

Record Env := {
  providers_file : list (string * list ProvidersConfigParams.t);
  secrets : gmap string string;
  PROVIDER_NAMES : list string }.

Definition is_valid_provider_name (env : Env) (provider_name : string) : bool :=
  Py.mem provider_name (PROVIDER_NAMES env).

(** The arguments of the [Literal] type [ProviderName]. This is the value
    that [PROVIDER_NAMES] has in the package: the import of
    [types.providers_types] asks [_utils.config_loaders] for the providers
    file, [config_loaders] in turn imports names from [types], which is
    still being initialised, the [ImportError] is swallowed by the
    [except Exception] of [_get_provider_names_from_config], and the
    hard-coded list is returned. The catalog is not consulted. *)
Definition ProviderName : list string := ["HUGGINGFACE"; "OPENAI"; "OPENROUTER"].

(** ** [providers_config_handlers.ProvidersConfigHandler] *)

Module ProvidersConfigHandler.
Local Open Scope outcome_scope.

Definition available_providers (env : Env) : list string :=
  Py.keys (providers_file env).

Definition provider_not_found (env : Env) (provider : string) : exn :=
  Exn ValueError
      ("Provider " +:+ Py.dq +:+ provider +:+ Py.dq +:+ " not found. Available: "
       +:+ Py.repr_list (available_providers env)).

Definition available_provider_configs (env : Env) (provider : string)
  : outcome (list ProvidersConfigParams.t) :=
  match Py.get provider (providers_file env) with
  | None => Raise (provider_not_found env provider)
  | Some l => Return l
  end.

Definition get_provider_config (env : Env) (provider : string) (config_index : Z)
  : outcome ProvidersConfigParams.t :=
  match Py.get provider (providers_file env) with
  | None => Raise (provider_not_found env provider)
  | Some provider_configs_list =>
      if Z.of_nat (length provider_configs_list) <=? config_index then
        Raise (Exn ValueError
                 ("Index " +:+ Py.str_int config_index
                  +:+ " out of range for provider " +:+ Py.dq +:+ provider +:+ Py.dq
                  +:+ " (max: "
                  +:+ Py.str_int (Z.of_nat (length provider_configs_list) - 1) +:+ ")"))
      else
        match Py.index provider_configs_list config_index with
        | Some c => Return c
        | None => Raise (Exn IndexError "list index out of range")
        end
  end.

Definition get_provider_config_attribute (env : Env) (provider : string)
    (attribute : ProviderAttributes) (config_index : Z) : outcome string :=
  let! provider_config := get_provider_config env provider config_index in
  match attribute_str provider_config attribute with
  | None =>
      Raise (Exn ValueError
               ("Attribute " +:+ Py.dq +:+ attribute_key attribute +:+ Py.dq
                +:+ " not found for provider " +:+ Py.dq +:+ provider +:+ Py.dq
                +:+ ". Available: " +:+ Py.repr_list (config_keys provider_config)))
  | Some v => Return v
  end.

(** [provider_config.get('api_supported', [])] *)
Definition get_provider_api_supported (env : Env) (provider : string)
    (config_index : Z) : outcome (list string) :=
  let! provider_config := get_provider_config env provider config_index in
  Return (default [] (ProvidersConfigParams.api_supported provider_config)).

Definition get_provider_endpoint (env : Env) (provider : string)
    (endpoint_type : string) (config_index : Z) : outcome string :=
  let! provider_config := get_provider_config env provider config_index in
  match ProvidersConfigParams.api_endpoints provider_config with
  | None => Raise (KeyError_of "api_endpoints")
  | Some endpoints =>
      match Py.get endpoint_type endpoints with
      | None =>
          Raise (Exn ValueError
                   ("Endpoint type " +:+ Py.dq +:+ endpoint_type +:+ Py.dq
                    +:+ " not found for provider " +:+ Py.dq +:+ provider +:+ Py.dq
                    +:+ ". Available: " +:+ Py.repr_list (Py.keys endpoints)))
      | Some url => Return url
      end
  end.
End ProvidersConfigHandler.

(** ** [auth_keys] *)

Module auth_keys.
Local Open Scope outcome_scope.

(** [secret_file_conf[api_key_ref]] after resolving the configuration's
    [config_name]. *)
Definition _get_api_key_from_config_index (env : Env) (provider : string)
    (config_index : Z) : outcome string :=
  let! api_key_ref :=
    ProvidersConfigHandler.get_provider_config_attribute
      env provider a_config_name config_index in
  match secrets env !! api_key_ref with
  | Some k => Return k
  | None => Raise (KeyError_of api_key_ref)
  end.

Definition _get_api_key_from_config_name (env : Env) (provider : string)
    (config_name : string) : outcome string :=
  match secrets env !! config_name with
  | Some k => Return k
  | None =>
      Raise (Exn ValueError
               ("No API key found for " +:+ provider +:+ " with config name "
                +:+ config_name))
  end.

Definition get_secret_api_key (env : Env) (provider : string)
    (config_name : option string) (config_index : Z) : outcome string :=
  match config_name with
  | None => _get_api_key_from_config_index env provider config_index
  | Some n => _get_api_key_from_config_name env provider n
  end.
End auth_keys.

(** ** [compatible_client_api]: the collaborators *)

(** A [requests.Response], as far as the package reads it: the status, the
    body text and what [.json()] gives for that body. *)
Module Response.
Record t := Build { status_code : Z; text : string; json : outcome json }.
End Response.

(** The [openai] SDK's completion object, as far as the package reads it. *)
Module ChatCompletion.
Record choice := Choice {
  index : Z;
  role : MessageRole;
  content : option string;
  finish_reason : option string }.
Record usage_t := Usage {
  prompt_tokens : Z; completion_tokens : Z; total_tokens : Z }.
Record t := Build {
  id : string;
  object : string;
  created : Z;
  model : string;
  choices : list choice;
  usage : option usage_t;
  system_fingerprint : option string }.
End ChatCompletion.

(** The calls that leave the package:
    - [model_validate]: pydantic's validation of decoded JSON against
      [ChatCompletionResponse];
    - [post url api_key messages model]: [Session.post] on a session whose
      headers carry the key, with the body [{messages, model}];
    - [create base_url api_key model messages]:
      [client.chat.completions.create]. *)
Record External := {
  model_validate : json -> outcome ChatCompletionResponse.t;
  post : string -> string -> list (MessageRole * option string) -> string
         -> outcome Response.t;
  create : string -> string -> string -> list (MessageRole * string)
           -> outcome ChatCompletion.t }.

(** The checks of [BaseAPIClient.__init__], repeated by
    [CompatibleClient.__init__]. *)
Definition validate_client_parameters (base_url api_key model_name : string)
  : outcome unit :=
  if Py.blank base_url then
    Raise (Exn InvalidParameterError "base_url must be provided and non-empty")
  else if Py.blank api_key then
    Raise (Exn InvalidParameterError "api_key must be provided and non-empty")
  else if Py.blank model_name then
    Raise (Exn InvalidParameterError "model_name must be provided and non-empty")
  else Return tt.

(** *** [OpenAICompatibleClient] *)

Module OpenAICompatibleClient.
Local Open Scope outcome_scope.

(** [client] is the SDK object built from [base_url] and [api_key];
    [client_closes] counts the calls of its [close()]. *)
Record t := Build {
  base_url : string;
  api_key : string;
  model_name : string;
  openai_messages : list (MessageRole * string);
  client_closes : nat }.

Definition __init__ (base_url api_key model_name : string) : outcome t :=
  let! _ := validate_client_parameters base_url api_key model_name in
  Return (Build base_url api_key model_name [] 0).

(** One wire message per chat message, [content or ''] as content. *)
Definition _convert_messages (messages : list ChatMessage.t) (c : t) : t :=
  Build (base_url c) (api_key c) (model_name c)
        (map (fun m => (ChatMessage.role m, default EmptyString (ChatMessage.content m)))
             messages)
        (client_closes c).

Definition _convert_response (r : ChatCompletion.t) : ChatCompletionResponse.t :=
  let choices :=
    map (fun ch =>
           ChatChoice.Build (ChatCompletion.index ch)
             (ChatMessage.Build (ChatCompletion.role ch) (ChatCompletion.content ch) None)
             (ChatCompletion.finish_reason ch) None)
        (ChatCompletion.choices r) in
  let usage :=
    (fun u => ChatUsage.Build (Some (ChatCompletion.prompt_tokens u))
                              (Some (ChatCompletion.completion_tokens u))
                              (Some (ChatCompletion.total_tokens u)))
      <$> ChatCompletion.usage r in
  ChatCompletionResponse.create_response
    (Some (ChatCompletion.id r)) (Some (ChatCompletion.object r))
    (Some (ChatCompletion.created r)) (Some (ChatCompletion.model r))
    (Some choices) usage (ChatCompletion.system_fingerprint r).

Definition chat_completion (ext : External) (messages : list ChatMessage.t)
  : M t ChatCompletionResponse.t :=
  fun c =>
    let c := _convert_messages messages c in
    (c, let! r := create ext (base_url c) (api_key c) (model_name c)
                    (openai_messages c) in
        Return (_convert_response r)).

Definition get_model_name (c : t) : string := model_name c.

Definition close (c : t) : t :=
  Build (base_url c) (api_key c) (model_name c) (openai_messages c)
        (S (client_closes c)).
End OpenAICompatibleClient.

(** *** [RestAPICompatibleClient] *)

Module RestAPICompatibleClient.
Local Open Scope outcome_scope.

(** The [requests.Session] of the client: its [Authorization] header and
    its timeout pair. *)
Record Session := { authorization : string; timeout : Z * Z }.

(** Timeouts are in seconds (the source passes the literals 30.0 and
    60.0). [session_closes] counts the calls of [Session.close()]. *)
Record t := Build {
  base_url : string;
  api_key : string;
  model_name : string;
  connect_timeout : Z;
  read_timeout : Z;
  rest_messages : list (MessageRole * option string);
  _session : option Session;
  session_closes : nat }.

Definition __init__ (base_url api_key model_name : string) : outcome t :=
  let! _ := validate_client_parameters base_url api_key model_name in
  Return (Build base_url api_key model_name 30 60 [] None 0).

(** The [session] property: the session, created on first use. *)
Definition session (c : t) : t :=
  match _session c with
  | Some _ => c
  | None =>
      Build (base_url c) (api_key c) (model_name c) (connect_timeout c)
            (read_timeout c) (rest_messages c)
            (Some {| authorization := "Bearer " +:+ api_key c;
                     timeout := (connect_timeout c, read_timeout c) |})
            (session_closes c)
  end.

Definition set_timeout (connect read : Z) : M t unit :=
  fun c =>
    if connect <=? 0 then
      (c, Raise (Exn ValueError "connect_timeout must be a positive number"))
    else if read <=? 0 then
      (c, Raise (Exn ValueError "read_timeout must be a positive number"))
    else
      (Build (base_url c) (api_key c) (model_name c) connect read (rest_messages c)
             None
             (match _session c with
              | Some _ => S (session_closes c)
              | None => session_closes c
              end),
       Return tt).

Definition get_timeout (c : t) : Z * Z := (connect_timeout c, read_timeout c).

Definition _convert_messages (messages : list ChatMessage.t) (c : t) : t :=
  Build (base_url c) (api_key c) (model_name c) (connect_timeout c) (read_timeout c)
        (map (fun m => (ChatMessage.role m, ChatMessage.content m)) messages)
        (_session c) (session_closes c).

Definition _from_dict (ext : External) (data : json)
  : outcome ChatCompletionResponse.t :=
  model_validate ext data.

(** [error_details.get('error', {}).get('message', str(error_details))] *)
Definition error_message_of (error_details : json) : outcome string :=
  let! err := Json.get error_details "error" (JObj []) in
  let! m := Json.get err "message" (JStr (Json.str error_details)) in
  Return (Json.str m).

Definition _convert_response (ext : External) (rest_response : Response.t)
  : outcome ChatCompletionResponse.t :=
  if Response.status_code rest_response =? 200 then
    match (let! response_data := Response.json rest_response in
           _from_dict ext response_data) with
    | Return chat_response => Return chat_response
    | Raise e =>
        if isinstance e ValueError then
          Raise (Exn ResponseConversionError
                   ("Failed to parse JSON response: " +:+ msg e
                    +:+ ". Response text: "
                    +:+ Py.take 500 (Response.text rest_response)))
        else
          Raise (Exn ResponseConversionError
                   ("Failed to convert response to ChatCompletionResponse: "
                    +:+ msg e))
    end
  else
    match (let! error_details := Response.json rest_response in
           error_message_of error_details) with
    | Return error_message =>
        Raise (Exn APIClientError
                 ("API request failed with status "
                  +:+ Py.str_int (Response.status_code rest_response)
                  +:+ ": " +:+ error_message))
    | Raise e =>
        if isinstance e ValueError then
          Raise (Exn APIClientError
                   ("API request failed with status "
                    +:+ Py.str_int (Response.status_code rest_response)
                    +:+ ": " +:+ Py.take 500 (Response.text rest_response)))
        else Raise e
    end.

Definition chat_completion (ext : External) (messages : list ChatMessage.t)
  : M t ChatCompletionResponse.t :=
  fun c =>
    let c := session (_convert_messages messages c) in
    (c, let! rest_response :=
          post ext (base_url c) (api_key c) (rest_messages c) (model_name c) in
        _convert_response ext rest_response).

Definition get_model_name (c : t) : string := model_name c.

Definition close (c : t) : t :=
  match _session c with
  | Some _ =>
      Build (base_url c) (api_key c) (model_name c) (connect_timeout c)
            (read_timeout c) (rest_messages c) None (S (session_closes c))
  | None => c
  end.
(** The [timeout] property and its setter; the assigned value is a tuple,
    here the list of its items. *)
Definition timeout_property (c : t) : Z * Z := (connect_timeout c, read_timeout c).

Definition timeout_setter (value : list Z) : M t unit :=
  fun c =>
    match value with
    | [connect; read] =>
        if connect <=? 0 then
          (c, Raise (Exn ValueError "connect_timeout must be a positive number"))
        else if read <=? 0 then
          (c, Raise (Exn ValueError "read_timeout must be a positive number"))
        else
          (Build (base_url c) (api_key c) (model_name c) connect read (rest_messages c)
                 None
                 (match _session c with
                  | Some _ => S (session_closes c)
                  | None => session_closes c
                  end),
           Return tt)
    | _ =>
        (c, Raise (Exn ValueError
                     "timeout must be a tuple of (connect_timeout, read_timeout)"))
    end.
End RestAPICompatibleClient.

(** *** [CompatibleClientDispatcher] and [CompatibleClient] *)

(** The classes a registry can hold, and an instance of one of them. *)
Inductive handler_class := OpenAICompatibleClient_class | RestAPICompatibleClient_class.

Inductive BaseAPIClient :=
| OpenAIClient (c : OpenAICompatibleClient.t)
| RestClient (c : RestAPICompatibleClient.t).

Module CompatibleClientDispatcher.
Local Open Scope outcome_scope.

(** The class-level [_registry], in registration order. *)
Record t := Build { registry : list (string * handler_class) }.

(** [register(api_key)(new_cls)]: [cls._registry[api_key] = new_cls]. *)
Fixpoint set_item (k : string) (v : handler_class)
    (d : list (string * handler_class)) : list (string * handler_class) :=
  match d with
  | [] => [(k, v)]
  | (k', v') :: r =>
      if String.eqb k k' then (k, v) :: r else (k', v') :: set_item k v r
  end.

Definition register (api_key : string) (new_cls : handler_class) (d : t) : t :=
  Build (set_item api_key new_cls (registry d)).

(** The registry once the module is imported: the two decorated classes. *)
Definition _registry : t :=
  register "requests" RestAPICompatibleClient_class
    (register "openai" OpenAICompatibleClient_class (Build [])).

Definition instantiate (h : handler_class) (base_url api_key model_name : string)
  : outcome BaseAPIClient :=
  match h with
  | OpenAICompatibleClient_class =>
      let! c := OpenAICompatibleClient.__init__ base_url api_key model_name in
      Return (OpenAIClient c)
  | RestAPICompatibleClient_class =>
      let! c := RestAPICompatibleClient.__init__ base_url api_key model_name in
      Return (RestClient c)
  end.

Definition __call__ (d : t) (key base_url api_key model_name : string)
  : outcome BaseAPIClient :=
  match Py.get key (registry d) with
  | Some handler_class => instantiate handler_class base_url api_key model_name
  | None => Raise (Exn UnsupportedAPITypeError ("No handler for: " +:+ key))
  end.
End CompatibleClientDispatcher.

Module CompatibleClient.
Local Open Scope outcome_scope.

(** [close_calls] counts the calls of [close()] this object received. *)
Record t := Build {
  dispatcher : CompatibleClientDispatcher.t;
  api_type : string;
  base_url : string;
  api_key : string;
  model_name : string;
  _client : option BaseAPIClient;
  _rest_timeout_config : option (Z * Z);
  close_calls : nat }.

Definition set__client (x : option BaseAPIClient) (c : t) : t :=
  Build (dispatcher c) (api_type c) (base_url c) (api_key c) (model_name c) x
        (_rest_timeout_config c) (close_calls c).

Definition __init__ (api_type base_url model_name api_key : string)
    (dispatcher : option CompatibleClientDispatcher.t) : outcome t :=
  let! _ := validate_client_parameters base_url api_key model_name in
  Return (Build (default CompatibleClientDispatcher._registry dispatcher)
                api_type base_url api_key model_name None None 0).

(** What the [except KeyError] of the [client] property does to an
    exception of its [try] block. *)
Definition on_KeyError (c : t) (e : exn) : exn :=
  if isinstance e KeyError then
    Exn UnsupportedAPITypeError ("Unsupported API type: " +:+ api_type c)
  else e.

(** The [client] property: the transport, built on first use. The stored
    timeouts are applied to a REST transport after it is stored. *)
Definition client : M t BaseAPIClient :=
  fun c =>
    match _client c with
    | Some b => (c, Return b)
    | None =>
        match CompatibleClientDispatcher.__call__
                (dispatcher c) (api_type c) (base_url c) (api_key c) (model_name c) with
        | Raise e => (c, Raise (on_KeyError c e))
        | Return b =>
            match _rest_timeout_config c, b with
            | Some (connect, read), RestClient r =>
                match RestAPICompatibleClient.set_timeout connect read r with
                | (r', Return _) =>
                    (set__client (Some (RestClient r')) c, Return (RestClient r'))
                | (r', Raise e) =>
                    (set__client (Some (RestClient r')) c, Raise (on_KeyError c e))
                end
            | _, _ => (set__client (Some b) c, Return b)
            end
        end
    end.

(** [self.client.chat_completion(messages)]; the transport is updated in
    place. *)
Definition chat_completion (ext : External) (messages : list ChatMessage.t)
  : M t ChatCompletionResponse.t :=
  fun c =>
    match client c with
    | (c, Raise e) => (c, Raise e)
    | (c, Return (OpenAIClient o)) =>
        let '(o', r) := OpenAICompatibleClient.chat_completion ext messages o in
        (set__client (Some (OpenAIClient o')) c, r)
    | (c, Return (RestClient o)) =>
        let '(o', r) := RestAPICompatibleClient.chat_completion ext messages o in
        (set__client (Some (RestClient o')) c, r)
    end.

Definition get_model_name (c : t) : string := model_name c.

Definition close (c : t) : t :=
  Build (dispatcher c) (api_type c) (base_url c) (api_key c) (model_name c)
        (match _client c with
         | None => None
         | Some (OpenAIClient o) => Some (OpenAIClient (OpenAICompatibleClient.close o))
         | Some (RestClient o) => Some (RestClient (RestAPICompatibleClient.close o))
         end)
        (_rest_timeout_config c) (S (close_calls c)).

Definition configure_rest_timeouts (connect_timeout read_timeout : Z) : M t unit :=
  fun c =>
    match _client c with
    | Some (RestClient r) =>
        let '(r', o) := RestAPICompatibleClient.set_timeout connect_timeout read_timeout r in
        (set__client (Some (RestClient r')) c, o)
    | _ =>
        if String.eqb (api_type c) "requests" then
          (Build (dispatcher c) (api_type c) (base_url c) (api_key c) (model_name c)
                 (_client c) (Some (connect_timeout, read_timeout)) (close_calls c),
           Return tt)
        else (c, Return tt)
    end.

(** The number of times the transport's network resource was released. *)
Definition releases (c : t) : nat :=
  match _client c with
  | None => 0%nat
  | Some (OpenAIClient o) => OpenAICompatibleClient.client_closes o
  | Some (RestClient o) => RestAPICompatibleClient.session_closes o
  end.
End CompatibleClient.

(** ** [api_connection] *)

(** The dict [_connection_params]. It only ever receives the six keys
    written by [configure_api], so it is the record of its optional
    entries: a key is in the dict when its entry is [Some]. *)
Module ConnectionParams.
Record t := Build {
  provider : option string;
  config_index : option Z;
  api_type : option string;
  endpoint_url : option string;
  model_name : option string;
  init_config_msg : option string }.

(** [{}] *)
Definition empty : t := Build None None None None None None.

Inductive key :=
| k_provider | k_config_index | k_api_type | k_endpoint_url | k_model_name
| k_init_config_msg.

Definition key_name (k : key) : string :=
  match k with
  | k_provider => "provider"
  | k_config_index => "config_index"
  | k_api_type => "api_type"
  | k_endpoint_url => "endpoint_url"
  | k_model_name => "model_name"
  | k_init_config_msg => "init_config_msg"
  end.

(** [k in d] *)
Definition has (d : t) (k : key) : bool :=
  match k with
  | k_provider => bool_decide (is_Some (provider d))
  | k_config_index => bool_decide (is_Some (config_index d))
  | k_api_type => bool_decide (is_Some (api_type d))
  | k_endpoint_url => bool_decide (is_Some (endpoint_url d))
  | k_model_name => bool_decide (is_Some (model_name d))
  | k_init_config_msg => bool_decide (is_Some (init_config_msg d))
  end.

(** [not d[k] or not str(d[k]).strip()] for a key of the dict; an [int]
    is false when it is zero and its [str] is never blank. *)
Definition empty_value (d : t) (k : key) : bool :=
  match k with
  | k_provider => from_option Py.blank true (provider d)
  | k_config_index => from_option (Z.eqb 0) true (config_index d)
  | k_api_type => from_option Py.blank true (api_type d)
  | k_endpoint_url => from_option Py.blank true (endpoint_url d)
  | k_model_name => from_option Py.blank true (model_name d)
  | k_init_config_msg => from_option Py.blank true (init_config_msg d)
  end.

Definition all_keys : list key :=
  [k_provider; k_config_index; k_api_type; k_endpoint_url; k_model_name;
   k_init_config_msg].

(** [not d]: the dict is empty. *)
Definition is_empty (d : t) : bool := forallb (fun k => negb (has d k)) all_keys.

(** [d.copy()] *)
Definition copy (d : t) : t := d.
End ConnectionParams.

(** *** [ChatClient] *)

Module ChatClient.
Local Open Scope outcome_scope.

(** [stdout] holds the lines the object has printed, oldest first. The
    security token of the source only guards the constructor against
    calls from outside the factory and is left out. *)
Record t := Build {
  _session_id : string;
  _is_closed : bool;
  _secret_api_key : string;
  _connection_params : ConnectionParams.t;
  _chat_history : list ChatMessage.t;
  compatible_client : CompatibleClient.t;
  stdout : list string }.

Definition set__chat_history (h : list ChatMessage.t) (c : t) : t :=
  Build (_session_id c) (_is_closed c) (_secret_api_key c) (_connection_params c)
        h (compatible_client c) (stdout c).

Definition set_compatible_client (cc : CompatibleClient.t) (c : t) : t :=
  Build (_session_id c) (_is_closed c) (_secret_api_key c) (_connection_params c)
        (_chat_history c) cc (stdout c).

Definition print (line : string) (c : t) : t :=
  Build (_session_id c) (_is_closed c) (_secret_api_key c) (_connection_params c)
        (_chat_history c) (compatible_client c) (stdout c ++ [line]).

Definition required_params : list ConnectionParams.key :=
  [ConnectionParams.k_api_type; ConnectionParams.k_endpoint_url;
   ConnectionParams.k_model_name; ConnectionParams.k_init_config_msg].

(** [connection_params[k]] for a key holding a string. *)
Definition item (k : string) (v : option string) : outcome string :=
  match v with
  | Some x => Return x
  | None => Raise (KeyError_of k)
  end.

Definition __init__ (session_id : string) (connection_params : ConnectionParams.t)
    (secret_api_key : string) : outcome t :=
  if ConnectionParams.is_empty connection_params then
    Raise (Exn InvalidParameterError "Connection parameters cannot be empty")
  else if Py.blank secret_api_key then
    Raise (Exn InvalidParameterError "Secret API key must be provided and non-empty")
  else if Py.blank session_id then
    Raise (Exn InvalidParameterError "Session ID must be provided and non-empty")
  else
    let missing_params :=
      List.filter (fun k => negb (ConnectionParams.has connection_params k))
                  required_params in
    if negb (bool_decide (missing_params = [])) then
      Raise (Exn InvalidParameterError
               ("Missing required connection parameters: "
                +:+ Py.repr_list (map ConnectionParams.key_name missing_params)))
    else
      let empty_params :=
        List.filter (ConnectionParams.empty_value connection_params) required_params in
      if negb (bool_decide (empty_params = [])) then
        Raise (Exn InvalidParameterError
                 ("Empty values for required parameters: "
                  +:+ Py.repr_list (map ConnectionParams.key_name empty_params)))
      else
        match (let! api_type :=
                 item "api_type" (ConnectionParams.api_type connection_params) in
               let! base_url :=
                 item "endpoint_url" (ConnectionParams.endpoint_url connection_params) in
               let! model_name :=
                 item "model_name" (ConnectionParams.model_name connection_params) in
               CompatibleClient.__init__ api_type base_url model_name secret_api_key None)
        with
        | Return cc =>
            (* the outcome of the timeout configuration is ignored *)
            let cc := fst (CompatibleClient.configure_rest_timeouts 30 60 cc) in
            Return (Build session_id false secret_api_key connection_params [] cc [])
        | Raise e =>
            if isinstance e InvalidParameterError
               || isinstance e UnsupportedAPITypeError then Raise e
            else Raise (Exn APIClientError
                          ("Failed to initialize API client: " +:+ msg e))
        end.

Definition _create_message_user (message : string) : ChatMessage.t :=
  ChatMessage.create_message user (Some message) None.

Definition _create_message_assistant (message : string) : ChatMessage.t :=
  ChatMessage.create_message assistant (Some message) None.

(** [if response_content:] on an optional string. *)
Definition has_content (o : option string) : bool := from_option Py.truthy false o.

Definition send_message (ext : External) (message : string) : M t (option string) :=
  fun c =>
    if Py.blank message then
      (c, Raise (Exn InvalidParameterError "Message cannot be empty or None"))
    else
      let c := set__chat_history (_chat_history c ++ [_create_message_user message]) c in
      match CompatibleClient.chat_completion ext (_chat_history c) (compatible_client c) with
      | (cc, Return response) =>
          let c := set_compatible_client cc c in
          let response_content := ChatCompletionResponse.get_content response in
          let c :=
            if has_content response_content then
              set__chat_history
                (_chat_history c
                 ++ [ChatMessage.create_message assistant response_content None]) c
            else c in
          (c, Return response_content)
      | (cc, Raise e) =>
          let c := set_compatible_client cc c in
          if isinstance e APIClientError || isinstance e InvalidParameterError
             || isinstance e UnsupportedAPITypeError
             || isinstance e ResponseConversionError then
            (print ("API error sending message: " +:+ msg e) c, Return None)
          else
            (print ("Unexpected error sending message: " +:+ msg e) c, Return None)
      end.

Definition clear_chat_history : M t unit :=
  fun c =>
    match ConnectionParams.init_config_msg (_connection_params c) with
    | None =>
        (c, Raise (Exn APIClientError
                     ("Missing configuration parameter: "
                      +:+ msg (KeyError_of "init_config_msg"))))
    | Some init_config_text_msg =>
        let init_config_text_msg :=
          if negb (Py.truthy init_config_text_msg)
          then "You are a helpful AI assistant."
          else init_config_text_msg in
        (set__chat_history [_create_message_user init_config_text_msg] c, Return tt)
    end.

Definition get_connection_status (c : t) : bool := true.

Definition get_model_name (c : t) : outcome string :=
  item "model_name" (ConnectionParams.model_name (_connection_params c)).

Definition get_connection_params (c : t) : ConnectionParams.t :=
  ConnectionParams.copy (_connection_params c).

Definition close (c : t) : t :=
  if negb (_is_closed c) then
    Build (_session_id c) true (_secret_api_key c) (_connection_params c) []
          (CompatibleClient.close (compatible_client c))
          (stdout c ++ ["Closing ChatClient session: " +:+ _session_id c])
  else c.

(** [__exit__] *)
Definition __exit__ (c : t) : t := close c.

(** What a program can do to a session it holds: send a message, clear the
    history, close it (directly, through [__exit__] or through the
    manager), and call the methods of the public attribute
    [compatible_client], which change that proxy only. *)
Inductive step : t -> t -> Prop :=
| step_send_message (ext : External) (message : string) (c : t) :
    step c (fst (send_message ext message c))
| step_clear_chat_history (c : t) :
    step c (fst (clear_chat_history c))
| step_close (c : t) :
    step c (close c)
| step_compatible_client (cc : CompatibleClient.t) (c : t) :
    step c (set_compatible_client cc c).

(** The sessions a program can hold: built by the constructor, then used. *)
Inductive constructible : t -> Prop :=
| constructed (session_id : string) (connection_params : ConnectionParams.t)
    (secret_api_key : string) (c : t) :
    __init__ session_id connection_params secret_api_key = Return c ->
    constructible c
| used (c c' : t) :
    constructible c -> step c c' -> constructible c'.
End ChatClient.

(** *** [APIConnectionManager] *)

Module APIConnectionManager.
Local Open Scope py_scope.

(** [_active_clients] holds references: the addresses of the tracked
    sessions in the object store. [_secret_api_key] is [None] while the
    attribute does not exist. *)
Record t := Build {
  _active_clients : list nat;
  _connection_params : ConnectionParams.t;
  _secret_api_key : option string }.

Definition __init__ : t := Build [] ConnectionParams.empty None.

Definition set__connection_params (p : ConnectionParams.t) (m : t) : t :=
  Build (_active_clients m) p (_secret_api_key m).

Definition set__secret_api_key (k : string) (m : t) : t :=
  Build (_active_clients m) (_connection_params m) (Some k).

Definition set__active_clients (l : list nat) (m : t) : t :=
  Build l (_connection_params m) (_secret_api_key m).

Definition configure_api (env : Env) (provider : string) (config_index : Z)
    (api_type : string) : M t unit :=
  if negb (is_valid_provider_name env provider) then
    St.raise (Exn InvalidParameterError
                ("Invalid provider '" +:+ provider +:+ "'. Available: "
                 +:+ Py.repr_list (ProvidersConfigHandler.available_providers env)))
  else if config_index <? 0 then
    St.raise (Exn InvalidParameterError
                ("Config index must be >= 0, got: " +:+ Py.str_int config_index))
  else
    St.try_except
      (provider_configs <-
         St.lift (ProvidersConfigHandler.available_provider_configs env provider);;
       if Z.of_nat (length provider_configs) <=? config_index then
         St.raise (Exn InvalidParameterError
                     ("Config index " +:+ Py.str_int config_index
                      +:+ " out of range for provider '" +:+ provider +:+ "' (max: "
                      +:+ Py.str_int (Z.of_nat (length provider_configs) - 1) +:+ ")"))
       else
         supported_apis <-
           St.lift (ProvidersConfigHandler.get_provider_api_supported
                      env provider config_index);;
         if negb (Py.mem api_type supported_apis) then
           St.raise (Exn InvalidParameterError
                       ("API type '" +:+ api_type +:+ "' not supported by provider '"
                        +:+ provider +:+ "' config " +:+ Py.str_int config_index
                        +:+ ". Supported: " +:+ Py.repr_list supported_apis))
         else
           endpoint_url <-
             St.lift (ProvidersConfigHandler.get_provider_endpoint
                        env provider api_type config_index);;
           model_name <-
             St.lift (ProvidersConfigHandler.get_provider_config_attribute
                        env provider a_model_name config_index);;
           init_config_msg <-
             St.lift (ProvidersConfigHandler.get_provider_config_attribute
                        env provider a_init_config_msg config_index);;
           St.modify (set__connection_params
                        (ConnectionParams.Build
                           (Some provider) (Some config_index) (Some api_type)
                           (Some endpoint_url) (Some model_name)
                           (Some init_config_msg)));;
           secret <-
             St.lift (auth_keys.get_secret_api_key env provider None config_index);;
           St.modify (set__secret_api_key secret);;
           if Py.blank secret then
             St.raise (Exn InvalidParameterError
                         ("No valid API key found for provider '" +:+ provider
                          +:+ "' config " +:+ Py.str_int config_index +:+ ". "
                          +:+ "Check your environment variables or secrets configuration."))
           else St.ret tt)
      (fun e =>
         if isinstance e InvalidParameterError || isinstance e APIClientError then
           St.raise e
         else
           St.raise (Exn APIClientError
                       ("Failed to configure API for provider '" +:+ provider
                        +:+ "': " +:+ msg e))).

Definition validate_configuration (m : t) : bool :=
  forallb (ConnectionParams.has (_connection_params m)) ConnectionParams.all_keys
  && bool_decide (is_Some (_secret_api_key m)).

(** The manager and the object store holding the sessions it created;
    a session's address is its position in [heap]. *)
Record World := { self : t; heap : list ChatClient.t }.

Definition missing_config (m : t) : list string :=
  map ConnectionParams.key_name
      (List.filter (fun k => negb (ConnectionParams.has (_connection_params m) k))
                   ConnectionParams.all_keys)
  ++ (if bool_decide (is_Some (_secret_api_key m)) then [] else ["secret_api_key"]).

Definition create_chatclient (session_id : option string) : M World nat :=
  fun w =>
    if negb (validate_configuration (self w)) then
      (w, Raise (Exn InvalidParameterError
                   ("Configuration incomplete. Missing: "
                    +:+ Py.repr_list (missing_config (self w))
                    +:+ ". Use configure_api() method first.")))
    else
      St.try_except
        (session_id <-
           match session_id with
           | None =>
               St.ret ("session_"
                       +:+ Py.str_int (Z.of_nat (length (_active_clients (self w)))))
           | Some s =>
               if negb (Py.truthy (Py.strip s)) then
                 St.raise (Exn InvalidParameterError "Session ID cannot be empty")
               else St.ret s
           end;;
         secret <-
           St.lift (match _secret_api_key (self w) with
                    | Some k => Return k
                    | None =>
                        Raise (Exn AttributeError
                                 "'APIConnectionManager' object has no attribute '_secret_api_key'")
                    end);;
         client <-
           St.lift (ChatClient.__init__ session_id
                      (ConnectionParams.copy (_connection_params (self w))) secret);;
         fun w =>
           ({| self := set__active_clients
                         (_active_clients (self w) ++ [length (heap w)]) (self w);
               heap := heap w ++ [client] |},
            Return (length (heap w))))
        (fun e =>
           if isinstance e InvalidParameterError || isinstance e APIClientError
              || isinstance e UnsupportedAPITypeError then St.raise e
           else
             St.raise
               (Exn APIClientError
                  ("Failed to create ChatClient for provider '"
                   +:+ default "unknown"
                         (ConnectionParams.provider (_connection_params (self w)))
                   +:+ "': " +:+ msg e)))
        w.

(** Every tracked session is closed in the store, then the list is
    cleared. *)
Definition close_all_clients (w : World) : World :=
  {| self := set__active_clients [] (self w);
     heap := foldl (fun h a => alter ChatClient.close a h) (heap w)
                   (_active_clients (self w)) |}.

(** A call on the manager alone, seen from the world. *)
Definition on_self {A} (f : M t A) : M World A :=
  fun w => let '(m, r) := f (self w) in ({| self := m; heap := heap w |}, r).

(** A call on the session at address [a]. *)
Definition on_client {A} (a : nat) (f : M ChatClient.t A) : M World (option A) :=
  fun w =>
    match heap w !! a with
    | None => (w, Return None)
    | Some c =>
        let '(c', r) := f c in
        ({| self := self w; heap := <[a := c']> (heap w) |},
         match r with Return x => Return (Some x) | Raise e => Raise e end)
    end.
(** The dict returned by [get_connection_params]: every key is there, with
    the empty string when the manager does not hold it. *)
Record ConnectionInfo := {
  info_provider : string;
  info_config_index : Z + string;
  info_api_type : string;
  info_endpoint_url : string;
  info_model_name : string;
  info_init_config_msg : string }.

Definition get_connection_params (m : t) : ConnectionInfo :=
  let p := _connection_params m in
  {| info_provider := default EmptyString (ConnectionParams.provider p);
     info_config_index :=
       from_option inl (inr EmptyString) (ConnectionParams.config_index p);
     info_api_type := default EmptyString (ConnectionParams.api_type p);
     info_endpoint_url := default EmptyString (ConnectionParams.endpoint_url p);
     info_model_name := default EmptyString (ConnectionParams.model_name p);
     info_init_config_msg := default EmptyString (ConnectionParams.init_config_msg p) |}.

(** The helpers that delegate to [ProvidersConfigHandler]. *)
Definition get_available_providers (env : Env) : list string :=
  ProvidersConfigHandler.available_providers env.

Definition get_provider_configs (env : Env) (provider : string)
  : outcome (list ProvidersConfigParams.t) :=
  ProvidersConfigHandler.available_provider_configs env provider.

Definition get_supported_api (env : Env) (provider : string) (config_index : Z)
  : outcome (list string) :=
  ProvidersConfigHandler.get_provider_api_supported env provider config_index.
End APIConnectionManager.

(** ** [_utils.config_loaders]

    The three loaders are zero-argument functions under
    [lru_cache(maxsize=1)]: a value that was returned is kept and returned
    again until [cache_clear]; a call that raises stores nothing. What
    opening and parsing a file gives is the collaborator here. *)

Module config_loaders.

(** The outcome of [open] followed by [json.load]: the parsed content, a
    [FileNotFoundError], a [json.JSONDecodeError], or another exception
    (a permission error, say); the strings are [str(e)]. *)
Inductive file_read (A : Type) :=
| FileContent (content : A)
| FileNotFound (text : string)
| FileMalformed (text : string)
| FileError (e : exn).
Arguments FileContent {A} content.
Arguments FileNotFound {A} text.
Arguments FileMalformed {A} text.
Arguments FileError {A} e.

(** The configuration directory as it is on disk at some moment, and the
    printed paths of the three files. *)
Record Files := {
  PROVIDER_FILE_PATH : string;
  SECRET_FILE_PATH : string;
  DEFAULTS_FILE_PATH : string;
  providers_json : file_read (list (string * list ProvidersConfigParams.t));
  secret_json : file_read (gmap string string);
  defaults_json : file_read json }.

(** The three caches. *)
Record Cache := {
  providers_cache : option (list (string * list ProvidersConfigParams.t));
  secrets_cache : option (gmap string string);
  defaults_cache : option json }.

(** The body of a loader: the two caught exceptions become a [ValueError]
    naming the file, anything else is raised as it is. *)
Definition load_file {A} (what path : string) (r : file_read A) : outcome A :=
  match r with
  | FileContent v => Return v
  | FileNotFound text | FileMalformed text =>
      Raise (Exn ValueError
               ("Failed to load " +:+ what +:+ " from " +:+ path +:+ ": " +:+ text))
  | FileError e => Raise e
  end.

Definition load_providers_file (fs : Files)
  : M Cache (list (string * list ProvidersConfigParams.t)) :=
  fun c =>
    match providers_cache c with
    | Some v => (c, Return v)
    | None =>
        match load_file "provider config" (PROVIDER_FILE_PATH fs) (providers_json fs) with
        | Return v =>
            ({| providers_cache := Some v; secrets_cache := secrets_cache c;
                defaults_cache := defaults_cache c |}, Return v)
        | Raise e => (c, Raise e)
        end
    end.

Definition load_secrets_config (fs : Files) : M Cache (gmap string string) :=
  fun c =>
    match secrets_cache c with
    | Some v => (c, Return v)
    | None =>
        match load_file "secrets config" (SECRET_FILE_PATH fs) (secret_json fs) with
        | Return v =>
            ({| providers_cache := providers_cache c; secrets_cache := Some v;
                defaults_cache := defaults_cache c |}, Return v)
        | Raise e => (c, Raise e)
        end
    end.

Definition load_defaults_config (fs : Files) : M Cache json :=
  fun c =>
    match defaults_cache c with
    | Some v => (c, Return v)
    | None =>
        match load_file "defaults config" (DEFAULTS_FILE_PATH fs) (defaults_json fs) with
        | Return v =>
            ({| providers_cache := providers_cache c; secrets_cache := secrets_cache c;
                defaults_cache := Some v |}, Return v)
        | Raise e => (c, Raise e)
        end
    end.

Definition clear_config_cache (c : Cache) : Cache :=
  {| providers_cache := None; secrets_cache := None; defaults_cache := None |}.
End config_loaders.

(** ** [_utils.type_converters]

    The providers file is a dict: its keys are distinct, so the assignment
    [filtered[provider_name] = ...] of the source appends an entry. *)

Module type_converters.
Local Open Scope outcome_scope.

(** [config['api_supported']] *)
Definition api_supported_item (c : ProvidersConfigParams.t) : outcome (list string) :=
  match ProvidersConfigParams.api_supported c with
  | Some apis => Return apis
  | None => Raise (KeyError_of "api_supported")
  end.

(** [[config for config in configs if api_type in config['api_supported']]] *)
Fixpoint matching_configs (api_type : string) (configs : list ProvidersConfigParams.t)
  : outcome (list ProvidersConfigParams.t) :=
  match configs with
  | [] => Return []
  | config :: rest =>
      let! apis := api_supported_item config in
      let! kept := matching_configs api_type rest in
      Return (if Py.mem api_type apis then config :: kept else kept)
  end.

Fixpoint filter_providers_by_api_type
    (providers : list (string * list ProvidersConfigParams.t)) (api_type : string)
  : outcome (list (string * list ProvidersConfigParams.t)) :=
  match providers with
  | [] => Return []
  | (provider_name, configs) :: rest =>
      let! matching := matching_configs api_type configs in
      let! filtered := filter_providers_by_api_type rest api_type in
      Return (match matching with
              | [] => filtered
              | _ => (provider_name, matching) :: filtered
              end)
  end.

(** The inner loop of [extract_supported_apis], on the set built so far. *)
Fixpoint update_supported_apis (configs : list ProvidersConfigParams.t)
    (supported_apis : gset string) : outcome (gset string) :=
  match configs with
  | [] => Return supported_apis
  | config :: rest =>
      let! apis := api_supported_item config in
      update_supported_apis rest (supported_apis ∪ list_to_set apis)
  end.

Fixpoint extract_supported_apis_from
    (providers : list (string * list ProvidersConfigParams.t))
    (supported_apis : gset string) : outcome (gset string) :=
  match providers with
  | [] => Return supported_apis
  | (_, configs) :: rest =>
      let! supported_apis := update_supported_apis configs supported_apis in
      extract_supported_apis_from rest supported_apis
  end.

Definition extract_supported_apis
    (providers : list (string * list ProvidersConfigParams.t)) : outcome (gset string) :=
  extract_supported_apis_from providers ∅.

(** One turn of the loop of [validate_provider_config_fields]: the field is
    present, and it is not a blank string, an empty list or an empty
    dict. *)
Definition field_valid (config : ProvidersConfigParams.t) (field : ProviderAttributes)
  : bool :=
  let str_ok (v : option string) := from_option (fun s => Py.truthy (Py.strip s)) false v in
  match field with
  | a_config_name => str_ok (ProvidersConfigParams.config_name config)
  | a_model_url => str_ok (ProvidersConfigParams.model_url config)
  | a_model_name => str_ok (ProvidersConfigParams.model_name config)
  | a_init_config_msg => str_ok (ProvidersConfigParams.init_config_msg config)
  | a_api_supported =>
      match ProvidersConfigParams.api_supported config with
      | Some (_ :: _) => true
      | _ => false
      end
  | a_api_endpoints =>
      match ProvidersConfigParams.api_endpoints config with
      | Some (_ :: _) => true
      | _ => false
      end
  end.

Definition validate_provider_config_fields (config : ProvidersConfigParams.t) : bool :=
  forallb (field_valid config) PROVIDER_ATTRIBUTES.
End type_converters.

(** ** Data used to exercise the definitions *)

Module Scenario.
(** The catalog of the specification's scenario: provider ACME with one
    configuration, wired to the secret [m1_key]. *)
Definition acme : ProvidersConfigParams.t :=
  ProvidersConfigParams.Build
    (Some "m1_key") (Some "http://x") (Some "m1") (Some "hi")
    (Some ["openai"]) (Some [("openai", "http://x/v1")]).

Definition env : Env :=
  {| providers_file := [("ACME", [acme])];
     secrets := {["m1_key" := "sk-test"]};
     PROVIDER_NAMES := ["ACME"] |}.

(** The same catalog with an empty secrets table. *)
Definition env_no_secret : Env :=
  {| providers_file := [("ACME", [acme])];
     secrets := ∅;
     PROVIDER_NAMES := ["ACME"] |}.

(** A configuration without the key [api_supported]. *)
Definition bare : ProvidersConfigParams.t :=
  ProvidersConfigParams.Build
    (Some "m1_key") (Some "http://x") (Some "m1") (Some "hi") None
    (Some [("openai", "http://x/v1")]).

Definition env_bare : Env :=
  {| providers_file := [("ACME", [bare])];
     secrets := {["m1_key" := "sk-test"]};
     PROVIDER_NAMES := ["ACME"] |}.

(** Two providers; the second one refers to a secret that the table does
    not hold. *)
Definition other : ProvidersConfigParams.t :=
  ProvidersConfigParams.Build
    (Some "other_key") (Some "http://y") (Some "m2") (Some "hello")
    (Some ["requests"]) (Some [("requests", "http://y/chat")]).

Definition env_two : Env :=
  {| providers_file := [("ACME", [acme]); ("OTHER", [other])];
     secrets := {["m1_key" := "sk-test"]};
     PROVIDER_NAMES := ["ACME"; "OTHER"] |}.

(** The body [{"error": {"message": "boom"}}] answered with status 500. *)
Definition boom_text : string :=
  "{" +:+ Py.dq +:+ "error" +:+ Py.dq +:+ ": {" +:+ Py.dq +:+ "message" +:+ Py.dq
  +:+ ": " +:+ Py.dq +:+ "boom" +:+ Py.dq +:+ "}}".

Definition boom : Response.t :=
  Response.Build 500 boom_text
    (Return (JObj [("error", JObj [("message", JStr "boom")])])).

(** The body [{"error": "boom"}] answered with status 500. *)
Definition flat_text : string :=
  "{" +:+ Py.dq +:+ "error" +:+ Py.dq +:+ ": " +:+ Py.dq +:+ "boom" +:+ Py.dq +:+ "}".

Definition flat : Response.t :=
  Response.Build 500 flat_text (Return (JObj [("error", JStr "boom")])).

(** Collaborators: validation accepts objects only, every request is
    answered by [boom], the SDK answers with one assistant choice. *)
Definition ext : External :=
  {| model_validate := fun d =>
       match d with
       | JObj _ => Return (ChatCompletionResponse.Build None None None None None None None)
       | _ => Raise (Exn ValidationError "1 validation error for ChatCompletionResponse")
       end;
     post := fun _ _ _ _ => Return boom;
     create := fun _ _ model _ =>
       Return (ChatCompletion.Build "cmpl-1" "chat.completion" 0 model
                 [ChatCompletion.Choice 0 assistant (Some "pong") (Some "stop")]
                 None None) |}.

(** A manager configured for ACME over the catalog [env], and the world it
    lives in. *)
Definition manager : APIConnectionManager.t :=
  fst (APIConnectionManager.configure_api env "ACME" 0 "openai"
         APIConnectionManager.__init__).

Definition world : APIConnectionManager.World :=
  {| APIConnectionManager.self := manager; APIConnectionManager.heap := [] |}.

(** A session as the factory builds it for the REST transport. *)
Definition rest_session : ChatClient.t :=
  ChatClient.Build "session_0" false "sk-test"
    (ConnectionParams.Build (Some "ACME") (Some 0) (Some "requests")
       (Some "http://x/chat") (Some "m1") (Some "hi"))
    []
    (CompatibleClient.Build CompatibleClientDispatcher._registry
       "requests" "http://x/chat" "sk-test" "m1" None (Some (30, 60)) 0)
    [].

(** A configuration without the key [api_endpoints]. *)
Definition no_endpoints : ProvidersConfigParams.t :=
  ProvidersConfigParams.Build
    (Some "m1_key") (Some "http://x") (Some "m1") (Some "hi") (Some ["openai"]) None.

Definition env_no_endpoints : Env :=
  {| providers_file := [("ACME", [no_endpoints])];
     secrets := {["m1_key" := "sk-test"]};
     PROVIDER_NAMES := ["ACME"] |}.

(** A configuration directory holding the catalog of [env], and the same
    directory after the providers file was removed. *)
Definition files : config_loaders.Files :=
  {| config_loaders.PROVIDER_FILE_PATH := "config/providers.json";
     config_loaders.SECRET_FILE_PATH := "config/secret.json";
     config_loaders.DEFAULTS_FILE_PATH := "config/defaults.json";
     config_loaders.providers_json := config_loaders.FileContent (providers_file env);
     config_loaders.secret_json := config_loaders.FileContent (secrets env);
     config_loaders.defaults_json :=
       config_loaders.FileNotFound "[Errno 2] No such file or directory" |}.

Definition files_removed : config_loaders.Files :=
  {| config_loaders.PROVIDER_FILE_PATH := "config/providers.json";
     config_loaders.SECRET_FILE_PATH := "config/secret.json";
     config_loaders.DEFAULTS_FILE_PATH := "config/defaults.json";
     config_loaders.providers_json :=
       config_loaders.FileNotFound "[Errno 2] No such file or directory";
     config_loaders.secret_json := config_loaders.FileContent (secrets env);
     config_loaders.defaults_json :=
       config_loaders.FileNotFound "[Errno 2] No such file or directory" |}.

(** One provider with two configurations. *)
Definition env_two_configs : Env :=
  {| providers_file := [("ACME", [acme; other])];
     secrets := {["m1_key" := "sk-test"]};
     PROVIDER_NAMES := ["ACME"] |}.

(** A session as the factory builds it for the OpenAI transport. *)
Definition openai_session : ChatClient.t :=
  ChatClient.Build "session_0" false "sk-test"
    (ConnectionParams.Build (Some "ACME") (Some 0) (Some "openai")
       (Some "http://x/v1") (Some "m1") (Some "hi"))
    []
    (CompatibleClient.Build CompatibleClientDispatcher._registry
       "openai" "http://x/v1" "sk-test" "m1" None None 0)
    [].

(** A status 200 whose body is 600 characters of text that is not JSON. *)
Definition long_not_json : Response.t :=
  Response.Build 200 (Py.replicate 600 "x")
    (Raise (Exn JSONDecodeError "Expecting value: line 1 column 1 (char 0)")).

(** A status 200 whose body is JSON but not a response object. *)
Definition not_a_response : Response.t :=
  Response.Build 200 "[]" (Return (JList [])).

(** A session for the api type [huggingface_hub], which is in the
    vocabulary of api types but has no registered transport. *)
Definition hub_session : ChatClient.t :=
  ChatClient.Build "session_0" false "sk-test"
    (ConnectionParams.Build (Some "ACME") (Some 0) (Some "huggingface_hub")
       (Some "http://x/hub") (Some "m1") (Some "hi"))
    []
    (CompatibleClient.Build CompatibleClientDispatcher._registry
       "huggingface_hub" "http://x/hub" "sk-test" "m1" None None 0)
    [].

(** Collaborators whose network is down: every request raises. *)
Definition ext_down : External :=
  {| model_validate := model_validate ext;
     post := fun _ _ _ _ => Raise (Exn OtherError "connection refused");
     create := fun _ _ _ _ => Raise (Exn OtherError "connection refused") |}.

(** The package as it is imported: [PROVIDER_NAMES] is the fixed list.
    The catalog serves OPENAI and OPENROUTER and has no entry for
    HUGGINGFACE; the secrets table holds the key of OPENAI only. *)
Definition openai_conf : ProvidersConfigParams.t :=
  ProvidersConfigParams.Build
    (Some "openai_key") (Some "http://x") (Some "m1") (Some "hi")
    (Some ["openai"]) (Some [("openai", "http://x/v1")]).

Definition openrouter_conf : ProvidersConfigParams.t :=
  ProvidersConfigParams.Build
    (Some "openrouter_key") (Some "http://y") (Some "m2") (Some "hello")
    (Some ["requests"]) (Some [("requests", "http://y/chat")]).

Definition env_package : Env :=
  {| providers_file := [("OPENAI", [openai_conf]); ("OPENROUTER", [openrouter_conf])];
     secrets := {["openai_key" := "sk-test"]};
     PROVIDER_NAMES := ProviderName |}.

(** The same package after the provider ACME was added to the providers
    file: the fixed list does not follow. *)
Definition env_added : Env :=
  {| providers_file := [("OPENAI", [openai_conf]); ("ACME", [acme])];
     secrets := {["openai_key" := "sk-test"; "m1_key" := "sk-test"]};
     PROVIDER_NAMES := ProviderName |}.

(** The same package with a blank secret for OPENAI. *)
Definition env_blank_secret : Env :=
  {| providers_file := providers_file env_package;
     secrets := {["openai_key" := "  "]};
     PROVIDER_NAMES := ProviderName |}.

(** Parameters whose init message is the empty string. *)
Definition no_init_params : ConnectionParams.t :=
  ConnectionParams.Build (Some "OPENAI") (Some 0) (Some "openai")
    (Some "http://x/v1") (Some "m1") (Some EmptyString).
End Scenario.

(** * Properties *)

(** ** Strings *)

Lemma prefix_refl (k : string) : String.prefix k k = true.
Proof.
  induction k as [|c k IH]; simpl; [reflexivity|].
  destruct (ascii_dec c c); [exact IH | congruence].
Qed.

Lemma prefix_nil_l (h : string) : String.prefix EmptyString h = true.
Proof. destruct h; reflexivity. Qed.

Lemma prefix_app_r (k a b : string) :
  String.prefix k a = true -> String.prefix k (a +:+ b) = true.
Proof.
  revert a. induction k as [|c k IH]; intros a H; [apply prefix_nil_l|].
  destruct a as [|d a]; simpl in *; [discriminate|].
  destruct (ascii_dec c d); [auto | discriminate].
Qed.

Lemma contains_unfold (k h : string) :
  Py.contains k h
  = String.prefix k h
    || match h with EmptyString => false | String _ r => Py.contains k r end.
Proof. destruct h; reflexivity. Qed.

Lemma contains_refl (k : string) : Py.contains k k = true.
Proof. rewrite contains_unfold, prefix_refl. reflexivity. Qed.

Lemma contains_app_r (k a b : string) :
  Py.contains k a = true -> Py.contains k (a +:+ b) = true.
Proof.
  induction a as [|c a IH]; intros H.
  - destruct k; simpl in H; [|discriminate].
    rewrite contains_unfold, prefix_nil_l. reflexivity.
  - rewrite contains_unfold in H. apply orb_true_iff in H as [H|H].
    + rewrite contains_unfold, (prefix_app_r _ _ _ H). reflexivity.
    + change (String c a +:+ b) with (String c (a +:+ b)).
      rewrite contains_unfold, (IH H). apply orb_true_r.
Qed.

Lemma contains_app_l (k a b : string) :
  Py.contains k b = true -> Py.contains k (a +:+ b) = true.
Proof.
  intros H. induction a as [|c a IH]; [exact H|].
  change (String c a +:+ b) with (String c (a +:+ b)).
  rewrite contains_unfold, IH. apply orb_true_r.
Qed.

Lemma take_length (n : nat) (s : string) :
  String.length (Py.take n s) = Nat.min n (String.length s).
Proof.
  revert s. induction n as [|n IH]; intros [|c s]; simpl; auto.
Qed.

Lemma take_prefix (n : nat) (s : string) : String.prefix (Py.take n s) s = true.
Proof.
  revert s. induction n as [|n IH]; intros [|c s]; simpl; auto.
  destruct (ascii_dec c c); [apply IH | congruence].
Qed.

(** ** The dispatcher *)

(** C7, as stated, fails: for the registry of the package and the
    unregistered type [huggingface_hub], the error names the requested type
    but none of the registered ones. *)
Lemma dispatcher_error_omits_registered_types :
  Py.get "huggingface_hub"
         (CompatibleClientDispatcher.registry CompatibleClientDispatcher._registry) = None
  /\ Py.keys (CompatibleClientDispatcher.registry CompatibleClientDispatcher._registry)
     = ["openai"; "requests"]
  /\ exists m,
       CompatibleClientDispatcher.__call__ CompatibleClientDispatcher._registry
         "huggingface_hub" "http://x/v1" "sk-test" "m1"
       = Raise (Exn UnsupportedAPITypeError m)
       /\ Py.contains "openai" m = false
       /\ Py.contains "requests" m = false.
Proof.
  split; [reflexivity|]. split; [reflexivity|].
  eexists. split; [reflexivity|]. split; reflexivity.
Qed.

(** C7, amended: for every api-type identifier with no registered
    constructor, the dispatcher raises [UnsupportedAPITypeError] with the
    message [No handler for: <type>], which names the requested type (and
    nothing else). *)
Theorem dispatcher_unregistered_type
    (d : CompatibleClientDispatcher.t) (key base_url api_key model_name : string) :
  Py.get key (CompatibleClientDispatcher.registry d) = None ->
  CompatibleClientDispatcher.__call__ d key base_url api_key model_name
  = Raise (Exn UnsupportedAPITypeError ("No handler for: " +:+ key))
  /\ Py.contains key ("No handler for: " +:+ key) = true.
Proof.
  intros H. unfold CompatibleClientDispatcher.__call__. rewrite H.
  split; [reflexivity|]. apply contains_app_l, contains_refl.
Qed.

Lemma dispatcher_unregistered_type_witness :
  Py.get "huggingface_hub"
         (CompatibleClientDispatcher.registry CompatibleClientDispatcher._registry) = None
  /\ CompatibleClientDispatcher.__call__ CompatibleClientDispatcher._registry
       "huggingface_hub" "http://x/v1" "sk-test" "m1"
     = Raise (Exn UnsupportedAPITypeError ("No handler for: " +:+ "huggingface_hub"))
  /\ Py.contains "huggingface_hub" ("No handler for: " +:+ "huggingface_hub") = true.
Proof.
  split; [reflexivity|].
  apply (dispatcher_unregistered_type CompatibleClientDispatcher._registry
           "huggingface_hub" "http://x/v1" "sk-test" "m1").
  reflexivity.
Defined.

(** A registered type is instantiated by its class. *)
Lemma dispatcher_registered_type
    (d : CompatibleClientDispatcher.t) (h : handler_class)
    (key base_url api_key model_name : string) :
  Py.get key (CompatibleClientDispatcher.registry d) = Some h ->
  CompatibleClientDispatcher.__call__ d key base_url api_key model_name
  = CompatibleClientDispatcher.instantiate h base_url api_key model_name.
Proof. intros H. unfold CompatibleClientDispatcher.__call__. rewrite H. reflexivity. Qed.

(** ** The configuration store *)

(** A provider of the catalog and an index within its list select a
    configuration. *)
Lemma get_provider_config_valid
    (env : Env) (provider : string) (l : list ProvidersConfigParams.t) (i : nat)
    (c : ProvidersConfigParams.t) :
  Py.get provider (providers_file env) = Some l ->
  l !! i = Some c ->
  ProvidersConfigHandler.get_provider_config env provider (Z.of_nat i) = Return c.
Proof.
  intros Hp Hi. unfold ProvidersConfigHandler.get_provider_config. rewrite Hp.
  pose proof (lookup_lt_Some _ _ _ Hi) as Hlt.
  destruct (Z.leb_spec (Z.of_nat (length l)) (Z.of_nat i)); [lia|].
  unfold Py.index.
  destruct (Z.leb_spec 0 (Z.of_nat i)); [|lia].
  destruct (Z.ltb_spec (Z.of_nat i) (Z.of_nat (length l))); [|lia].
  simpl. rewrite Nat2Z.id, Hi. reflexivity.
Qed.

(** C2, as stated, fails: in a catalog whose configuration has no
    [api_supported] key, the pair (ACME, 0) is valid, and the operation
    neither returns a non-empty collection nor raises: it returns the empty
    list. *)
Lemma get_provider_api_supported_absent_is_empty :
  ProvidersConfigHandler.get_provider_config Scenario.env_bare "ACME" 0
  = Return Scenario.bare
  /\ ProvidersConfigParams.api_supported Scenario.bare = None
  /\ ProvidersConfigHandler.get_provider_api_supported Scenario.env_bare "ACME" 0
     = Return []
  /\ ~ (exists l, ProvidersConfigHandler.get_provider_api_supported
                    Scenario.env_bare "ACME" 0 = Return l /\ l <> [])
  /\ ~ (exists e, ProvidersConfigHandler.get_provider_api_supported
                    Scenario.env_bare "ACME" 0 = Raise e).
Proof.
  repeat split; try reflexivity.
  - intros [l [H Hl]]. apply Hl. cbv in H. congruence.
  - intros [e H]. cbv in H. discriminate.
Qed.

(** C2, amended: for every valid (provider, index) pair of a loaded
    catalog, the operation returns the configuration's [api_supported] list
    as it is stored, and the empty list when the key is absent; it does not
    raise. *)
Theorem get_provider_api_supported_valid
    (env : Env) (provider : string) (l : list ProvidersConfigParams.t) (i : nat)
    (c : ProvidersConfigParams.t) :
  Py.get provider (providers_file env) = Some l ->
  l !! i = Some c ->
  ProvidersConfigHandler.get_provider_api_supported env provider (Z.of_nat i)
  = Return (match ProvidersConfigParams.api_supported c with
            | Some apis => apis
            | None => []
            end).
Proof.
  intros Hp Hi. unfold ProvidersConfigHandler.get_provider_api_supported.
  rewrite (get_provider_config_valid env provider l i c Hp Hi). simpl.
  destruct (ProvidersConfigParams.api_supported c); reflexivity.
Qed.

Lemma get_provider_api_supported_valid_witness :
  Py.get "ACME" (providers_file Scenario.env) = Some [Scenario.acme]
  /\ [Scenario.acme] !! 0%nat = Some Scenario.acme
  /\ ProvidersConfigHandler.get_provider_api_supported Scenario.env "ACME" (Z.of_nat 0)
     = Return ["openai"].
Proof.
  split; [reflexivity|]. split; [reflexivity|].
  apply (get_provider_api_supported_valid Scenario.env "ACME" [Scenario.acme] 0
           Scenario.acme); reflexivity.
Defined.

(** ** Credentials *)

(** C3, as stated, fails: with the key [m1_key] absent from the secrets
    table, resolution by name raises a [ValueError] with a descriptive
    message while resolution by provider and index, which resolves the same
    key, raises a bare [KeyError]: the two paths do not fail the same way. *)
Lemma get_secret_api_key_paths_fail_differently :
  ProvidersConfigHandler.get_provider_config_attribute
    Scenario.env_no_secret "ACME" a_config_name 0 = Return "m1_key"
  /\ secrets Scenario.env_no_secret !! "m1_key" = None
  /\ auth_keys.get_secret_api_key Scenario.env_no_secret "ACME" (Some "m1_key") 0
     = Raise (Exn ValueError "No API key found for ACME with config name m1_key")
  /\ auth_keys.get_secret_api_key Scenario.env_no_secret "ACME" None 0
     = Raise (Exn KeyError "'m1_key'")
  /\ auth_keys.get_secret_api_key Scenario.env_no_secret "ACME" None 0
     <> auth_keys.get_secret_api_key Scenario.env_no_secret "ACME" (Some "m1_key") 0.
Proof.
  repeat split; try reflexivity.
  vm_compute. discriminate.
Qed.

(** C3, amended: resolution by an explicit key name that the secrets table
    lacks raises [ValueError] with a message naming the provider and the
    requested key; resolution by provider and index first resolves the
    configuration's [config_name] through the configuration store and then
    looks that key up in the secrets table, returning the secret when it is
    there and raising [KeyError] carrying the key when it is not. *)
Theorem get_secret_api_key_resolution (env : Env) (provider : string) :
  (forall (key : string) (i : Z),
      secrets env !! key = None ->
      exists m,
        auth_keys.get_secret_api_key env provider (Some key) i = Raise (Exn ValueError m)
        /\ Py.contains key m = true /\ Py.contains provider m = true)
  /\ (forall (i : Z) (ref : string),
         ProvidersConfigHandler.get_provider_config_attribute env provider a_config_name i
         = Return ref ->
         auth_keys.get_secret_api_key env provider None i
         = match secrets env !! ref with
           | Some k => Return k
           | None => Raise (KeyError_of ref)
           end).
Proof.
  split.
  - intros key i H. eexists. split; [|split].
    + simpl. unfold auth_keys._get_api_key_from_config_name. rewrite H. reflexivity.
    + do 3 apply contains_app_l. apply contains_refl.
    + apply contains_app_l, contains_app_r, contains_refl.
  - intros i ref H. simpl. unfold auth_keys._get_api_key_from_config_index.
    rewrite H. simpl. destruct (secrets env !! ref); reflexivity.
Qed.

Lemma get_secret_api_key_resolution_witness :
  (secrets Scenario.env_no_secret !! "m1_key" = None
   /\ exists m,
       auth_keys.get_secret_api_key Scenario.env_no_secret "ACME" (Some "m1_key") 0
       = Raise (Exn ValueError m)
       /\ Py.contains "m1_key" m = true /\ Py.contains "ACME" m = true)
  /\ (ProvidersConfigHandler.get_provider_config_attribute
        Scenario.env "ACME" a_config_name 0 = Return "m1_key"
      /\ auth_keys.get_secret_api_key Scenario.env "ACME" None 0
         = match secrets Scenario.env !! "m1_key" with
           | Some k => Return k
           | None => Raise (KeyError_of "m1_key")
           end).
Proof.
  split.
  - split; [reflexivity|].
    apply (proj1 (get_secret_api_key_resolution Scenario.env_no_secret "ACME")
             "m1_key" 0).
    reflexivity.
  - split; [reflexivity|].
    apply (proj2 (get_secret_api_key_resolution Scenario.env "ACME") 0 "m1_key").
    reflexivity.
Defined.

(** ** Chat sessions *)

(** [strip] leaves nothing exactly when the text is empty or
    whitespace-only. *)
Lemma lstrip_all_space (s : string) : Py.all_space (Py.lstrip s) = Py.all_space s.
Proof.
  induction s as [|c s IH]; simpl; [reflexivity|].
  destruct (Py.isspace c) eqn:E; simpl; [exact IH | rewrite E; reflexivity].
Qed.

Lemma rstrip_truthy (s : string) : Py.truthy (Py.rstrip s) = negb (Py.all_space s).
Proof.
  induction s as [|c s IH]; simpl; [reflexivity|].
  destruct (Py.rstrip s) eqn:E; simpl in *.
  - destruct (Py.all_space s); [|discriminate].
    destruct (Py.isspace c); reflexivity.
  - destruct (Py.all_space s); [discriminate|].
    rewrite andb_false_r. reflexivity.
Qed.

Lemma strip_truthy (s : string) : Py.truthy (Py.strip s) = negb (Py.all_space s).
Proof. unfold Py.strip. rewrite rstrip_truthy, lstrip_all_space. reflexivity. Qed.

Lemma blank_all_space (s : string) : Py.blank s = Py.all_space s.
Proof.
  unfold Py.blank. rewrite strip_truthy, negb_involutive.
  destruct s; simpl; [reflexivity|]. reflexivity.
Qed.

Lemma filter_nil_In {A} (f : A -> bool) (l : list A) (x : A) :
  List.filter f l = [] -> In x l -> f x = false.
Proof.
  induction l as [|a l IH]; simpl; intros H Hin; [contradiction|].
  destruct (f a) eqn:E; [discriminate|].
  destruct Hin as [<-|Hin]; [exact E | exact (IH H Hin)].
Qed.

(** What the constructor of a session guarantees when it returns. *)
Lemma ChatClient_init_returns
    (session_id : string) (p : ConnectionParams.t) (k : string) (c : ChatClient.t) :
  ChatClient.__init__ session_id p k = Return c ->
  ChatClient._session_id c = session_id
  /\ ChatClient._is_closed c = false
  /\ ChatClient._chat_history c = []
  /\ ChatClient._connection_params c = p
  /\ Py.blank session_id = false
  /\ exists init, ConnectionParams.init_config_msg p = Some init
                  /\ Py.blank init = false.
Proof.
  unfold ChatClient.__init__. intros H.
  destruct (ConnectionParams.is_empty p); [discriminate|].
  destruct (Py.blank k); [discriminate|].
  destruct (Py.blank session_id) eqn:Hsid; [discriminate|].
  destruct (negb (bool_decide (_ = []))) eqn:Hm in H; [discriminate|].
  destruct (negb (bool_decide (_ = []))) eqn:He in H; [discriminate|].
  assert (Hinit : exists init, ConnectionParams.init_config_msg p = Some init
                               /\ Py.blank init = false).
  { apply negb_false_iff, bool_decide_eq_true in He.
    assert (Hv : ConnectionParams.empty_value p ConnectionParams.k_init_config_msg = false).
    { apply (filter_nil_In _ _ _ He). unfold ChatClient.required_params. simpl. tauto. }
    simpl in Hv. destruct (ConnectionParams.init_config_msg p) as [init|];
      [|discriminate].
    exists init. split; [reflexivity | exact Hv]. }
  destruct (obind _ _) as [cc|e] in H.
  - injection H as <-. simpl. repeat split; try reflexivity; assumption.
  - destruct (isinstance e InvalidParameterError || isinstance e UnsupportedAPITypeError);
      discriminate.
Qed.

(** The steps of a session never write its connection parameters. *)
Lemma step_connection_params (c c' : ChatClient.t) :
  ChatClient.step c c' ->
  ChatClient._connection_params c' = ChatClient._connection_params c.
Proof.
  intros H. destruct H as [ext message c | c | c | cc c].
  - unfold ChatClient.send_message. destruct (Py.blank message); [reflexivity|].
    destruct (CompatibleClient.chat_completion _ _ _) as [cc [r|e]]; simpl.
    + destruct (ChatClient.has_content _); reflexivity.
    + destruct (_ || _); reflexivity.
  - unfold ChatClient.clear_chat_history.
    destruct (ConnectionParams.init_config_msg _); reflexivity.
  - unfold ChatClient.close. destruct (negb _); reflexivity.
  - reflexivity.
Qed.

(** Every session a program can hold has an init message that is not
    blank: the constructor refuses a blank one and no step writes the
    parameters. *)
Lemma constructible_init_config_msg (c : ChatClient.t) :
  ChatClient.constructible c ->
  exists init,
    ConnectionParams.init_config_msg (ChatClient._connection_params c) = Some init
    /\ Py.blank init = false.
Proof.
  induction 1 as [sid p k c H | c c' _ IH Hs].
  - destruct (ChatClient_init_returns _ _ _ _ H) as (_ & _ & _ & -> & _ & Hi).
    exact Hi.
  - rewrite (step_connection_params _ _ Hs). exact IH.
Qed.

(** C5: for every session a program can hold (built by the constructor and
    then used in any way, open or closed), after [clear_chat_history] the
    history contains exactly one message, and its content is the configured
    init message. That init message is never empty, because the constructor
    refuses a blank one and nothing writes the parameters afterwards: the
    second case of the claim, the fallback seed, does not arise. *)
Theorem clear_chat_history_seed (c : ChatClient.t) :
  ChatClient.constructible c ->
  exists init c',
    ConnectionParams.init_config_msg (ChatClient._connection_params c) = Some init
    /\ Py.truthy init = true
    /\ ChatClient.clear_chat_history c = (c', Return tt)
    /\ length (ChatClient._chat_history c') = 1%nat
    /\ ChatClient._chat_history c' = [ChatMessage.Build user (Some init) None].
Proof.
  intros Hc. destruct (constructible_init_config_msg c Hc) as (init & Hi & Hb).
  assert (Ht : Py.truthy init = true).
  { rewrite blank_all_space in Hb. destruct init; [discriminate | reflexivity]. }
  exists init. unfold ChatClient.clear_chat_history. rewrite Hi, Ht. cbn [negb].
  eexists. split; [reflexivity|]. split; [reflexivity|]. split; [reflexivity|].
  split; reflexivity.
Qed.

Lemma clear_chat_history_seed_witness :
  let c := fst (ChatClient.send_message Scenario.ext "ping" Scenario.openai_session) in
  ChatClient.constructible c
  /\ ChatClient._chat_history c
     = [ChatMessage.Build user (Some "ping") None;
        ChatMessage.Build assistant (Some "pong") None]
  /\ exists init c',
       ConnectionParams.init_config_msg (ChatClient._connection_params c) = Some init
       /\ Py.truthy init = true
       /\ ChatClient.clear_chat_history c = (c', Return tt)
       /\ length (ChatClient._chat_history c') = 1%nat
       /\ ChatClient._chat_history c' = [ChatMessage.Build user (Some init) None].
Proof.
  intros c.
  assert (Hc : ChatClient.constructible c).
  { apply (ChatClient.used Scenario.openai_session);
      [|apply ChatClient.step_send_message].
    apply (ChatClient.constructed "session_0"
             (ChatClient._connection_params Scenario.openai_session) "sk-test").
    reflexivity. }
  split; [exact Hc|]. split; [reflexivity|].
  apply (clear_chat_history_seed c Hc).
Defined.

(** A second [close] is the identity. *)
Lemma close_close (c : ChatClient.t) :
  ChatClient.close (ChatClient.close c) = ChatClient.close c.
Proof.
  unfold ChatClient.close. destruct (ChatClient._is_closed c) eqn:E; simpl.
  - rewrite E. reflexivity.
  - reflexivity.
Qed.

(** C9: closing a session twice. [close] has no raising path, so it is a
    function on the session's state. The second call changes nothing: no
    further call of the transport's [close], no further released resource,
    no further printed line. On the first call of an open session the
    transport's [close] is called once, the history is emptied and the
    session is marked closed. *)
Theorem close_twice (c : ChatClient.t) :
  ChatClient.close (ChatClient.close c) = ChatClient.close c
  /\ ChatClient._is_closed (ChatClient.close c) = true
  /\ (CompatibleClient.close_calls
        (ChatClient.compatible_client (ChatClient.close (ChatClient.close c)))
      <= S (CompatibleClient.close_calls (ChatClient.compatible_client c)))%nat
  /\ (ChatClient._is_closed c = false ->
      ChatClient._chat_history (ChatClient.close c) = []
      /\ ChatClient.compatible_client (ChatClient.close c)
         = CompatibleClient.close (ChatClient.compatible_client c)
      /\ CompatibleClient.close_calls
           (ChatClient.compatible_client (ChatClient.close (ChatClient.close c)))
         = S (CompatibleClient.close_calls (ChatClient.compatible_client c))).
Proof.
  split; [apply close_close|]. rewrite close_close.
  unfold ChatClient.close.
  destruct (ChatClient._is_closed c) eqn:E; simpl.
  - repeat split; try assumption; try lia; discriminate.
  - repeat split; try reflexivity; lia.
Qed.

Lemma close_twice_witness :
  ChatClient._is_closed Scenario.rest_session = false
  /\ ChatClient.close (ChatClient.close Scenario.rest_session)
     = ChatClient.close Scenario.rest_session
  /\ ChatClient._chat_history (ChatClient.close Scenario.rest_session) = []
  /\ CompatibleClient.close_calls
       (ChatClient.compatible_client
          (ChatClient.close (ChatClient.close Scenario.rest_session))) = 1%nat.
Proof.
  pose proof (close_twice Scenario.rest_session) as (H1 & _ & _ & H4).
  specialize (H4 eq_refl) as (H5 & _ & H7).
  split; [reflexivity|]. split; [exact H1|]. split; [exact H5 | exact H7].
Defined.

(** The released-resource counter of the transport is the same after one
    and after two calls of [close]. *)
Lemma close_twice_releases (c : ChatClient.t) :
  CompatibleClient.releases
    (ChatClient.compatible_client (ChatClient.close (ChatClient.close c)))
  = CompatibleClient.releases (ChatClient.compatible_client (ChatClient.close c)).
Proof. rewrite close_close. reflexivity. Qed.

(** C10: sending a non-blank message. The user message is appended before
    the transport is called. When the transport call raises (an error of the
    package's taxonomy or any other exception) the call returns [None] and
    the history has grown by exactly that one message. When the transport
    answers, the assistant message is appended exactly when the returned
    content is non-empty. *)
Theorem send_message_history (ext : External) (c : ChatClient.t) (message : string) :
  Py.blank message = false ->
  let h := ChatClient._chat_history c ++ [ChatMessage.Build user (Some message) None] in
  (forall cc e,
      CompatibleClient.chat_completion ext h (ChatClient.compatible_client c)
      = (cc, Raise e) ->
      exists c',
        ChatClient.send_message ext message c = (c', Return None)
        /\ ChatClient._chat_history c' = h
        /\ length (ChatClient._chat_history c')
           = S (length (ChatClient._chat_history c)))
  /\ (forall cc r,
         CompatibleClient.chat_completion ext h (ChatClient.compatible_client c)
         = (cc, Return r) ->
         exists c',
           ChatClient.send_message ext message c
           = (c', Return (ChatCompletionResponse.get_content r))
           /\ ChatClient._chat_history c'
              = h ++ (if ChatClient.has_content (ChatCompletionResponse.get_content r)
                      then [ChatMessage.Build assistant
                              (ChatCompletionResponse.get_content r) None]
                      else [])).
Proof.
  intros Hb h.
  assert (Hstep : forall cc o,
             CompatibleClient.chat_completion ext h (ChatClient.compatible_client c)
             = (cc, o) ->
             ChatClient.send_message ext message c
             = match o with
               | Return response =>
                   let c1 := ChatClient.set_compatible_client cc
                               (ChatClient.set__chat_history h c) in
                   (if ChatClient.has_content (ChatCompletionResponse.get_content response)
                    then ChatClient.set__chat_history
                           (h ++ [ChatMessage.Build assistant
                                    (ChatCompletionResponse.get_content response) None])
                           c1
                    else c1,
                    Return (ChatCompletionResponse.get_content response))
               | Raise e =>
                   (ChatClient.print
                      ((if isinstance e APIClientError || isinstance e InvalidParameterError
                           || isinstance e UnsupportedAPITypeError
                           || isinstance e ResponseConversionError
                        then "API error sending message: "
                        else "Unexpected error sending message: ") +:+ msg e)
                      (ChatClient.set_compatible_client cc
                         (ChatClient.set__chat_history h c)),
                    Return None)
               end).
  { intros cc o H. unfold ChatClient.send_message. rewrite Hb.
    cbn [ChatClient._chat_history ChatClient.set__chat_history
         ChatClient.compatible_client].
    change (ChatClient._chat_history c ++ [ChatClient._create_message_user message])
      with h.
    rewrite H. destruct o as [response|e]; [reflexivity|].
    destruct (isinstance e APIClientError || isinstance e InvalidParameterError
              || isinstance e UnsupportedAPITypeError
              || isinstance e ResponseConversionError); reflexivity. }
  split.
  - intros cc e H. rewrite (Hstep _ _ H).
    eexists. split; [reflexivity|]. split; [reflexivity|].
    cbn. subst h. rewrite length_app. simpl. lia.
  - intros cc r H. rewrite (Hstep _ _ H).
    eexists. split; [reflexivity|]. cbv zeta.
    destruct (ChatClient.has_content (ChatCompletionResponse.get_content r)).
    + reflexivity.
    + rewrite app_nil_r. reflexivity.
Qed.

Lemma send_message_history_witness :
  Py.blank "ping" = false
  /\ (exists c',
         ChatClient.send_message Scenario.ext "ping" Scenario.rest_session
         = (c', Return None)
         /\ ChatClient._chat_history c' = [ChatMessage.Build user (Some "ping") None]
         /\ length (ChatClient._chat_history c') = 1%nat)
  /\ (exists c',
         ChatClient.send_message Scenario.ext "ping" Scenario.openai_session
         = (c', Return (Some "pong"))
         /\ ChatClient._chat_history c'
            = [ChatMessage.Build user (Some "ping") None;
               ChatMessage.Build assistant (Some "pong") None]).
Proof.
  split; [reflexivity|]. split.
  - eapply (proj1 (send_message_history Scenario.ext Scenario.rest_session "ping"
                     eq_refl)).
    vm_compute. reflexivity.
  - pose proof (proj2 (send_message_history Scenario.ext Scenario.openai_session "ping"
                         eq_refl)) as H.
    specialize (H _ _ eq_refl). exact H.
Defined.

(** A blank message is refused before anything is touched. *)
Lemma send_message_blank (ext : External) (c : ChatClient.t) (message : string) :
  Py.all_space message = true ->
  ChatClient.send_message ext message c
  = (c, Raise (Exn InvalidParameterError "Message cannot be empty or None")).
Proof.
  intros H. unfold ChatClient.send_message. rewrite blank_all_space, H. reflexivity.
Qed.

(** ** The REST transport *)

(** C6: a status 200 whose body fails JSON parsing ([.json()] raises the
    [JSONDecodeError] of [requests]) or fails validation against the
    response schema ([model_validate] raises pydantic's [ValidationError]);
    both classes derive from [ValueError]. The transport raises
    [ResponseConversionError]; its message ends with the first 500
    characters of the body, a snippet of at most 500 characters that differs
    from the body when the body is longer. *)
Theorem convert_response_200_failure (ext : External) (r : Response.t) (e : exn) :
  Response.status_code r = 200 ->
  (Response.json r = Raise e /\ cls e = JSONDecodeError)
  \/ (exists d, Response.json r = Return d
                /\ model_validate ext d = Raise e /\ cls e = ValidationError) ->
  let snippet := Py.take 500 (Response.text r) in
  let m := "Failed to parse JSON response: " +:+ msg e
           +:+ ". Response text: " +:+ snippet in
  RestAPICompatibleClient._convert_response ext r = Raise (Exn ResponseConversionError m)
  /\ Py.contains snippet m = true
  /\ (String.length snippet <= 500)%nat
  /\ String.prefix snippet (Response.text r) = true
  /\ ((500 < String.length (Response.text r))%nat -> snippet <> Response.text r).
Proof.
  intros Hs Hf snippet m. split; [|split; [|split; [|split]]].
  - unfold RestAPICompatibleClient._convert_response. rewrite Hs. simpl.
    destruct Hf as [[Hj Hc] | (d & Hj & Hv & Hc)].
    + rewrite Hj. simpl. unfold isinstance. rewrite Hc. reflexivity.
    + rewrite Hj. simpl. unfold RestAPICompatibleClient._from_dict. rewrite Hv.
      unfold isinstance. rewrite Hc. reflexivity.
  - subst m. do 3 apply contains_app_l. apply contains_refl.
  - subst snippet. rewrite take_length. lia.
  - apply take_prefix.
  - intros Hl Heq. apply (f_equal String.length) in Heq.
    subst snippet. rewrite take_length in Heq. lia.
Qed.

Lemma convert_response_200_failure_witness :
  Response.status_code Scenario.long_not_json = 200
  /\ (Response.json Scenario.long_not_json
      = Raise (Exn JSONDecodeError "Expecting value: line 1 column 1 (char 0)")
      /\ cls (Exn JSONDecodeError "Expecting value: line 1 column 1 (char 0)")
         = JSONDecodeError)
  /\ (500 < String.length (Response.text Scenario.long_not_json))%nat
  /\ RestAPICompatibleClient._convert_response Scenario.ext Scenario.long_not_json
     = Raise (Exn ResponseConversionError
                ("Failed to parse JSON response: "
                 +:+ "Expecting value: line 1 column 1 (char 0)"
                 +:+ ". Response text: " +:+ Py.replicate 500 "x"))
  /\ Py.take 500 (Response.text Scenario.long_not_json)
     <> Response.text Scenario.long_not_json.
Proof.
  pose proof (convert_response_200_failure Scenario.ext Scenario.long_not_json
                (Exn JSONDecodeError "Expecting value: line 1 column 1 (char 0)")
                eq_refl (or_introl (conj eq_refl eq_refl))) as (H1 & _ & _ & _ & H5).
  assert (Hl : (500 < String.length (Response.text Scenario.long_not_json))%nat)
    by (vm_compute; lia).
  split; [reflexivity|]. split; [split; reflexivity|]. split; [exact Hl|].
  split; [exact H1 | exact (H5 Hl)].
Defined.

(** The same for a body that is JSON but not a response object. *)
Lemma convert_response_200_validation_failure :
  RestAPICompatibleClient._convert_response Scenario.ext Scenario.not_a_response
  = Raise (Exn ResponseConversionError
             ("Failed to parse JSON response: "
              +:+ "1 validation error for ChatCompletionResponse"
              +:+ ". Response text: []")).
Proof. reflexivity. Qed.

(** An exception of [.json()] or of the validation that is not a
    [ValueError] is reported without the body. *)
Lemma convert_response_200_other_failure (ext : External) (r : Response.t) (e : exn) :
  Response.status_code r = 200 ->
  (Response.json r = Raise e
   \/ exists d, Response.json r = Return d /\ model_validate ext d = Raise e) ->
  isinstance e ValueError = false ->
  RestAPICompatibleClient._convert_response ext r
  = Raise (Exn ResponseConversionError
             ("Failed to convert response to ChatCompletionResponse: " +:+ msg e)).
Proof.
  intros Hs Hf Hc. unfold RestAPICompatibleClient._convert_response. rewrite Hs. simpl.
  destruct Hf as [Hj | (d & Hj & Hv)]; rewrite Hj; simpl.
  - rewrite Hc. reflexivity.
  - unfold RestAPICompatibleClient._from_dict. rewrite Hv, Hc. reflexivity.
Qed.

(** C8, the failing input: a status 500 whose JSON body has a string under
    [error]. The second [.get] is called on that string; the
    [AttributeError] is not a [ValueError], so it leaves
    [_convert_response] instead of an [APIClientError]. *)
Theorem convert_response_error_not_an_object (ext : External) :
  Response.status_code Scenario.flat = 500
  /\ Response.json Scenario.flat = Return (JObj [("error", JStr "boom")])
  /\ RestAPICompatibleClient._convert_response ext Scenario.flat
     = Raise (Exn AttributeError "'str' object has no attribute 'get'")
  /\ isinstance (Exn AttributeError "'str' object has no attribute 'get'")
       APIClientError = false.
Proof. repeat split. Qed.

(** The scenario of the specification: status 500 with an [error.message]
    of [boom]. *)
Lemma convert_response_boom (ext : External) :
  exists m,
    RestAPICompatibleClient._convert_response ext Scenario.boom
    = Raise (Exn APIClientError m)
    /\ m = "API request failed with status 500: boom"
    /\ Py.contains "500" m = true /\ Py.contains "boom" m = true.
Proof. eexists. repeat split. Qed.

(** A status other than 200 whose body is not JSON: the message carries the
    status and the first 500 characters of the body. *)
Lemma convert_response_error_not_json (ext : External) (r : Response.t) (e : exn) :
  Response.status_code r <> 200 ->
  Response.json r = Raise e ->
  isinstance e ValueError = true ->
  RestAPICompatibleClient._convert_response ext r
  = Raise (Exn APIClientError
             ("API request failed with status " +:+ Py.str_int (Response.status_code r)
              +:+ ": " +:+ Py.take 500 (Response.text r))).
Proof.
  intros Hs Hj Hc. unfold RestAPICompatibleClient._convert_response.
  destruct (Z.eqb_spec (Response.status_code r) 200); [contradiction|].
  rewrite Hj. simpl. rewrite Hc. reflexivity.
Qed.

(** A status other than 200 whose body is a JSON object with an object
    under [error]: the message carries the status and [error.message], or
    the whole decoded body when there is no [message]. *)
Lemma convert_response_error_object
    (ext : External) (r : Response.t) (d err : list (string * json)) :
  Response.status_code r <> 200 ->
  Response.json r = Return (JObj d) ->
  Py.get "error" d = Some (JObj err) ->
  RestAPICompatibleClient._convert_response ext r
  = Raise (Exn APIClientError
             ("API request failed with status " +:+ Py.str_int (Response.status_code r)
              +:+ ": "
              +:+ match Py.get "message" err with
                  | Some v => Json.str v
                  | None => Json.repr (JObj d)
                  end)).
Proof.
  intros Hs Hj He. unfold RestAPICompatibleClient._convert_response.
  destruct (Z.eqb_spec (Response.status_code r) 200); [contradiction|].
  rewrite Hj. simpl. unfold RestAPICompatibleClient.error_message_of. simpl.
  rewrite He. simpl. destruct (Py.get "message" err); reflexivity.
Qed.

(** ** The connection manager *)

(** C4, as stated, fails: the first session of the manager is [session_0];
    after [close_all_clients] one session has been created so far, and the
    next one is again [session_0], not [session_1]. *)
Lemma create_chatclient_numbering_restarts :
  exists w1 w2,
    APIConnectionManager.create_chatclient None Scenario.world = (w1, Return 0%nat)
    /\ ChatClient._session_id <$> APIConnectionManager.heap w1 !! 0%nat = Some "session_0"
    /\ length (APIConnectionManager.heap (APIConnectionManager.close_all_clients w1))
       = 1%nat
    /\ APIConnectionManager.create_chatclient None
         (APIConnectionManager.close_all_clients w1) = (w2, Return 1%nat)
    /\ ChatClient._session_id <$> APIConnectionManager.heap w2 !! 1%nat = Some "session_0"
    /\ ChatClient._session_id <$> APIConnectionManager.heap w2 !! 1%nat
       <> Some ("session_" +:+ Py.str_int 1).
Proof.
  eexists. eexists.
  split; [vm_compute; reflexivity|].
  split; [reflexivity|]. split; [reflexivity|].
  split; [vm_compute; reflexivity|].
  split; [reflexivity|]. vm_compute. discriminate.
Qed.

(** C4, amended: when no session id is supplied, the generated id is
    [session_<n>] where [n] is the number of sessions the manager currently
    tracks in its active list (the list is emptied by
    [close_all_clients]); the new session is stored and tracked. A call
    supplying an empty or whitespace-only session id raises
    [InvalidParameterError] and changes nothing. *)
Theorem create_chatclient_session_id (w : APIConnectionManager.World) :
  (forall (k : string) (c : ChatClient.t),
      APIConnectionManager.validate_configuration (APIConnectionManager.self w) = true ->
      APIConnectionManager._secret_api_key (APIConnectionManager.self w) = Some k ->
      ChatClient.__init__
        ("session_"
         +:+ Py.str_int
               (Z.of_nat (length (APIConnectionManager._active_clients
                                    (APIConnectionManager.self w)))))
        (APIConnectionManager._connection_params (APIConnectionManager.self w)) k
      = Return c ->
      APIConnectionManager.create_chatclient None w
      = ({| APIConnectionManager.self :=
              APIConnectionManager.set__active_clients
                (APIConnectionManager._active_clients (APIConnectionManager.self w)
                 ++ [length (APIConnectionManager.heap w)])
                (APIConnectionManager.self w);
            APIConnectionManager.heap := APIConnectionManager.heap w ++ [c] |},
         Return (length (APIConnectionManager.heap w)))
      /\ ChatClient._session_id c
         = "session_"
           +:+ Py.str_int
                 (Z.of_nat (length (APIConnectionManager._active_clients
                                      (APIConnectionManager.self w)))))
  /\ (forall s : string,
         Py.all_space s = true ->
         exists e,
           APIConnectionManager.create_chatclient (Some s) w = (w, Raise e)
           /\ cls e = InvalidParameterError).
Proof.
  split.
  - intros k c Hv Hk Hc. split.
    + unfold APIConnectionManager.create_chatclient. rewrite Hv. simpl.
      unfold St.try_except, St.bind, St.ret, St.lift. rewrite Hk.
      unfold ConnectionParams.copy. rewrite Hc. reflexivity.
    + apply (ChatClient_init_returns _ _ _ _ Hc).
  - intros s Hs. unfold APIConnectionManager.create_chatclient.
    destruct (APIConnectionManager.validate_configuration (APIConnectionManager.self w));
      simpl.
    + unfold St.try_except, St.bind, St.raise. rewrite strip_truthy, Hs. simpl.
      eexists. split; reflexivity.
    + eexists. split; reflexivity.
Qed.

Lemma create_chatclient_session_id_witness :
  (APIConnectionManager.validate_configuration
     (APIConnectionManager.self Scenario.world) = true
   /\ APIConnectionManager._secret_api_key (APIConnectionManager.self Scenario.world)
      = Some "sk-test"
   /\ ChatClient.__init__ "session_0"
        (APIConnectionManager._connection_params
           (APIConnectionManager.self Scenario.world)) "sk-test"
      = Return Scenario.openai_session
   /\ fst (APIConnectionManager.create_chatclient None Scenario.world)
      = {| APIConnectionManager.self :=
             APIConnectionManager.set__active_clients [0%nat]
               (APIConnectionManager.self Scenario.world);
           APIConnectionManager.heap := [Scenario.openai_session] |}
   /\ ChatClient._session_id Scenario.openai_session = "session_0")
  /\ (Py.all_space "   " = true
      /\ exists e,
          APIConnectionManager.create_chatclient (Some "   ") Scenario.world
          = (Scenario.world, Raise e)
          /\ cls e = InvalidParameterError).
Proof.
  pose proof (create_chatclient_session_id Scenario.world) as [H1 H2].
  split.
  - specialize (H1 "sk-test" Scenario.openai_session eq_refl eq_refl eq_refl)
      as [Hc Hid].
    split; [reflexivity|]. split; [reflexivity|]. split; [reflexivity|].
    split; [rewrite Hc; reflexivity | exact Hid].
  - split; [reflexivity|]. apply (H2 "   "). reflexivity.
Defined.

(** The first half of C1: when [configure_api] returns, the manager holds
    the six fields as the configuration store resolves them and the
    non-blank secret as the credential resolver gives it, and
    [validate_configuration] holds. *)
Lemma configure_api_returns
    (env : Env) (provider : string) (config_index : Z) (api_type : string)
    (m m' : APIConnectionManager.t) :
  APIConnectionManager.configure_api env provider config_index api_type m
  = (m', Return tt) ->
  exists url mn im k,
    m' = APIConnectionManager.Build
           (APIConnectionManager._active_clients m)
           (ConnectionParams.Build (Some provider) (Some config_index) (Some api_type)
              (Some url) (Some mn) (Some im))
           (Some k)
    /\ ProvidersConfigHandler.get_provider_endpoint env provider api_type config_index
       = Return url
    /\ ProvidersConfigHandler.get_provider_config_attribute
         env provider a_model_name config_index = Return mn
    /\ ProvidersConfigHandler.get_provider_config_attribute
         env provider a_init_config_msg config_index = Return im
    /\ auth_keys.get_secret_api_key env provider None config_index = Return k
    /\ Py.blank k = false
    /\ APIConnectionManager.validate_configuration m' = true.
Proof.
  unfold APIConnectionManager.configure_api.
  destruct (negb (is_valid_provider_name env provider)); [discriminate|].
  destruct (config_index <? 0); [discriminate|].
  unfold St.try_except, St.bind, St.lift, St.raise, St.ret, St.modify.
  destruct (ProvidersConfigHandler.available_provider_configs env provider)
    as [l|e]; [|destruct (_ || _); discriminate].
  destruct (Z.of_nat (length l) <=? config_index); [discriminate|].
  destruct (ProvidersConfigHandler.get_provider_api_supported env provider config_index)
    as [apis|e]; [|destruct (_ || _); discriminate].
  destruct (negb (Py.mem api_type apis)); [discriminate|].
  destruct (ProvidersConfigHandler.get_provider_endpoint env provider api_type config_index)
    as [url|e]; [|destruct (_ || _); discriminate].
  destruct (ProvidersConfigHandler.get_provider_config_attribute
              env provider a_model_name config_index)
    as [mn|e]; [|destruct (_ || _); discriminate].
  destruct (ProvidersConfigHandler.get_provider_config_attribute
              env provider a_init_config_msg config_index)
    as [im|e]; [|destruct (_ || _); discriminate].
  destruct (auth_keys.get_secret_api_key env provider None config_index)
    as [k|e]; [|destruct (_ || _); discriminate].
  destruct (Py.blank k) eqn:Hk; [discriminate|].
  intros H. injection H as <-.
  exists url, mn, im, k. repeat split; try reflexivity. exact Hk.
Qed.

(** The scenario of the specification: ACME is configured with [openai]
    and refused with [requests] and with the index 999. *)
Example configure_api_scenario :
  snd (APIConnectionManager.configure_api Scenario.env "ACME" 0 "openai"
         APIConnectionManager.__init__) = Return tt
  /\ snd (APIConnectionManager.configure_api Scenario.env "ACME" 0 "requests"
            APIConnectionManager.__init__)
     = Raise (Exn InvalidParameterError
                "API type 'requests' not supported by provider 'ACME' config 0. Supported: ['openai']")
  /\ snd (APIConnectionManager.configure_api Scenario.env "ACME" 999 "openai"
            APIConnectionManager.__init__)
     = Raise (Exn InvalidParameterError
                "Config index 999 out of range for provider 'ACME' (max: 0)").
Proof. repeat split; vm_compute; reflexivity. Qed.

(** The sessions of [Scenario] are the ones the constructor builds. *)
Example scenario_sessions_built :
  ChatClient.__init__ "session_0"
    (ChatClient._connection_params Scenario.rest_session) "sk-test"
  = Return Scenario.rest_session
  /\ ChatClient.__init__ "session_0"
       (ChatClient._connection_params Scenario.openai_session) "sk-test"
     = Return Scenario.openai_session
  /\ exists e,
       ChatClient.__init__ "session_0"
         Scenario.no_init_params "sk-test"
       = Raise e
       /\ e = Exn InvalidParameterError
                "Empty values for required parameters: ['init_config_msg']".
Proof. split; [reflexivity|]. split; [reflexivity|]. eexists. split; reflexivity. Qed.

(** C1, the failing input, in the package as it is imported (the provider
    names are those of the fixed list): a manager configured for OPENAI is
    reconfigured for OPENROUTER, whose secret is not in the table. The call
    raises, but the connection parameters are already those of OPENROUTER
    while the secret is still the one of OPENAI, and
    [validate_configuration] holds. *)
Theorem configure_api_raise_leaves_mixed_state :
  exists m1 m2 e,
    PROVIDER_NAMES Scenario.env_package = ProviderName
    /\ APIConnectionManager.configure_api Scenario.env_package "OPENAI" 0 "openai"
         APIConnectionManager.__init__ = (m1, Return tt)
    /\ APIConnectionManager.configure_api Scenario.env_package "OPENROUTER" 0 "requests" m1
       = (m2, Raise e)
    /\ e = Exn APIClientError
             "Failed to configure API for provider 'OPENROUTER': 'openrouter_key'"
    /\ APIConnectionManager._connection_params m2
       = ConnectionParams.Build (Some "OPENROUTER") (Some 0) (Some "requests")
           (Some "http://y/chat") (Some "m2") (Some "hello")
    /\ APIConnectionManager._secret_api_key m2 = Some "sk-test"
    /\ secrets Scenario.env_package !! "openrouter_key" = None
    /\ APIConnectionManager.validate_configuration m2 = true.
Proof.
  do 3 eexists.
  split; [reflexivity|].
  split; [vm_compute; reflexivity|].
  split; [vm_compute; reflexivity|].
  repeat split.
Qed.

(** The same defect with a blank secret: the blank value is stored before it
    is checked, so the call raises and leaves a manager that
    [validate_configuration] accepts. *)
Lemma configure_api_blank_secret_is_stored :
  exists m e,
    APIConnectionManager.configure_api Scenario.env_blank_secret "OPENAI" 0 "openai"
      APIConnectionManager.__init__
    = (m, Raise e)
    /\ cls e = InvalidParameterError
    /\ APIConnectionManager._secret_api_key m = Some "  "
    /\ APIConnectionManager.validate_configuration m = true.
Proof.
  do 2 eexists. split; [vm_compute; reflexivity|]. repeat split.
Qed.

(** In general: once the five validation steps pass, a failure of the
    credential resolver is raised from a manager that already holds the new
    connection parameters and still holds whatever secret it had. *)
Lemma configure_api_secret_unresolved
    (env : Env) (provider : string) (config_index : Z) (api_type : string)
    (m : APIConnectionManager.t) (l : list ProvidersConfigParams.t)
    (apis : list string) (url mn im : string) (e : exn) :
  is_valid_provider_name env provider = true ->
  0 <= config_index < Z.of_nat (length l) ->
  ProvidersConfigHandler.available_provider_configs env provider = Return l ->
  ProvidersConfigHandler.get_provider_api_supported env provider config_index
  = Return apis ->
  Py.mem api_type apis = true ->
  ProvidersConfigHandler.get_provider_endpoint env provider api_type config_index
  = Return url ->
  ProvidersConfigHandler.get_provider_config_attribute
    env provider a_model_name config_index = Return mn ->
  ProvidersConfigHandler.get_provider_config_attribute
    env provider a_init_config_msg config_index = Return im ->
  auth_keys.get_secret_api_key env provider None config_index = Raise e ->
  exists e',
    APIConnectionManager.configure_api env provider config_index api_type m
    = (APIConnectionManager.Build
         (APIConnectionManager._active_clients m)
         (ConnectionParams.Build (Some provider) (Some config_index) (Some api_type)
            (Some url) (Some mn) (Some im))
         (APIConnectionManager._secret_api_key m),
       Raise e')
    /\ isinstance e' APIClientError = true.
Proof.
  intros Hp [Hi0 Hi1] Hl Ha Hm Hu Hn Him Hs.
  unfold APIConnectionManager.configure_api. rewrite Hp. cbn [negb].
  destruct (Z.ltb_spec config_index 0); [lia|].
  unfold St.try_except, St.bind, St.lift, St.raise, St.modify. rewrite Hl.
  destruct (Z.leb_spec (Z.of_nat (length l)) config_index); [lia|].
  rewrite Ha, Hm. cbn [negb]. rewrite Hu, Hn, Him, Hs.
  cbn [APIConnectionManager.set__connection_params
       APIConnectionManager._active_clients APIConnectionManager._secret_api_key].
  destruct (isinstance e InvalidParameterError || isinstance e APIClientError) eqn:E.
  - exists e. split; [reflexivity|].
    apply orb_true_iff in E as [E|E]; [|exact E].
    destruct e as [[] ?]; simpl in *; try discriminate; reflexivity.
  - eexists. split; reflexivity.
Qed.

(** A call that raises before the secret is resolved, on the other hand,
    leaves the manager as it was when the provider name is not in
    [PROVIDER_NAMES], the index is negative or out of range, or the api type
    is not supported. *)
Lemma configure_api_rejected_leaves_manager
    (env : Env) (provider : string) (config_index : Z) (api_type : string)
    (m : APIConnectionManager.t) (l : list ProvidersConfigParams.t) :
  ProvidersConfigHandler.available_provider_configs env provider = Return l ->
  is_valid_provider_name env provider = false
  \/ config_index < 0
  \/ Z.of_nat (length l) <= config_index
  \/ (exists apis,
         ProvidersConfigHandler.get_provider_api_supported env provider config_index
         = Return apis /\ Py.mem api_type apis = false) ->
  exists e,
    APIConnectionManager.configure_api env provider config_index api_type m
    = (m, Raise e)
    /\ cls e = InvalidParameterError.
Proof.
  intros Hl H. unfold APIConnectionManager.configure_api.
  destruct (is_valid_provider_name env provider) eqn:Hp; simpl;
    [|eexists; split; reflexivity].
  destruct (Z.ltb_spec config_index 0); [eexists; split; reflexivity|].
  unfold St.try_except, St.bind, St.lift, St.raise. rewrite Hl.
  destruct (Z.leb_spec (Z.of_nat (length l)) config_index);
    [eexists; split; reflexivity|].
  destruct H as [H | [H | [H | (apis & Ha & Hm)]]]; [discriminate | lia | lia |].
  rewrite Ha, Hm. simpl. eexists; split; reflexivity.
Qed.

(** [close_all_clients] forgets every tracked session, closes each of them
    in the store and leaves the other sessions alone; calling it again
    changes nothing. *)
Lemma foldl_alter_close (l : list nat) (h : list ChatClient.t) (a : nat) :
  foldl (fun h a => alter ChatClient.close a h) h l !! a
  = if bool_decide (a ∈ l) then ChatClient.close <$> h !! a else h !! a.
Proof.
  revert h. induction l as [|x l IH]; intros h; simpl; [reflexivity|].
  rewrite IH. destruct (decide (a = x)) as [->|Hne].
  - rewrite list_lookup_alter_eq.
    rewrite (bool_decide_eq_true_2 (x ∈ x :: l)) by apply list_elem_of_here.
    destruct (h !! x) as [c|]; simpl; [|destruct (bool_decide _); reflexivity].
    destruct (bool_decide (x ∈ l)); simpl; [|reflexivity].
    f_equal. apply close_close.
  - rewrite list_lookup_alter_ne by congruence.
    destruct (bool_decide (a ∈ l)) eqn:E.
    + apply bool_decide_eq_true in E.
      rewrite (bool_decide_eq_true_2 (a ∈ x :: l)); [reflexivity|].
      apply list_elem_of_further, E.
    + apply bool_decide_eq_false in E.
      rewrite (bool_decide_eq_false_2 (a ∈ x :: l)); [reflexivity|].
      intros [?|?]%elem_of_cons; contradiction.
Qed.

(** X19: [close_all_clients] and the sessions held by callers. The tracked
    list is emptied; in the object store every session that was tracked is
    closed (closing an already closed one changes nothing) and every other
    session is left as it was. *)
Lemma close_all_clients_closes (w : APIConnectionManager.World) (a : nat) :
  APIConnectionManager._active_clients
    (APIConnectionManager.self (APIConnectionManager.close_all_clients w)) = []
  /\ APIConnectionManager.heap (APIConnectionManager.close_all_clients w) !! a
     = if bool_decide
            (a ∈ APIConnectionManager._active_clients (APIConnectionManager.self w))
       then ChatClient.close <$> APIConnectionManager.heap w !! a
       else APIConnectionManager.heap w !! a.
Proof. split; [reflexivity|]. apply foldl_alter_close. Qed.

Lemma close_all_clients_idempotent (w : APIConnectionManager.World) :
  APIConnectionManager.close_all_clients (APIConnectionManager.close_all_clients w)
  = APIConnectionManager.close_all_clients w.
Proof. reflexivity. Qed.

(** * Further properties of the code *)

(** ** Helpers on lists and printed lists *)

Lemma mem_In (x : string) (l : list string) : Py.mem x l = true <-> In x l.
Proof.
  unfold Py.mem. rewrite existsb_exists. split.
  - intros (y & Hy & E). apply String.eqb_eq in E. subst. exact Hy.
  - intros H. exists x. split; [exact H | apply String.eqb_refl].
Qed.

Lemma get_Some_keys {V} (k : string) (d : list (string * V)) :
  Py.mem k (Py.keys d) = true <-> exists v, Py.get k d = Some v.
Proof.
  induction d as [|[k' v] d IH]; simpl.
  - split; [discriminate | intros [v H]; discriminate].
  - destruct (String.eqb k k') eqn:E; simpl.
    + split; [eauto | reflexivity].
    + exact IH.
Qed.

Lemma get_Some_In {V} (k : string) (d : list (string * V)) (v : V) :
  Py.get k d = Some v -> In (k, v) d.
Proof.
  induction d as [|[k' v'] d IH]; simpl; [discriminate|].
  destruct (String.eqb k k') eqn:E.
  - apply String.eqb_eq in E. intros [= ->]. subst. left. reflexivity.
  - intros H. right. exact (IH H).
Qed.

Lemma append_assoc (a b c : string) : (a +:+ b) +:+ c = a +:+ (b +:+ c).
Proof.
  induction a as [|x a IH]; [reflexivity|].
  change (String x ((a +:+ b) +:+ c) = String x (a +:+ (b +:+ c))).
  rewrite IH. reflexivity.
Qed.

Lemma contains_join (sep x : string) (l : list string) :
  In x l -> Py.contains x (Py.join sep l) = true.
Proof.
  induction l as [|y l IH]; [contradiction|].
  intros [->|H].
  - destruct l as [|z l]; simpl; [apply contains_refl|].
    apply contains_app_r, contains_refl.
  - destruct l as [|z l]; [contradiction|].
    change (Py.join sep (y :: z :: l)) with (y +:+ sep +:+ Py.join sep (z :: l)).
    do 2 apply contains_app_l. exact (IH H).
Qed.

Lemma contains_repr_list (x : string) (l : list string) :
  In x l -> Py.contains (Py.repr_str x) (Py.repr_list l) = true.
Proof.
  intros H. unfold Py.repr_list.
  apply contains_app_l, contains_app_r, contains_join, in_map, H.
Qed.

(** Finds the text among the pieces of a message put together with [+:+]. *)
Ltac find_piece :=
  first [ apply contains_refl
        | apply contains_app_r; apply contains_refl
        | apply contains_repr_list; eassumption
        | apply contains_app_r; apply contains_repr_list; eassumption
        | apply contains_app_l; find_piece ].

(** ** The configuration store: errors and edges *)

(** X1: an unknown provider makes every lookup of the store raise the same
    [ValueError], whose message holds the provider asked for and the printed
    name of every provider of the catalog. *)
Theorem unknown_provider_raises (env : Env) (provider : string) :
  Py.get provider (providers_file env) = None ->
  let e := ProvidersConfigHandler.provider_not_found env provider in
  (forall i a t,
      ProvidersConfigHandler.available_provider_configs env provider = Raise e
      /\ ProvidersConfigHandler.get_provider_config env provider i = Raise e
      /\ ProvidersConfigHandler.get_provider_config_attribute env provider a i = Raise e
      /\ ProvidersConfigHandler.get_provider_api_supported env provider i = Raise e
      /\ ProvidersConfigHandler.get_provider_endpoint env provider t i = Raise e)
  /\ cls e = ValueError
  /\ Py.contains provider (msg e) = true
  /\ (forall p, In p (ProvidersConfigHandler.available_providers env) ->
                Py.contains (Py.repr_str p) (msg e) = true).
Proof.
  intros H e. split; [|split; [reflexivity|split]].
  - intros i a t.
    unfold ProvidersConfigHandler.available_provider_configs,
      ProvidersConfigHandler.get_provider_config_attribute,
      ProvidersConfigHandler.get_provider_api_supported,
      ProvidersConfigHandler.get_provider_endpoint,
      ProvidersConfigHandler.get_provider_config.
    rewrite H. repeat split.
  - unfold e, ProvidersConfigHandler.provider_not_found. cbn [msg]. find_piece.
  - intros p Hp. unfold e, ProvidersConfigHandler.provider_not_found. cbn [msg].
    find_piece.
Qed.

Lemma unknown_provider_raises_witness :
  Py.get "NOPE" (providers_file Scenario.env) = None
  /\ ProvidersConfigHandler.get_provider_config Scenario.env "NOPE" 0
     = Raise (ProvidersConfigHandler.provider_not_found Scenario.env "NOPE")
  /\ Py.contains "NOPE" (msg (ProvidersConfigHandler.provider_not_found Scenario.env "NOPE"))
     = true.
Proof.
  pose proof (unknown_provider_raises Scenario.env "NOPE" eq_refl) as (H1 & _ & H3 & _).
  split; [reflexivity|]. split; [|exact H3].
  exact (proj1 (proj2 (H1 0 a_model_name "openai"))).
Defined.

(** X2: an index at or beyond the length of the provider's list raises a
    [ValueError] that names the index and the largest valid one. *)
Theorem get_provider_config_out_of_range
    (env : Env) (provider : string) (l : list ProvidersConfigParams.t) (i : Z) :
  Py.get provider (providers_file env) = Some l ->
  Z.of_nat (length l) <= i ->
  exists m,
    ProvidersConfigHandler.get_provider_config env provider i = Raise (Exn ValueError m)
    /\ Py.contains ("Index " +:+ Py.str_int i) m = true
    /\ Py.contains ("(max: " +:+ Py.str_int (Z.of_nat (length l) - 1) +:+ ")") m = true.
Proof.
  intros Hp Hi. unfold ProvidersConfigHandler.get_provider_config. rewrite Hp.
  destruct (Z.leb_spec (Z.of_nat (length l)) i); [|lia].
  eexists. split; [reflexivity|]. split.
  - rewrite <- (append_assoc "Index " (Py.str_int i)). find_piece.
  - do 5 apply contains_app_l.
    change (" (max: " +:+ ?x) with (" " +:+ ("(max: " +:+ x)). find_piece.
Qed.

Lemma get_provider_config_out_of_range_witness :
  Py.get "ACME" (providers_file Scenario.env) = Some [Scenario.acme]
  /\ Z.of_nat (length [Scenario.acme]) <= 999
  /\ exists m,
       ProvidersConfigHandler.get_provider_config Scenario.env "ACME" 999
       = Raise (Exn ValueError m)
       /\ Py.contains ("Index " +:+ Py.str_int 999) m = true
       /\ Py.contains ("(max: " +:+ Py.str_int (Z.of_nat (length [Scenario.acme]) - 1)
                       +:+ ")") m = true.
Proof.
  split; [reflexivity|]. split; [simpl; lia|].
  apply (get_provider_config_out_of_range Scenario.env "ACME" [Scenario.acme] 999);
    [reflexivity | simpl; lia].
Defined.

(** X3: [get_provider_config] only bounds the index from above, so a
    negative index counts from the end of the list as Python's indexing
    does: [-k] selects the configuration [k] places before the end, and an
    index below [-len] raises [IndexError] instead of the [ValueError] of
    the upper bound. *)
Theorem get_provider_config_negative_index
    (env : Env) (provider : string) (l : list ProvidersConfigParams.t) :
  Py.get provider (providers_file env) = Some l ->
  (forall (k : nat) (c : ProvidersConfigParams.t),
      (0 < k <= length l)%nat ->
      l !! (length l - k)%nat = Some c ->
      ProvidersConfigHandler.get_provider_config env provider (- Z.of_nat k) = Return c)
  /\ (forall i : Z,
         i < - Z.of_nat (length l) ->
         ProvidersConfigHandler.get_provider_config env provider i
         = Raise (Exn IndexError "list index out of range")).
Proof.
  intros Hp. split.
  - intros k c Hk Hc. unfold ProvidersConfigHandler.get_provider_config. rewrite Hp.
    destruct (Z.leb_spec (Z.of_nat (length l)) (- Z.of_nat k)); [lia|].
    unfold Py.index.
    destruct (Z.leb_spec 0 (- Z.of_nat k)); [lia|]. simpl.
    destruct (Z.leb_spec (- Z.of_nat (length l)) (- Z.of_nat k)); [|lia].
    destruct (Z.ltb_spec (- Z.of_nat k) 0); [|lia]. simpl.
    replace (Z.to_nat (Z.of_nat (length l) + - Z.of_nat k)) with (length l - k)%nat by lia.
    rewrite Hc. reflexivity.
  - intros i Hi. unfold ProvidersConfigHandler.get_provider_config. rewrite Hp.
    destruct (Z.leb_spec (Z.of_nat (length l)) i); [lia|].
    unfold Py.index.
    destruct (Z.leb_spec 0 i); [lia|]. simpl.
    destruct (Z.leb_spec (- Z.of_nat (length l)) i); [lia|]. reflexivity.
Qed.

Lemma get_provider_config_negative_index_witness :
  Py.get "ACME" (providers_file Scenario.env_two_configs)
  = Some [Scenario.acme; Scenario.other]
  /\ ProvidersConfigHandler.get_provider_config Scenario.env_two_configs "ACME" (-1)
     = Return Scenario.other
  /\ ProvidersConfigHandler.get_provider_config Scenario.env_two_configs "ACME" (-3)
     = Raise (Exn IndexError "list index out of range").
Proof.
  pose proof (get_provider_config_negative_index Scenario.env_two_configs "ACME"
                [Scenario.acme; Scenario.other] eq_refl) as [H1 H2].
  split; [reflexivity|]. split.
  - apply (H1 1%nat Scenario.other); [simpl; lia | reflexivity].
  - apply H2. simpl. lia.
Defined.

Lemma config_keys_present (c : ProvidersConfigParams.t) (b : ProviderAttributes) :
  is_Some (attribute_str c b) -> In (attribute_key b) (config_keys c).
Proof.
  intros H. unfold config_keys. apply in_map, list_elem_of_In, list_elem_of_filter.
  split; [exact H|]. apply list_elem_of_In. destruct b; simpl; tauto.
Qed.

(** X4: an attribute that the selected configuration holds is returned as
    its [str]; one that it lacks raises a [ValueError] whose message names
    the attribute and lists, as printed, every key the configuration does
    hold. *)
Theorem get_provider_config_attribute_cases
    (env : Env) (provider : string) (i : Z) (c : ProvidersConfigParams.t)
    (a : ProviderAttributes) :
  ProvidersConfigHandler.get_provider_config env provider i = Return c ->
  (forall v, attribute_str c a = Some v ->
             ProvidersConfigHandler.get_provider_config_attribute env provider a i
             = Return v)
  /\ (attribute_str c a = None ->
      exists m,
        ProvidersConfigHandler.get_provider_config_attribute env provider a i
        = Raise (Exn ValueError m)
        /\ Py.contains (attribute_key a) m = true
        /\ forall b, is_Some (attribute_str c b) ->
                     Py.contains (Py.repr_str (attribute_key b)) m = true).
Proof.
  intros Hc. unfold ProvidersConfigHandler.get_provider_config_attribute.
  rewrite Hc. cbn [obind]. split.
  - intros v Hv. rewrite Hv. reflexivity.
  - intros Hn. rewrite Hn. eexists. split; [reflexivity|]. split.
    + find_piece.
    + intros b Hb. pose proof (config_keys_present c b Hb). find_piece.
Qed.

Lemma get_provider_config_attribute_cases_witness :
  ProvidersConfigHandler.get_provider_config Scenario.env_bare "ACME" 0
  = Return Scenario.bare
  /\ ProvidersConfigHandler.get_provider_config_attribute
       Scenario.env_bare "ACME" a_model_name 0 = Return "m1"
  /\ exists m,
       ProvidersConfigHandler.get_provider_config_attribute
         Scenario.env_bare "ACME" a_api_supported 0 = Raise (Exn ValueError m)
       /\ Py.contains "api_supported" m = true
       /\ Py.contains "'model_name'" m = true.
Proof.
  pose proof (get_provider_config_attribute_cases Scenario.env_bare "ACME" 0
                Scenario.bare a_api_supported eq_refl) as [_ H2].
  pose proof (get_provider_config_attribute_cases Scenario.env_bare "ACME" 0
                Scenario.bare a_model_name eq_refl) as [H1 _].
  split; [reflexivity|]. split; [apply H1; reflexivity|].
  destruct (H2 eq_refl) as (m & Hm & Ha & Hb).
  exists m. split; [exact Hm|]. split; [exact Ha|].
  apply (Hb a_model_name). eexists. reflexivity.
Defined.

(** X5: the endpoint of an api type. A configuration without the
    [api_endpoints] key raises [KeyError]; one whose endpoints lack the type
    raises a [ValueError] naming the type and listing the types that have an
    endpoint; otherwise the URL stored under the type is returned. *)
Theorem get_provider_endpoint_cases
    (env : Env) (provider endpoint_type : string) (i : Z)
    (c : ProvidersConfigParams.t) :
  ProvidersConfigHandler.get_provider_config env provider i = Return c ->
  (ProvidersConfigParams.api_endpoints c = None ->
   ProvidersConfigHandler.get_provider_endpoint env provider endpoint_type i
   = Raise (Exn KeyError "'api_endpoints'"))
  /\ (forall endpoints,
         ProvidersConfigParams.api_endpoints c = Some endpoints ->
         Py.get endpoint_type endpoints = None ->
         exists m,
           ProvidersConfigHandler.get_provider_endpoint env provider endpoint_type i
           = Raise (Exn ValueError m)
           /\ Py.contains endpoint_type m = true
           /\ forall t, In t (Py.keys endpoints) ->
                        Py.contains (Py.repr_str t) m = true)
  /\ (forall endpoints url,
         ProvidersConfigParams.api_endpoints c = Some endpoints ->
         Py.get endpoint_type endpoints = Some url ->
         ProvidersConfigHandler.get_provider_endpoint env provider endpoint_type i
         = Return url).
Proof.
  intros Hc. unfold ProvidersConfigHandler.get_provider_endpoint.
  rewrite Hc. cbn [obind]. split; [|split].
  - intros Hn. rewrite Hn. reflexivity.
  - intros endpoints He Hg. rewrite He, Hg. eexists. split; [reflexivity|]. split.
    + find_piece.
    + intros t Ht. find_piece.
  - intros endpoints url He Hg. rewrite He, Hg. reflexivity.
Qed.

Lemma get_provider_endpoint_cases_witness :
  ProvidersConfigHandler.get_provider_config Scenario.env "ACME" 0 = Return Scenario.acme
  /\ ProvidersConfigHandler.get_provider_endpoint Scenario.env "ACME" "openai" 0
     = Return "http://x/v1"
  /\ (exists m,
         ProvidersConfigHandler.get_provider_endpoint Scenario.env "ACME" "requests" 0
         = Raise (Exn ValueError m)
         /\ Py.contains "requests" m = true
         /\ Py.contains "'openai'" m = true)
  /\ ProvidersConfigHandler.get_provider_endpoint Scenario.env_no_endpoints "ACME" "openai" 0
     = Raise (Exn KeyError "'api_endpoints'").
Proof.
  pose proof (get_provider_endpoint_cases Scenario.env "ACME" "openai" 0 Scenario.acme
                eq_refl) as (_ & _ & H3).
  pose proof (get_provider_endpoint_cases Scenario.env "ACME" "requests" 0 Scenario.acme
                eq_refl) as (_ & H2 & _).
  pose proof (get_provider_endpoint_cases Scenario.env_no_endpoints "ACME" "openai" 0
                Scenario.no_endpoints eq_refl) as (H1 & _ & _).
  split; [reflexivity|].
  split; [apply (H3 [("openai", "http://x/v1")]); reflexivity|].
  split; [|apply H1; reflexivity].
  destruct (H2 [("openai", "http://x/v1")] eq_refl eq_refl) as (m & Hm & Ha & Hb).
  exists m. split; [exact Hm|]. split; [exact Ha|].
  apply (Hb "openai"). simpl. tauto.
Defined.

(** X6: [is_valid_provider_name] checks [PROVIDER_NAMES], never the
    catalog, and in the package [PROVIDER_NAMES] is the fixed list
    [ProviderName]. A provider that the catalog holds but [PROVIDER_NAMES]
    lacks is served by the store, yet [configure_api] refuses it whatever
    the index and the api type, with an [InvalidParameterError] whose
    message lists that very provider among the available ones; the manager
    is left as it was. *)
Theorem is_valid_provider_name_ignores_catalog
    (env : Env) (provider : string) (l : list ProvidersConfigParams.t)
    (config_index : Z) (api_type : string) (m : APIConnectionManager.t) :
  Py.get provider (providers_file env) = Some l ->
  is_valid_provider_name env provider = false ->
  ProvidersConfigHandler.available_provider_configs env provider = Return l
  /\ In provider (ProvidersConfigHandler.available_providers env)
  /\ APIConnectionManager.configure_api env provider config_index api_type m
     = (m, Raise (Exn InvalidParameterError
                    ("Invalid provider '" +:+ provider +:+ "'. Available: "
                     +:+ Py.repr_list (ProvidersConfigHandler.available_providers env))))
  /\ Py.contains (Py.repr_str provider)
       (Py.repr_list (ProvidersConfigHandler.available_providers env)) = true.
Proof.
  intros Hg Hv.
  assert (Hin : In provider (ProvidersConfigHandler.available_providers env)).
  { apply mem_In. unfold ProvidersConfigHandler.available_providers.
    apply get_Some_keys. exists l. exact Hg. }
  split; [unfold ProvidersConfigHandler.available_provider_configs; rewrite Hg;
          reflexivity|].
  split; [exact Hin|]. split.
  - unfold APIConnectionManager.configure_api. rewrite Hv. reflexivity.
  - apply contains_repr_list, Hin.
Qed.

Lemma is_valid_provider_name_ignores_catalog_witness :
  PROVIDER_NAMES Scenario.env_added = ProviderName
  /\ Py.get "ACME" (providers_file Scenario.env_added) = Some [Scenario.acme]
  /\ is_valid_provider_name Scenario.env_added "ACME" = false
  /\ ProvidersConfigHandler.available_provider_configs Scenario.env_added "ACME"
     = Return [Scenario.acme]
  /\ APIConnectionManager.configure_api Scenario.env_added "ACME" 0 "openai"
       APIConnectionManager.__init__
     = (APIConnectionManager.__init__,
        Raise (Exn InvalidParameterError
                 ("Invalid provider '" +:+ "ACME" +:+ "'. Available: "
                  +:+ Py.repr_list
                        (ProvidersConfigHandler.available_providers Scenario.env_added)))).
Proof.
  pose proof (is_valid_provider_name_ignores_catalog Scenario.env_added "ACME"
                [Scenario.acme] 0 "openai" APIConnectionManager.__init__
                eq_refl eq_refl) as (H1 & _ & H3 & _).
  split; [reflexivity|]. split; [reflexivity|]. split; [reflexivity|].
  split; [exact H1 | exact H3].
Defined.

(** The two credential paths agree when they succeed: if the
    configuration's [config_name] resolves to a key that the secrets table
    holds, resolution by provider and index returns the same secret as
    resolution by that key name. *)
Theorem get_secret_api_key_paths_agree
    (env : Env) (provider ref secret : string) (i j : Z) :
  ProvidersConfigHandler.get_provider_config_attribute env provider a_config_name i
  = Return ref ->
  secrets env !! ref = Some secret ->
  auth_keys.get_secret_api_key env provider None i = Return secret
  /\ auth_keys.get_secret_api_key env provider (Some ref) j = Return secret.
Proof.
  intros Ha Hs. simpl.
  unfold auth_keys._get_api_key_from_config_index,
    auth_keys._get_api_key_from_config_name.
  rewrite Ha. cbn [obind]. rewrite Hs. split; reflexivity.
Qed.

Lemma get_secret_api_key_paths_agree_witness :
  ProvidersConfigHandler.get_provider_config_attribute Scenario.env "ACME" a_config_name 0
  = Return "m1_key"
  /\ secrets Scenario.env !! "m1_key" = Some "sk-test"
  /\ auth_keys.get_secret_api_key Scenario.env "ACME" None 0 = Return "sk-test"
  /\ auth_keys.get_secret_api_key Scenario.env "ACME" (Some "m1_key") 7 = Return "sk-test".
Proof.
  split; [reflexivity|]. split; [reflexivity|].
  apply (get_secret_api_key_paths_agree Scenario.env "ACME" "m1_key" "sk-test" 0 7);
    reflexivity.
Defined.

(** ** Filtering and summarising the catalog *)

Lemma matching_configs_returns
    (api_type : string) (configs : list ProvidersConfigParams.t) :
  (forall c, In c configs -> is_Some (ProvidersConfigParams.api_supported c)) ->
  type_converters.matching_configs api_type configs
  = Return (List.filter
              (fun c => Py.mem api_type (default [] (ProvidersConfigParams.api_supported c)))
              configs).
Proof.
  induction configs as [|c configs IH]; intros H; [reflexivity|].
  simpl. unfold type_converters.api_supported_item.
  destruct (H c (or_introl eq_refl)) as [apis Ha]. rewrite Ha. cbn [obind default].
  rewrite IH by (intros c' Hc'; apply H; right; exact Hc'). cbn [obind].
  unfold default at 1. cbn [from_option id].
  destruct (Py.mem api_type apis); reflexivity.
Qed.

Lemma matching_configs_inv
    (api_type : string) (configs m : list ProvidersConfigParams.t) :
  type_converters.matching_configs api_type configs = Return m ->
  forall c, In c configs -> is_Some (ProvidersConfigParams.api_supported c).
Proof.
  revert m. induction configs as [|c configs IH]; intros m H c' Hc'; [contradiction|].
  simpl in H. unfold type_converters.api_supported_item in H.
  destruct (ProvidersConfigParams.api_supported c) as [apis|] eqn:Ha; [|discriminate].
  cbn [obind] in H.
  destruct (type_converters.matching_configs api_type configs) as [kept|e] eqn:Hk;
    [|discriminate].
  destruct Hc' as [<-|Hc']; [rewrite Ha; eauto | exact (IH kept eq_refl c' Hc')].
Qed.

Lemma matching_configs_missing_key
    (api_type : string) (configs : list ProvidersConfigParams.t) :
  (exists c, In c configs /\ ProvidersConfigParams.api_supported c = None) ->
  type_converters.matching_configs api_type configs = Raise (KeyError_of "api_supported").
Proof.
  induction configs as [|c configs IH]; intros (c' & Hc' & Hn); [contradiction|].
  simpl. unfold type_converters.api_supported_item.
  destruct (ProvidersConfigParams.api_supported c) as [apis|] eqn:Ha; [|reflexivity].
  cbn [obind]. destruct Hc' as [<-|Hc']; [congruence|].
  rewrite IH by eauto. reflexivity.
Qed.

Lemma matching_configs_raise
    (api_type : string) (configs : list ProvidersConfigParams.t) (e : exn) :
  type_converters.matching_configs api_type configs = Raise e ->
  e = KeyError_of "api_supported".
Proof.
  induction configs as [|c configs IH]; simpl; [discriminate|].
  unfold type_converters.api_supported_item.
  destruct (ProvidersConfigParams.api_supported c); cbn [obind]; [|congruence].
  destruct (type_converters.matching_configs api_type configs); cbn [obind];
    [discriminate|].
  intros [= <-]. apply IH. reflexivity.
Qed.

Lemma filter_providers_returns
    (providers : list (string * list ProvidersConfigParams.t)) (api_type : string) :
  (forall name configs c,
      In (name, configs) providers -> In c configs ->
      is_Some (ProvidersConfigParams.api_supported c)) ->
  type_converters.filter_providers_by_api_type providers api_type
  = Return (flat_map
              (fun p =>
                 match List.filter
                         (fun c => Py.mem api_type
                                     (default [] (ProvidersConfigParams.api_supported c)))
                         (snd p) with
                 | [] => []
                 | m => [(fst p, m)]
                 end)
              providers).
Proof.
  induction providers as [|[name configs] providers IH]; intros H; [reflexivity|].
  simpl. rewrite matching_configs_returns
    by (intros c Hc; apply (H name configs c); [left; reflexivity | exact Hc]).
  cbn [obind]. rewrite IH
    by (intros n cs c Hn Hc; apply (H n cs c); [right; exact Hn | exact Hc]).
  cbn [obind]. destruct (List.filter _ configs); reflexivity.
Qed.

Lemma filter_providers_inv
    (providers res : list (string * list ProvidersConfigParams.t)) (api_type : string) :
  type_converters.filter_providers_by_api_type providers api_type = Return res ->
  forall name configs c,
    In (name, configs) providers -> In c configs ->
    is_Some (ProvidersConfigParams.api_supported c).
Proof.
  revert res. induction providers as [|[n cs] providers IH]; intros res H name configs c Hn Hc;
    [contradiction|].
  simpl in H.
  destruct (type_converters.matching_configs api_type cs) as [m|e] eqn:Hm; [|discriminate].
  cbn [obind] in H.
  destruct (type_converters.filter_providers_by_api_type providers api_type)
    as [filtered|e] eqn:Hf; [|discriminate].
  destruct Hn as [[= <- <-]|Hn].
  - exact (matching_configs_inv api_type cs m Hm c Hc).
  - exact (IH filtered eq_refl name configs c Hn Hc).
Qed.

(** X8: what [filter_providers_by_api_type] returns. An entry
    [(name, kept)] is in the result exactly when the catalog has an entry
    [(name, configs)] such that [kept] is the list of the configurations of
    [configs] that support the api type, in their order, and [kept] is not
    empty: providers with no supporting configuration are left out. *)
Theorem filter_providers_by_api_type_result
    (providers res : list (string * list ProvidersConfigParams.t)) (api_type : string) :
  type_converters.filter_providers_by_api_type providers api_type = Return res ->
  forall name kept,
    In (name, kept) res
    <-> exists configs,
          In (name, configs) providers
          /\ kept = List.filter
                      (fun c => Py.mem api_type
                                  (default [] (ProvidersConfigParams.api_supported c)))
                      configs
          /\ kept <> [].
Proof.
  intros H name kept.
  rewrite (filter_providers_returns providers api_type
             (filter_providers_inv providers res api_type H)) in H.
  injection H as <-. rewrite in_flat_map. split.
  - intros ([n cs] & Hin & Hk). simpl in Hk.
    destruct (List.filter _ cs) as [|x m] eqn:E; [contradiction|].
    destruct Hk as [[= <- <-]|[]]. exists cs. rewrite E. repeat split; [exact Hin|discriminate].
  - intros (configs & Hin & -> & Hne). exists (name, configs). split; [exact Hin|].
    simpl. destruct (List.filter _ configs) as [|x m]; [contradiction|]. left. reflexivity.
Qed.

Lemma filter_providers_by_api_type_result_witness :
  type_converters.filter_providers_by_api_type (providers_file Scenario.env_two) "requests"
  = Return [("OTHER", [Scenario.other])]
  /\ (In ("OTHER", [Scenario.other]) [("OTHER", [Scenario.other])]
      <-> exists configs,
            In ("OTHER", configs) (providers_file Scenario.env_two)
            /\ [Scenario.other]
               = List.filter
                   (fun c => Py.mem "requests"
                               (default [] (ProvidersConfigParams.api_supported c)))
                   configs
            /\ [Scenario.other] <> []).
Proof.
  split; [reflexivity|].
  apply (filter_providers_by_api_type_result (providers_file Scenario.env_two)
           [("OTHER", [Scenario.other])] "requests").
  reflexivity.
Defined.

(** X9: [filter_providers_by_api_type] indexes [config['api_supported']]
    without a default: it returns when every configuration of the catalog
    has that key and raises [KeyError] as soon as one lacks it, whatever
    the api type asked for. *)
Theorem filter_providers_by_api_type_missing_key
    (providers : list (string * list ProvidersConfigParams.t)) (api_type : string) :
  ((forall name configs c,
       In (name, configs) providers -> In c configs ->
       is_Some (ProvidersConfigParams.api_supported c))
   -> exists res,
       type_converters.filter_providers_by_api_type providers api_type = Return res)
  /\ ((exists name configs c,
          In (name, configs) providers /\ In c configs
          /\ ProvidersConfigParams.api_supported c = None)
      -> type_converters.filter_providers_by_api_type providers api_type
         = Raise (Exn KeyError "'api_supported'")).
Proof.
  split.
  - intros H. eexists. apply filter_providers_returns, H.
  - induction providers as [|[n cs] providers IH]; intros (name & configs & c & Hn & Hc & Hk);
      [contradiction|].
    simpl.
    destruct (type_converters.matching_configs api_type cs) as [m|e] eqn:Hm.
    + cbn [obind]. destruct Hn as [[= <- <-]|Hn].
      * destruct (matching_configs_inv api_type cs m Hm c Hc) as [apis Ha]. congruence.
      * rewrite IH by eauto 6. reflexivity.
    + cbn [obind]. rewrite (matching_configs_raise api_type cs e Hm). reflexivity.
Qed.

Lemma filter_providers_by_api_type_missing_key_witness :
  (exists name configs c,
      In (name, configs) (providers_file Scenario.env_bare) /\ In c configs
      /\ ProvidersConfigParams.api_supported c = None)
  /\ type_converters.filter_providers_by_api_type
       (providers_file Scenario.env_bare) "openai"
     = Raise (Exn KeyError "'api_supported'")
  /\ exists res,
       type_converters.filter_providers_by_api_type
         (providers_file Scenario.env_two) "huggingface_hub" = Return res.
Proof.
  assert (H : exists name configs c,
             In (name, configs) (providers_file Scenario.env_bare) /\ In c configs
             /\ ProvidersConfigParams.api_supported c = None).
  { exists "ACME", [Scenario.bare], Scenario.bare. simpl. tauto. }
  split; [exact H|]. split.
  - apply (proj2 (filter_providers_by_api_type_missing_key
                    (providers_file Scenario.env_bare) "openai")), H.
  - apply (proj1 (filter_providers_by_api_type_missing_key
                    (providers_file Scenario.env_two) "huggingface_hub")).
    intros name configs c Hn Hc. simpl in Hn.
    destruct Hn as [[= <- <-]|[[= <- <-]|[]]]; simpl in Hc;
      destruct Hc as [<-|[]]; eexists; reflexivity.
Defined.

Lemma filter_providers_fixed
    (res : list (string * list ProvidersConfigParams.t)) (api_type : string) :
  (forall name kept,
      In (name, kept) res ->
      kept <> []
      /\ forall c, In c kept ->
                   Py.mem api_type (default [] (ProvidersConfigParams.api_supported c))
                   = true) ->
  type_converters.filter_providers_by_api_type res api_type = Return res.
Proof.
  induction res as [|[n kept] res IH]; intros H; [reflexivity|].
  destruct (H n kept (or_introl eq_refl)) as [Hne Hall].
  simpl. rewrite matching_configs_returns.
  - cbn [obind]. rewrite IH by (intros n' k' Hin; apply (H n' k'); right; exact Hin).
    cbn [obind].
    replace (List.filter _ kept) with kept.
    + destruct kept; [contradiction | reflexivity].
    + clear -Hall. induction kept as [|c kept IHk]; [reflexivity|].
      simpl. rewrite (Hall c (or_introl eq_refl)). f_equal.
      apply IHk. intros c' Hc'. apply Hall. right. exact Hc'.
  - intros c Hc. specialize (Hall c Hc).
    destruct (ProvidersConfigParams.api_supported c); [eauto | discriminate].
Qed.

(** X10: filtering is idempotent: filtering the result again by the same api
    type returns it unchanged. *)
Theorem filter_providers_by_api_type_idempotent
    (providers res : list (string * list ProvidersConfigParams.t)) (api_type : string) :
  type_converters.filter_providers_by_api_type providers api_type = Return res ->
  type_converters.filter_providers_by_api_type res api_type = Return res.
Proof.
  intros H. apply filter_providers_fixed. intros name kept Hin.
  rewrite (filter_providers_returns providers api_type
             (filter_providers_inv providers res api_type H)) in H.
  injection H as <-. apply in_flat_map in Hin as ([n cs] & _ & Hk). simpl in Hk.
  destruct (List.filter _ cs) as [|x m] eqn:E; [contradiction|].
  destruct Hk as [[= <- <-]|[]]. split; [discriminate|].
  intros c Hc. rewrite <- E in Hc. apply filter_In in Hc as [_ Hc]. exact Hc.
Qed.

Lemma filter_providers_by_api_type_idempotent_witness :
  type_converters.filter_providers_by_api_type (providers_file Scenario.env_two) "openai"
  = Return [("ACME", [Scenario.acme])]
  /\ type_converters.filter_providers_by_api_type [("ACME", [Scenario.acme])] "openai"
     = Return [("ACME", [Scenario.acme])].
Proof.
  split; [reflexivity|].
  apply (filter_providers_by_api_type_idempotent (providers_file Scenario.env_two)).
  reflexivity.
Defined.


Lemma update_supported_apis_elem
    (configs : list ProvidersConfigParams.t) (S0 S : gset string) :
  type_converters.update_supported_apis configs S0 = Return S ->
  (forall c, In c configs -> is_Some (ProvidersConfigParams.api_supported c))
  /\ forall a,
       a ∈ S
       <-> a ∈ S0
           \/ exists c apis,
                In c configs /\ ProvidersConfigParams.api_supported c = Some apis
                /\ In a apis.
Proof.
  revert S0. induction configs as [|c configs IH]; intros S0 H; simpl in H.
  - injection H as <-. split; [intros c []|]. intros a. split; [tauto|].
    intros [H|(c & apis & [] & _)]. exact H.
  - unfold type_converters.api_supported_item in H.
    destruct (ProvidersConfigParams.api_supported c) as [apis|] eqn:Ha; [|discriminate].
    cbn [obind] in H. destruct (IH _ H) as [Hall Hel]. split.
    + intros c' [<-|Hc']; [rewrite Ha; eauto | exact (Hall c' Hc')].
    + intros a. rewrite Hel, elem_of_union, elem_of_list_to_set, list_elem_of_In. split.
      * intros [[H0|H0]|(c' & apis' & Hc' & Ha' & Hin)]; [tauto | right | right].
        -- exists c, apis. simpl. tauto.
        -- exists c', apis'. simpl. tauto.
      * intros [H0|(c' & apis' & [<-|Hc'] & Ha' & Hin)]; [tauto | left; right | right].
        -- congruence.
        -- exists c', apis'. tauto.
Qed.

Lemma extract_supported_apis_from_elem
    (providers : list (string * list ProvidersConfigParams.t)) (S0 S : gset string) :
  type_converters.extract_supported_apis_from providers S0 = Return S ->
  (forall name configs c,
      In (name, configs) providers -> In c configs ->
      is_Some (ProvidersConfigParams.api_supported c))
  /\ forall a,
       a ∈ S
       <-> a ∈ S0
           \/ exists name configs c apis,
                In (name, configs) providers /\ In c configs
                /\ ProvidersConfigParams.api_supported c = Some apis /\ In a apis.
Proof.
  revert S0. induction providers as [|[n cs] providers IH]; intros S0 H; simpl in H.
  - injection H as <-. split; [intros ? ? ? []|]. intros a. split; [tauto|].
    intros [H|(? & ? & ? & ? & [] & _)]. exact H.
  - destruct (type_converters.update_supported_apis cs S0) as [S1|e] eqn:Hu; [|discriminate].
    cbn [obind] in H. destruct (update_supported_apis_elem cs S0 S1 Hu) as [Hall1 Hel1].
    destruct (IH _ H) as [Hall Hel]. split.
    + intros name configs c [[= <- <-]|Hn] Hc; [exact (Hall1 c Hc) | exact (Hall _ _ c Hn Hc)].
    + intros a. rewrite Hel, Hel1. split.
      * intros [[H0|(c & apis & Hc & Ha & Hin)]|(name & configs & c & apis & Hn & Hr)].
        -- tauto.
        -- right. exists n, cs, c, apis. simpl. tauto.
        -- right. exists name, configs, c, apis. simpl. tauto.
      * intros [H0|(name & configs & c & apis & [[= <- <-]|Hn] & Hc & Ha & Hin)].
        -- tauto.
        -- left. right. exists c, apis. tauto.
        -- right. exists name, configs, c, apis. tauto.
Qed.

(** X11: [extract_supported_apis] returns the set of the api types that
    occur in the [api_supported] list of some configuration of some
    provider. *)
Theorem extract_supported_apis_elem
    (providers : list (string * list ProvidersConfigParams.t)) (S : gset string) :
  type_converters.extract_supported_apis providers = Return S ->
  forall a,
    a ∈ S
    <-> exists name configs c apis,
          In (name, configs) providers /\ In c configs
          /\ ProvidersConfigParams.api_supported c = Some apis /\ In a apis.
Proof.
  intros H a. unfold type_converters.extract_supported_apis in H.
  destruct (extract_supported_apis_from_elem providers ∅ S H) as [_ Hel].
  rewrite Hel. split; [|tauto]. intros [H0|H0]; [|exact H0].
  exfalso. exact (not_elem_of_empty a H0).
Qed.

Lemma extract_supported_apis_elem_witness :
  type_converters.extract_supported_apis (providers_file Scenario.env_two)
  = Return {["openai"; "requests"]}
  /\ ("requests" ∈ ({["openai"; "requests"]} : gset string)
      <-> exists name configs c apis,
            In (name, configs) (providers_file Scenario.env_two) /\ In c configs
            /\ ProvidersConfigParams.api_supported c = Some apis /\ In "requests" apis).
Proof.
  assert (H : type_converters.extract_supported_apis (providers_file Scenario.env_two)
              = Return {["openai"; "requests"]}).
  { vm_compute. reflexivity. }
  split; [exact H|].
  apply (extract_supported_apis_elem (providers_file Scenario.env_two) _ H).
Defined.

Lemma filter_nonempty {A} (f : A -> bool) (l : list A) :
  List.filter f l <> [] <-> exists x, In x l /\ f x = true.
Proof.
  induction l as [|a l IH]; simpl.
  - split; [congruence | intros (x & [] & _)].
  - destruct (f a) eqn:E.
    + split; [intros _; exists a; tauto | discriminate].
    + rewrite IH. split.
      * intros (x & Hx & Hf). exists x. tauto.
      * intros (x & [<-|Hx] & Hf); [congruence | exists x; tauto].
Qed.

(** X12: the two summaries agree. When [extract_supported_apis] returns,
    [filter_providers_by_api_type] returns for every api type, and an api
    type is in the extracted set exactly when filtering by it keeps at least
    one provider. *)
Theorem extract_and_filter_agree
    (providers : list (string * list ProvidersConfigParams.t)) (S : gset string)
    (api_type : string) :
  type_converters.extract_supported_apis providers = Return S ->
  exists res,
    type_converters.filter_providers_by_api_type providers api_type = Return res
    /\ (api_type ∈ S <-> res <> []).
Proof.
  intros H. unfold type_converters.extract_supported_apis in H.
  destruct (extract_supported_apis_from_elem providers ∅ S H) as [Hall Hel].
  pose (f := fun c : ProvidersConfigParams.t =>
               Py.mem api_type (default [] (ProvidersConfigParams.api_supported c))).
  pose (g := fun p : string * list ProvidersConfigParams.t =>
               match List.filter f (snd p) with
               | [] => []
               | m => [(fst p, m)]
               end).
  exists (flat_map g providers).
  split; [exact (filter_providers_returns providers api_type Hall)|].
  rewrite Hel. split.
  - intros [H0|(name & configs & c & apis & Hn & Hc & Ha & Hin)];
      [exfalso; exact (not_elem_of_empty _ H0)|].
    intros Hnil.
    assert (Hin' : In (name, List.filter f configs) (flat_map g providers)).
    { apply in_flat_map. exists (name, configs). split; [exact Hn|].
      unfold g. cbn [fst snd].
      destruct (List.filter f configs) as [|x m] eqn:E; [|left; reflexivity].
      exfalso. apply (proj2 (filter_nonempty f configs)); [|exact E].
      exists c. split; [exact Hc|]. unfold f. rewrite Ha. apply mem_In, Hin. }
    rewrite Hnil in Hin'. exact Hin'.
  - intros Hne. right.
    destruct (flat_map g providers) as [|[n kept] r] eqn:E; [contradiction|].
    assert (Hin : In (n, kept) (flat_map g providers))
      by (rewrite E; left; reflexivity).
    apply in_flat_map in Hin as ([name configs] & Hn & Hk).
    unfold g in Hk. cbn [fst snd] in Hk.
    destruct (List.filter f configs) as [|x m] eqn:Ef; [contradiction|].
    assert (Hx : In x (List.filter f configs)) by (rewrite Ef; left; reflexivity).
    apply filter_In in Hx as [Hx Hm]. unfold f in Hm.
    destruct (ProvidersConfigParams.api_supported x) as [apis|] eqn:Ha; [|discriminate].
    exists name, configs, x, apis. repeat split; try assumption. apply mem_In, Hm.
Qed.

Lemma extract_and_filter_agree_witness :
  (exists S,
      type_converters.extract_supported_apis (providers_file Scenario.env_two) = Return S)
  /\ exists res,
       type_converters.filter_providers_by_api_type
         (providers_file Scenario.env_two) "huggingface_hub" = Return res.
Proof.
  assert (H : type_converters.extract_supported_apis (providers_file Scenario.env_two)
              = Return (∅ ∪ list_to_set ["openai"] ∪ list_to_set ["requests"]))
    by reflexivity.
  split; [eexists; exact H|].
  destruct (extract_and_filter_agree (providers_file Scenario.env_two) _
              "huggingface_hub" H) as (res & Hr & _).
  exists res. exact Hr.
Defined.

(** X13: a configuration accepted by [validate_provider_config_fields] can
    be fully resolved: once it is selected, the store returns a non-empty
    list of supported api types, and returns every string attribute with a
    value that is not blank. *)
Theorem validated_config_resolves
    (env : Env) (provider : string) (i : Z) (c : ProvidersConfigParams.t) :
  type_converters.validate_provider_config_fields c = true ->
  ProvidersConfigHandler.get_provider_config env provider i = Return c ->
  (exists x apis,
      ProvidersConfigHandler.get_provider_api_supported env provider i
      = Return (x :: apis))
  /\ (forall a, In a [a_config_name; a_model_url; a_model_name; a_init_config_msg] ->
                exists v,
                  ProvidersConfigHandler.get_provider_config_attribute env provider a i
                  = Return v
                  /\ Py.blank v = false)
  /\ exists e es, ProvidersConfigParams.api_endpoints c = Some (e :: es).
Proof.
  intros Hv Hc. unfold type_converters.validate_provider_config_fields in Hv.
  rewrite forallb_forall in Hv. split; [|split].
  - unfold ProvidersConfigHandler.get_provider_api_supported. rewrite Hc. cbn [obind].
    specialize (Hv a_api_supported ltac:(simpl; tauto)). simpl in Hv.
    destruct (ProvidersConfigParams.api_supported c) as [[|x apis]|]; try discriminate.
    exists x, apis. reflexivity.
  - intros a Ha. unfold ProvidersConfigHandler.get_provider_config_attribute.
    rewrite Hc. cbn [obind].
    assert (Hf : type_converters.field_valid c a = true).
    { apply Hv. unfold PROVIDER_ATTRIBUTES. simpl in Ha |- *. tauto. }
    assert (Hb : forall s, Py.truthy (Py.strip s) = true -> Py.blank s = false).
    { intros s Hs. rewrite blank_all_space. rewrite strip_truthy in Hs.
      destruct (Py.all_space s); [discriminate | reflexivity]. }
    simpl in Ha. destruct Ha as [<-|[<-|[<-|[<-|[]]]]]; simpl in Hf |- *.
    + destruct (ProvidersConfigParams.config_name c) as [v|]; [|discriminate]. eauto.
    + destruct (ProvidersConfigParams.model_url c) as [v|]; [|discriminate]. eauto.
    + destruct (ProvidersConfigParams.model_name c) as [v|]; [|discriminate]. eauto.
    + destruct (ProvidersConfigParams.init_config_msg c) as [v|]; [|discriminate]. eauto.
  - specialize (Hv a_api_endpoints ltac:(simpl; tauto)). simpl in Hv.
    destruct (ProvidersConfigParams.api_endpoints c) as [[|e es]|]; try discriminate.
    eauto.
Qed.

Lemma validated_config_resolves_witness :
  type_converters.validate_provider_config_fields Scenario.acme = true
  /\ ProvidersConfigHandler.get_provider_config Scenario.env "ACME" 0 = Return Scenario.acme
  /\ (exists x apis,
         ProvidersConfigHandler.get_provider_api_supported Scenario.env "ACME" 0
         = Return (x :: apis))
  /\ type_converters.validate_provider_config_fields Scenario.bare = false.
Proof.
  split; [reflexivity|]. split; [reflexivity|]. split; [|reflexivity].
  apply (validated_config_resolves Scenario.env "ACME" 0 Scenario.acme); reflexivity.
Defined.

(** ** The transports and their proxy *)

(** X14: the parameter check shared by [BaseAPIClient.__init__] and
    [CompatibleClient.__init__] passes exactly when none of the three
    parameters is empty or whitespace-only; otherwise it raises
    [InvalidParameterError] naming the first offending parameter in the
    order base_url, api_key, model_name. *)
Theorem validate_client_parameters_cases (base_url api_key model_name : string) :
  (validate_client_parameters base_url api_key model_name = Return tt
   <-> Py.all_space base_url = false /\ Py.all_space api_key = false
       /\ Py.all_space model_name = false)
  /\ (Py.all_space base_url = true ->
      validate_client_parameters base_url api_key model_name
      = Raise (Exn InvalidParameterError "base_url must be provided and non-empty"))
  /\ (Py.all_space base_url = false -> Py.all_space api_key = true ->
      validate_client_parameters base_url api_key model_name
      = Raise (Exn InvalidParameterError "api_key must be provided and non-empty"))
  /\ (Py.all_space base_url = false -> Py.all_space api_key = false ->
      Py.all_space model_name = true ->
      validate_client_parameters base_url api_key model_name
      = Raise (Exn InvalidParameterError "model_name must be provided and non-empty")).
Proof.
  unfold validate_client_parameters. rewrite !blank_all_space.
  destruct (Py.all_space base_url), (Py.all_space api_key), (Py.all_space model_name);
    repeat split; try reflexivity; try discriminate; intros; try tauto;
    repeat match goal with H : _ /\ _ |- _ => destruct H end; try discriminate.
Qed.

Lemma validate_client_parameters_cases_witness :
  (Py.all_space "http://x" = false /\ Py.all_space "  " = true)
  /\ validate_client_parameters "http://x" "  " "m1"
     = Raise (Exn InvalidParameterError "api_key must be provided and non-empty")
  /\ validate_client_parameters "http://x" "sk" "m1" = Return tt.
Proof.
  pose proof (validate_client_parameters_cases "http://x" "  " "m1") as (_ & _ & H & _).
  pose proof (validate_client_parameters_cases "http://x" "sk" "m1") as (H' & _).
  split; [split; reflexivity|]. split; [apply H; reflexivity|].
  apply H'. repeat split; reflexivity.
Defined.

(** The constructors of both transports pass when the check passes. *)
Lemma instantiate_returns (h : handler_class) (base_url api_key model_name : string) :
  validate_client_parameters base_url api_key model_name = Return tt ->
  CompatibleClientDispatcher.instantiate h base_url api_key model_name
  = Return (match h with
            | OpenAICompatibleClient_class =>
                OpenAIClient
                  (OpenAICompatibleClient.Build base_url api_key model_name [] 0)
            | RestAPICompatibleClient_class =>
                RestClient
                  (RestAPICompatibleClient.Build base_url api_key model_name 30 60 []
                     None 0)
            end).
Proof.
  intros H. destruct h; simpl;
    unfold OpenAICompatibleClient.__init__, RestAPICompatibleClient.__init__;
    rewrite H; reflexivity.
Qed.

(** X15: registration and dispatch. After [register key cls], the
    dispatcher instantiates [cls] for [key], replacing any class registered
    under [key] before, and dispatches every other key as it did. *)
Theorem register_then_dispatch
    (d : CompatibleClientDispatcher.t) (key : string) (cls : handler_class)
    (base_url api_key model_name : string) :
  CompatibleClientDispatcher.__call__
    (CompatibleClientDispatcher.register key cls d) key base_url api_key model_name
  = CompatibleClientDispatcher.instantiate cls base_url api_key model_name
  /\ forall other,
       other <> key ->
       CompatibleClientDispatcher.__call__
         (CompatibleClientDispatcher.register key cls d) other base_url api_key model_name
       = CompatibleClientDispatcher.__call__ d other base_url api_key model_name.
Proof.
  assert (Hget : forall k dl,
             Py.get k (CompatibleClientDispatcher.set_item key cls dl)
             = if String.eqb k key then Some cls else Py.get k dl).
  { intros k dl. induction dl as [|[k' v'] dl IH]; simpl.
    - destruct (String.eqb k key); reflexivity.
    - destruct (String.eqb key k') eqn:E; simpl.
      + apply String.eqb_eq in E. subst k'. destruct (String.eqb k key); reflexivity.
      + rewrite IH. destruct (String.eqb k key) eqn:E2.
        * apply String.eqb_eq in E2. subst k.
          rewrite E. reflexivity.
        * reflexivity. }
  unfold CompatibleClientDispatcher.__call__, CompatibleClientDispatcher.register.
  cbn [CompatibleClientDispatcher.registry]. split.
  - rewrite Hget, String.eqb_refl. reflexivity.
  - intros other Hne. rewrite Hget.
    destruct (String.eqb other key) eqn:E; [|reflexivity].
    apply String.eqb_eq in E. contradiction.
Qed.

Lemma register_then_dispatch_witness :
  "openai" <> "huggingface_hub"
  /\ CompatibleClientDispatcher.__call__
       (CompatibleClientDispatcher.register "huggingface_hub" RestAPICompatibleClient_class
          CompatibleClientDispatcher._registry)
       "openai" "http://x/v1" "sk-test" "m1"
     = CompatibleClientDispatcher.__call__ CompatibleClientDispatcher._registry
         "openai" "http://x/v1" "sk-test" "m1".
Proof.
  split; [discriminate|].
  apply (proj2 (register_then_dispatch CompatibleClientDispatcher._registry
                  "huggingface_hub" RestAPICompatibleClient_class
                  "http://x/v1" "sk-test" "m1")).
  discriminate.
Defined.

(** X16: the transport of a [CompatibleClient] is built on first use and
    then kept. For a proxy that has no transport yet, whose three
    parameters pass the check, whose api type is registered and that holds
    no stored timeouts, the [client] property returns a transport of the
    registered class, stores it, and returns that same transport on every
    later access without changing the proxy. *)
Theorem client_built_once (c : CompatibleClient.t) (h : handler_class) :
  CompatibleClient._client c = None ->
  CompatibleClient._rest_timeout_config c = None ->
  validate_client_parameters (CompatibleClient.base_url c) (CompatibleClient.api_key c)
    (CompatibleClient.model_name c) = Return tt ->
  Py.get (CompatibleClient.api_type c)
         (CompatibleClientDispatcher.registry (CompatibleClient.dispatcher c)) = Some h ->
  exists t,
    CompatibleClientDispatcher.instantiate h (CompatibleClient.base_url c)
      (CompatibleClient.api_key c) (CompatibleClient.model_name c) = Return t
    /\ CompatibleClient.client c = (CompatibleClient.set__client (Some t) c, Return t)
    /\ CompatibleClient.client (CompatibleClient.set__client (Some t) c)
       = (CompatibleClient.set__client (Some t) c, Return t).
Proof.
  intros Hn Ht Hv Hg. eexists. split; [apply instantiate_returns, Hv|].
  unfold CompatibleClient.client. rewrite Hn.
  unfold CompatibleClientDispatcher.__call__. rewrite Hg.
  rewrite (instantiate_returns h _ _ _ Hv), Ht. split; reflexivity.
Qed.

Lemma client_built_once_witness :
  exists t,
    CompatibleClient.client (ChatClient.compatible_client Scenario.openai_session)
    = (CompatibleClient.set__client (Some t)
         (ChatClient.compatible_client Scenario.openai_session), Return t)
    /\ CompatibleClient.client
         (CompatibleClient.set__client (Some t)
            (ChatClient.compatible_client Scenario.openai_session))
       = (CompatibleClient.set__client (Some t)
            (ChatClient.compatible_client Scenario.openai_session), Return t).
Proof.
  destruct (client_built_once (ChatClient.compatible_client Scenario.openai_session)
              OpenAICompatibleClient_class eq_refl eq_refl eq_refl eq_refl)
    as (t & _ & H1 & H2).
  exists t. split; [exact H1 | exact H2].
Defined.

(** X17: timeouts configured before the transport exists. On a proxy
    without transport, [configure_rest_timeouts] never raises: for the api
    type [requests] it stores the pair unchecked, for any other api type it
    does nothing. A stored pair is applied when the REST transport is
    built: positive values become its timeouts; a non-positive value makes
    that first access raise [ValueError], but the transport is already
    stored, so the next access returns it, with the default timeouts 30 and
    60. *)
Theorem timeouts_before_transport (c : CompatibleClient.t) (connect read : Z) :
  CompatibleClient._client c = None ->
  validate_client_parameters (CompatibleClient.base_url c) (CompatibleClient.api_key c)
    (CompatibleClient.model_name c) = Return tt ->
  Py.get (CompatibleClient.api_type c)
         (CompatibleClientDispatcher.registry (CompatibleClient.dispatcher c))
  = Some RestAPICompatibleClient_class ->
  let c1 := fst (CompatibleClient.configure_rest_timeouts connect read c) in
  snd (CompatibleClient.configure_rest_timeouts connect read c) = Return tt
  /\ (CompatibleClient.api_type c <> "requests" -> c1 = c)
  /\ (CompatibleClient.api_type c = "requests" ->
      (0 < connect /\ 0 < read ->
       exists r,
         CompatibleClient.client c1
         = (CompatibleClient.set__client (Some (RestClient r)) c1, Return (RestClient r))
         /\ RestAPICompatibleClient.get_timeout r = (connect, read))
      /\ (connect <= 0 \/ read <= 0 ->
          exists r e,
            CompatibleClient.client c1
            = (CompatibleClient.set__client (Some (RestClient r)) c1, Raise e)
            /\ cls e = ValueError
            /\ CompatibleClient.client (CompatibleClient.set__client (Some (RestClient r)) c1)
               = (CompatibleClient.set__client (Some (RestClient r)) c1,
                  Return (RestClient r))
            /\ RestAPICompatibleClient.get_timeout r = (30, 60))).
Proof.
  intros Hn Hv Hg c1. subst c1.
  unfold CompatibleClient.configure_rest_timeouts. rewrite Hn.
  destruct (String.eqb (CompatibleClient.api_type c) "requests") eqn:E.
  - apply String.eqb_eq in E. split; [reflexivity|]. split; [congruence|].
    intros _. cbn [fst]. unfold CompatibleClient.client.
    cbn [CompatibleClient._client CompatibleClient.dispatcher CompatibleClient.api_type
         CompatibleClient.base_url CompatibleClient.api_key CompatibleClient.model_name
         CompatibleClient._rest_timeout_config].
    rewrite ?Hn. unfold CompatibleClientDispatcher.__call__. rewrite Hg.
    rewrite (instantiate_returns _ _ _ _ Hv).
    unfold RestAPICompatibleClient.set_timeout. split.
    + intros [H1 H2].
      destruct (Z.leb_spec connect 0); [lia|]. destruct (Z.leb_spec read 0); [lia|].
      eexists. split; reflexivity.
    + intros H.
      destruct (Z.leb_spec connect 0).
      * do 2 eexists. split; [reflexivity|]. repeat split.
      * destruct (Z.leb_spec read 0); [|lia].
        do 2 eexists. split; [reflexivity|]. repeat split.
  - apply String.eqb_neq in E. split; [reflexivity|]. split; [reflexivity|].
    intros H. contradiction.
Qed.

Lemma timeouts_before_transport_witness :
  let c := CompatibleClient.Build CompatibleClientDispatcher._registry
             "requests" "http://x/chat" "sk-test" "m1" None None 0 in
  (0 < 10 /\ 0 < 20)
  /\ (exists r,
         snd (CompatibleClient.client
                (fst (CompatibleClient.configure_rest_timeouts 10 20 c)))
         = Return (RestClient r)
         /\ RestAPICompatibleClient.get_timeout r = (10, 20))
  /\ (exists e,
         snd (CompatibleClient.client
                (fst (CompatibleClient.configure_rest_timeouts 0 20 c)))
         = Raise e /\ cls e = ValueError).
Proof.
  intros c.
  pose proof (timeouts_before_transport c 10 20 eq_refl eq_refl eq_refl)
    as (_ & _ & H).
  pose proof (timeouts_before_transport c 0 20 eq_refl eq_refl eq_refl)
    as (_ & _ & H').
  destruct (H eq_refl) as [H1 _]. destruct (H' eq_refl) as [_ H2].
  split; [lia|]. split.
  - destruct (H1 ltac:(lia)) as (r & Hr & Ht). exists r. rewrite Hr. split; [reflexivity|exact Ht].
  - destruct (H2 ltac:(lia)) as (r & e & Hr & He & _). exists e. rewrite Hr.
    split; [reflexivity | exact He].
Defined.

(** X18: [set_timeout] on the REST transport. A non-positive value raises
    [ValueError] and leaves the transport as it was. Positive values are
    read back by [get_timeout], the open session (if any) is closed and
    dropped, and the session created next carries the new pair. Assigning
    a pair to the [timeout] property does the same as [set_timeout]; a
    tuple of another length is refused with [ValueError]. *)
Theorem set_timeout_cases (c : RestAPICompatibleClient.t) (connect read : Z) :
  (connect <= 0 \/ read <= 0 ->
   exists e,
     RestAPICompatibleClient.set_timeout connect read c = (c, Raise e)
     /\ cls e = ValueError)
  /\ (0 < connect /\ 0 < read ->
      exists c',
        RestAPICompatibleClient.set_timeout connect read c = (c', Return tt)
        /\ RestAPICompatibleClient.get_timeout c' = (connect, read)
        /\ RestAPICompatibleClient._session c' = None
        /\ RestAPICompatibleClient.session_closes c'
           = match RestAPICompatibleClient._session c with
             | Some _ => S (RestAPICompatibleClient.session_closes c)
             | None => RestAPICompatibleClient.session_closes c
             end
        /\ RestAPICompatibleClient.timeout
             <$> RestAPICompatibleClient._session (RestAPICompatibleClient.session c')
           = Some (connect, read))
  /\ RestAPICompatibleClient.timeout_setter [connect; read] c
     = RestAPICompatibleClient.set_timeout connect read c
  /\ (forall value, length value <> 2%nat ->
                    exists e,
                      RestAPICompatibleClient.timeout_setter value c = (c, Raise e)
                      /\ cls e = ValueError).
Proof.
  split; [|split; [|split]].
  - intros H. unfold RestAPICompatibleClient.set_timeout.
    destruct (Z.leb_spec connect 0); [eexists; split; reflexivity|].
    destruct (Z.leb_spec read 0); [eexists; split; reflexivity | lia].
  - intros [H1 H2]. unfold RestAPICompatibleClient.set_timeout.
    destruct (Z.leb_spec connect 0); [lia|]. destruct (Z.leb_spec read 0); [lia|].
    eexists. split; [reflexivity|]. repeat split.
  - reflexivity.
  - intros value Hl. unfold RestAPICompatibleClient.timeout_setter.
    destruct value as [|a [|b [|x value]]]; simpl in Hl; try lia;
      eexists; split; reflexivity.
Qed.

Lemma set_timeout_cases_witness :
  let c := RestAPICompatibleClient.session
             (RestAPICompatibleClient.Build "http://x/chat" "sk-test" "m1" 30 60 [] None 0) in
  (0 < 5 /\ 0 < 7)
  /\ (exists c',
         RestAPICompatibleClient.set_timeout 5 7 c = (c', Return tt)
         /\ RestAPICompatibleClient.get_timeout c' = (5, 7)
         /\ RestAPICompatibleClient.session_closes c' = 1%nat)
  /\ (exists e,
         RestAPICompatibleClient.set_timeout 5 0 c = (c, Raise e) /\ cls e = ValueError)
  /\ (exists e,
         RestAPICompatibleClient.timeout_setter [5] c = (c, Raise e)
         /\ cls e = ValueError).
Proof.
  intros c.
  pose proof (set_timeout_cases c 5 7) as (_ & H2 & _ & _).
  pose proof (set_timeout_cases c 5 0) as (H1 & _ & _ & H4).
  split; [lia|]. split; [|split].
  - destruct (H2 ltac:(lia)) as (c' & Hs & Hg & _ & Hc & _).
    exists c'. split; [exact Hs|]. split; [exact Hg | exact Hc].
  - apply H1. right. lia.
  - apply (H4 [5]). simpl. lia.
Defined.

(** The session of the REST transport. [chat_completion] leaves a
    session open whose [Authorization] header is [Bearer <api key>] and
    whose timeouts are the current ones, whatever the request does; it
    reuses the session that is there and never closes one. [close] after
    it releases exactly that one session, and a further [close] releases
    nothing. *)
Theorem rest_session_lifecycle
    (ext : External) (messages : list ChatMessage.t) (c : RestAPICompatibleClient.t) :
  let c1 := fst (RestAPICompatibleClient.chat_completion ext messages c) in
  (RestAPICompatibleClient._session c1
   = Some (match RestAPICompatibleClient._session c with
           | Some s => s
           | None =>
               {| RestAPICompatibleClient.authorization :=
                    "Bearer " +:+ RestAPICompatibleClient.api_key c;
                  RestAPICompatibleClient.timeout :=
                    RestAPICompatibleClient.get_timeout c |}
           end))
  /\ RestAPICompatibleClient.session_closes c1 = RestAPICompatibleClient.session_closes c
  /\ RestAPICompatibleClient._session (RestAPICompatibleClient.close c1) = None
  /\ RestAPICompatibleClient.session_closes (RestAPICompatibleClient.close c1)
     = S (RestAPICompatibleClient.session_closes c)
  /\ RestAPICompatibleClient.close (RestAPICompatibleClient.close c1)
     = RestAPICompatibleClient.close c1.
Proof.
  unfold RestAPICompatibleClient.chat_completion, RestAPICompatibleClient.session,
    RestAPICompatibleClient._convert_messages, RestAPICompatibleClient.close,
    RestAPICompatibleClient.get_timeout.
  cbn. destruct (RestAPICompatibleClient._session c); cbn; repeat split.
Qed.

(** X20: the OpenAI transport hands the SDK one wire message per chat
    message, with the same roles in the same order and the empty string
    for a missing content. What the SDK raises is raised unchanged; what
    it returns is converted choice by choice, so that the content and the
    role read from the normalized response are those of the SDK's first
    choice. *)
Theorem openai_chat_completion_cases
    (ext : External) (messages : list ChatMessage.t) (c : OpenAICompatibleClient.t) :
  let wire :=
    map (fun m => (ChatMessage.role m, default EmptyString (ChatMessage.content m)))
        messages in
  length wire = length messages
  /\ map fst wire = map ChatMessage.role messages
  /\ (forall e,
         create ext (OpenAICompatibleClient.base_url c) (OpenAICompatibleClient.api_key c)
           (OpenAICompatibleClient.model_name c) wire = Raise e ->
         snd (OpenAICompatibleClient.chat_completion ext messages c) = Raise e)
  /\ (forall r,
         create ext (OpenAICompatibleClient.base_url c) (OpenAICompatibleClient.api_key c)
           (OpenAICompatibleClient.model_name c) wire = Return r ->
         exists resp,
           snd (OpenAICompatibleClient.chat_completion ext messages c) = Return resp
           /\ ChatCompletionResponse.get_content resp
              = match ChatCompletion.choices r with
                | ch :: _ => ChatCompletion.content ch
                | [] => None
                end
           /\ ChatCompletionResponse.get_role resp
              = match ChatCompletion.choices r with
                | ch :: _ => Some (ChatCompletion.role ch)
                | [] => None
                end
           /\ (length <$> ChatCompletionResponse.choices resp)
              = Some (length (ChatCompletion.choices r))).
Proof.
  intros wire. split; [apply length_map|]. split.
  - subst wire. rewrite map_map. reflexivity.
  - unfold OpenAICompatibleClient.chat_completion, OpenAICompatibleClient._convert_messages.
    cbn [snd OpenAICompatibleClient.base_url OpenAICompatibleClient.api_key
         OpenAICompatibleClient.model_name OpenAICompatibleClient.openai_messages].
    fold wire. split.
    + intros e H. rewrite H. reflexivity.
    + intros r H. rewrite H. eexists. split; [reflexivity|].
      unfold OpenAICompatibleClient._convert_response,
        ChatCompletionResponse.create_response, ChatCompletionResponse.get_content,
        ChatCompletionResponse.get_role.
      cbn [ChatCompletionResponse.choices].
      destruct (ChatCompletion.choices r) as [|ch chs]; cbn.
      * repeat split.
      * rewrite length_map. repeat split.
Qed.

Lemma openai_chat_completion_cases_witness :
  exists resp,
    snd (OpenAICompatibleClient.chat_completion Scenario.ext
           [ChatMessage.Build user (Some "ping") None]
           (OpenAICompatibleClient.Build "http://x/v1" "sk-test" "m1" [] 0))
    = Return resp
    /\ ChatCompletionResponse.get_content resp = Some "pong"
    /\ ChatCompletionResponse.get_role resp = Some assistant.
Proof.
  destruct (openai_chat_completion_cases Scenario.ext
              [ChatMessage.Build user (Some "ping") None]
              (OpenAICompatibleClient.Build "http://x/v1" "sk-test" "m1" [] 0))
    as (_ & _ & _ & H).
  destruct (H _ eq_refl) as (resp & Hr & Hc & Hro & _).
  exists resp. split; [exact Hr|]. split; [exact Hc | exact Hro].
Defined.

(** ** Sending through a session, end to end *)

(** What [send_message] does with the outcome of the transport call. *)
Lemma send_message_step
    (ext : External) (c : ChatClient.t) (message : string)
    (cc : CompatibleClient.t) (o : outcome ChatCompletionResponse.t) :
  Py.blank message = false ->
  CompatibleClient.chat_completion ext
    (ChatClient._chat_history c ++ [ChatMessage.Build user (Some message) None])
    (ChatClient.compatible_client c) = (cc, o) ->
  ChatClient.send_message ext message c
  = let h := ChatClient._chat_history c ++ [ChatMessage.Build user (Some message) None] in
    let c1 := ChatClient.set_compatible_client cc (ChatClient.set__chat_history h c) in
    match o with
    | Return response =>
        (if ChatClient.has_content (ChatCompletionResponse.get_content response)
         then ChatClient.set__chat_history
                (h ++ [ChatMessage.Build assistant
                         (ChatCompletionResponse.get_content response) None]) c1
         else c1,
         Return (ChatCompletionResponse.get_content response))
    | Raise e =>
        (ChatClient.print
           ((if isinstance e APIClientError || isinstance e InvalidParameterError
                || isinstance e UnsupportedAPITypeError
                || isinstance e ResponseConversionError
             then "API error sending message: "
             else "Unexpected error sending message: ") +:+ msg e) c1,
         Return None)
    end.
Proof.
  intros Hb H. unfold ChatClient.send_message. rewrite Hb.
  cbn [ChatClient._chat_history ChatClient.set__chat_history ChatClient.compatible_client].
  change (ChatClient._create_message_user message)
    with (ChatMessage.Build user (Some message) None).
  rewrite H. cbv zeta. destruct o as [response|e]; [reflexivity|].
  destruct (isinstance e APIClientError || isinstance e InvalidParameterError
            || isinstance e UnsupportedAPITypeError
            || isinstance e ResponseConversionError); reflexivity.
Qed.

(** X21: a session whose api type has no registered transport. The
    transport is only looked up when a message is sent, so such a session
    exists; every non-blank message sent through it returns [None], is kept
    in the history, prints the dispatcher's error and leaves the proxy
    without transport, so the next message fails in the same way. *)
Theorem send_message_unregistered_type
    (ext : External) (c : ChatClient.t) (message : string) :
  Py.blank message = false ->
  CompatibleClient._client (ChatClient.compatible_client c) = None ->
  Py.get (CompatibleClient.api_type (ChatClient.compatible_client c))
         (CompatibleClientDispatcher.registry
            (CompatibleClient.dispatcher (ChatClient.compatible_client c))) = None ->
  exists c',
    ChatClient.send_message ext message c = (c', Return None)
    /\ ChatClient._chat_history c'
       = ChatClient._chat_history c ++ [ChatMessage.Build user (Some message) None]
    /\ ChatClient.stdout c'
       = ChatClient.stdout c
         ++ ["API error sending message: No handler for: "
             +:+ CompatibleClient.api_type (ChatClient.compatible_client c)]
    /\ ChatClient.compatible_client c' = ChatClient.compatible_client c.
Proof.
  intros Hb Hn Hg.
  assert (H : forall h,
             CompatibleClient.chat_completion ext h (ChatClient.compatible_client c)
             = (ChatClient.compatible_client c,
                Raise (Exn UnsupportedAPITypeError
                         ("No handler for: "
                          +:+ CompatibleClient.api_type (ChatClient.compatible_client c))))).
  { intros h. unfold CompatibleClient.chat_completion, CompatibleClient.client.
    rewrite Hn. unfold CompatibleClientDispatcher.__call__. rewrite Hg. reflexivity. }
  rewrite (send_message_step ext c message _ _ Hb (H _)).
  eexists. split; [reflexivity|]. repeat split.
Qed.

Lemma send_message_unregistered_type_witness :
  ChatClient.__init__ "session_0"
    (ChatClient._connection_params Scenario.hub_session) "sk-test"
  = Return Scenario.hub_session
  /\ exists c',
       ChatClient.send_message Scenario.ext "ping" Scenario.hub_session
       = (c', Return None)
       /\ ChatClient.stdout c'
          = ["API error sending message: No handler for: huggingface_hub"]
       /\ ChatClient.compatible_client c'
          = ChatClient.compatible_client Scenario.hub_session.
Proof.
  split; [reflexivity|].
  destruct (send_message_unregistered_type Scenario.ext Scenario.hub_session "ping"
              eq_refl eq_refl eq_refl) as (c' & H1 & _ & H3 & H4).
  exists c'. split; [exact H1|]. split; [exact H3 | exact H4].
Defined.

(** X22: a first message through the OpenAI transport. For a session whose
    proxy has no transport yet, passes the parameter check and whose api
    type is registered to the OpenAI class, the SDK is called with the
    proxy's URL, key and model and with the whole history including the new
    user message. When the SDK returns, [send_message] returns the content
    of its first choice, appends the assistant message exactly when that
    content is non-empty, and prints nothing. *)
Theorem send_message_openai
    (ext : External) (c : ChatClient.t) (message : string) (r : ChatCompletion.t) :
  let cc := ChatClient.compatible_client c in
  let h := ChatClient._chat_history c ++ [ChatMessage.Build user (Some message) None] in
  let content := match ChatCompletion.choices r with
                 | ch :: _ => ChatCompletion.content ch
                 | [] => None
                 end in
  Py.blank message = false ->
  CompatibleClient._client cc = None ->
  validate_client_parameters (CompatibleClient.base_url cc) (CompatibleClient.api_key cc)
    (CompatibleClient.model_name cc) = Return tt ->
  Py.get (CompatibleClient.api_type cc)
         (CompatibleClientDispatcher.registry (CompatibleClient.dispatcher cc))
  = Some OpenAICompatibleClient_class ->
  create ext (CompatibleClient.base_url cc) (CompatibleClient.api_key cc)
    (CompatibleClient.model_name cc)
    (map (fun m => (ChatMessage.role m, default EmptyString (ChatMessage.content m))) h)
  = Return r ->
  exists c',
    ChatClient.send_message ext message c = (c', Return content)
    /\ ChatClient._chat_history c'
       = h ++ (if ChatClient.has_content content
               then [ChatMessage.Build assistant content None] else [])
    /\ ChatClient.stdout c' = ChatClient.stdout c.
Proof.
  intros cc h content Hb Hn Hv Hg Hc.
  assert (H : exists cc' resp,
             CompatibleClient.chat_completion ext h cc = (cc', Return resp)
             /\ ChatCompletionResponse.get_content resp = content).
  { unfold CompatibleClient.chat_completion, CompatibleClient.client.
    rewrite Hn. unfold CompatibleClientDispatcher.__call__. rewrite Hg.
    rewrite (instantiate_returns _ _ _ _ Hv).
    destruct (CompatibleClient._rest_timeout_config cc) as [[ct rt]|];
      unfold OpenAICompatibleClient.chat_completion,
        OpenAICompatibleClient._convert_messages;
      cbn [OpenAICompatibleClient.base_url OpenAICompatibleClient.api_key
           OpenAICompatibleClient.model_name OpenAICompatibleClient.openai_messages];
      rewrite Hc; cbn [obind]; do 2 eexists; (split; [reflexivity|]);
      unfold OpenAICompatibleClient._convert_response,
        ChatCompletionResponse.create_response, ChatCompletionResponse.get_content;
      cbn [ChatCompletionResponse.choices]; subst content;
      destruct (ChatCompletion.choices r); reflexivity. }
  destruct H as (cc' & resp & Hcc & Hcont).
  rewrite (send_message_step ext c message _ _ Hb Hcc). cbv zeta. rewrite Hcont.
  eexists. split; [reflexivity|].
  destruct (ChatClient.has_content content); split; try reflexivity.
  cbn. rewrite app_nil_r. reflexivity.
Qed.

Lemma send_message_openai_witness :
  exists c',
    ChatClient.send_message Scenario.ext "ping" Scenario.openai_session
    = (c', Return (Some "pong"))
    /\ ChatClient._chat_history c'
       = [ChatMessage.Build user (Some "ping") None;
          ChatMessage.Build assistant (Some "pong") None]
    /\ ChatClient.stdout c' = [].
Proof.
  apply (send_message_openai Scenario.ext Scenario.openai_session "ping"
           (ChatCompletion.Build "cmpl-1" "chat.completion" 0 "m1"
              [ChatCompletion.Choice 0 assistant (Some "pong") (Some "stop")] None None));
    reflexivity.
Defined.

(** X23: a first message through the REST transport, for a session as the
    factory builds it (no transport yet, positive stored timeouts). The
    request is posted to the proxy's URL with its key and model and with
    the whole history including the new user message. A status 200 whose
    body validates gives the content of the first choice as with the
    OpenAI transport; when the request itself raises, [send_message]
    returns [None], keeps the user message and prints the error. *)
Theorem send_message_rest
    (ext : External) (c : ChatClient.t) (message : string) (ct rt : Z) :
  let cc := ChatClient.compatible_client c in
  let h := ChatClient._chat_history c ++ [ChatMessage.Build user (Some message) None] in
  let request :=
    post ext (CompatibleClient.base_url cc) (CompatibleClient.api_key cc)
      (map (fun m => (ChatMessage.role m, ChatMessage.content m)) h)
      (CompatibleClient.model_name cc) in
  Py.blank message = false ->
  CompatibleClient._client cc = None ->
  CompatibleClient._rest_timeout_config cc = Some (ct, rt) ->
  0 < ct /\ 0 < rt ->
  validate_client_parameters (CompatibleClient.base_url cc) (CompatibleClient.api_key cc)
    (CompatibleClient.model_name cc) = Return tt ->
  Py.get (CompatibleClient.api_type cc)
         (CompatibleClientDispatcher.registry (CompatibleClient.dispatcher cc))
  = Some RestAPICompatibleClient_class ->
  (forall resp data cr,
      request = Return resp ->
      Response.status_code resp = 200 ->
      Response.json resp = Return data ->
      model_validate ext data = Return cr ->
      exists c',
        ChatClient.send_message ext message c
        = (c', Return (ChatCompletionResponse.get_content cr))
        /\ ChatClient._chat_history c'
           = h ++ (if ChatClient.has_content (ChatCompletionResponse.get_content cr)
                   then [ChatMessage.Build assistant
                           (ChatCompletionResponse.get_content cr) None]
                   else [])
        /\ ChatClient.stdout c' = ChatClient.stdout c)
  /\ (forall e,
         request = Raise e ->
         exists c' line,
           ChatClient.send_message ext message c = (c', Return None)
           /\ ChatClient._chat_history c' = h
           /\ ChatClient.stdout c' = ChatClient.stdout c ++ [line]
           /\ Py.contains (msg e) line = true).
Proof.
  intros cc h request Hb Hn Ht [Hct Hrt] Hv Hg.
  assert (H : exists cc',
             CompatibleClient.chat_completion ext h cc
             = (cc', match request with
                     | Return resp => RestAPICompatibleClient._convert_response ext resp
                     | Raise e => Raise e
                     end)).
  { unfold CompatibleClient.chat_completion, CompatibleClient.client.
    rewrite Hn. unfold CompatibleClientDispatcher.__call__. rewrite Hg.
    rewrite (instantiate_returns _ _ _ _ Hv), Ht.
    unfold RestAPICompatibleClient.set_timeout.
    destruct (Z.leb_spec ct 0); [lia|]. destruct (Z.leb_spec rt 0); [lia|].
    unfold RestAPICompatibleClient.chat_completion, RestAPICompatibleClient.session,
      RestAPICompatibleClient._convert_messages.
    cbn [RestAPICompatibleClient._session RestAPICompatibleClient.base_url
         RestAPICompatibleClient.api_key RestAPICompatibleClient.model_name
         RestAPICompatibleClient.rest_messages].
    eexists. unfold obind. fold request. reflexivity. }
  destruct H as (cc' & Hcc). split.
  - intros resp data cr Hreq Hs Hj Hm. rewrite Hreq in Hcc.
    unfold RestAPICompatibleClient._convert_response in Hcc.
    rewrite Hs, Hj in Hcc. cbn in Hcc.
    unfold RestAPICompatibleClient._from_dict in Hcc. rewrite Hm in Hcc.
    rewrite (send_message_step ext c message _ _ Hb Hcc). cbv zeta.
    eexists. split; [reflexivity|].
    destruct (ChatClient.has_content (ChatCompletionResponse.get_content cr));
      split; try reflexivity.
    cbn. rewrite app_nil_r. reflexivity.
  - intros e Hreq. rewrite Hreq in Hcc.
    rewrite (send_message_step ext c message _ _ Hb Hcc). cbv zeta.
    do 2 eexists. split; [reflexivity|]. repeat split.
    cbn. apply contains_app_l, contains_refl.
Qed.

Lemma send_message_rest_witness :
  (0 < 30 /\ 0 < 60)
  /\ exists c' line,
       ChatClient.send_message Scenario.ext_down "ping" Scenario.rest_session
       = (c', Return None)
       /\ ChatClient._chat_history c' = [ChatMessage.Build user (Some "ping") None]
       /\ ChatClient.stdout c' = [line]
       /\ Py.contains "connection refused" line = true.
Proof.
  split; [lia|].
  pose proof (send_message_rest Scenario.ext_down Scenario.rest_session "ping" 30 60
                eq_refl eq_refl eq_refl ltac:(lia) eq_refl eq_refl) as [_ H].
  exact (H (Exn OtherError "connection refused") eq_refl).
Defined.

(** ** The connection manager: rejections and the factory *)

(** X24: the argument checks of [configure_api]. A provider name that is
    not in [PROVIDER_NAMES] raises [InvalidParameterError], whose message
    shows the name and lists the providers of the catalog. A name that is in
    [PROVIDER_NAMES] but not in the catalog passes that check and, with an
    index that is not negative, is refused by the store: its [ValueError]
    comes out wrapped in an [APIClientError], not as an
    [InvalidParameterError]. A negative index and an index at or beyond the
    length of the provider's list raise [InvalidParameterError], showing the
    index and the largest valid index. In all four cases the manager is
    left as it was. *)
Theorem configure_api_rejects_provider_and_index
    (env : Env) (provider : string) (config_index : Z) (api_type : string)
    (m : APIConnectionManager.t) :
  (is_valid_provider_name env provider = false ->
   exists e,
     APIConnectionManager.configure_api env provider config_index api_type m
     = (m, Raise e)
     /\ cls e = InvalidParameterError
     /\ Py.contains provider (msg e) = true
     /\ forall p, In p (ProvidersConfigHandler.available_providers env) ->
                  Py.contains (Py.repr_str p) (msg e) = true)
  /\ (is_valid_provider_name env provider = true -> 0 <= config_index ->
      Py.get provider (providers_file env) = None ->
      APIConnectionManager.configure_api env provider config_index api_type m
      = (m, Raise (Exn APIClientError
                     ("Failed to configure API for provider '" +:+ provider +:+ "': "
                      +:+ msg (ProvidersConfigHandler.provider_not_found env provider)))))
  /\ (is_valid_provider_name env provider = true -> config_index < 0 ->
      exists e,
        APIConnectionManager.configure_api env provider config_index api_type m
        = (m, Raise e)
        /\ cls e = InvalidParameterError
        /\ Py.contains (Py.str_int config_index) (msg e) = true)
  /\ (forall l,
         is_valid_provider_name env provider = true ->
         ProvidersConfigHandler.available_provider_configs env provider = Return l ->
         Z.of_nat (length l) <= config_index ->
         exists e,
           APIConnectionManager.configure_api env provider config_index api_type m
           = (m, Raise e)
           /\ cls e = InvalidParameterError
           /\ Py.contains ("(max: " +:+ Py.str_int (Z.of_nat (length l) - 1) +:+ ")")
                (msg e) = true).
Proof.
  unfold APIConnectionManager.configure_api. split; [|split; [|split]].
  - intros Hp. rewrite Hp. cbn [negb]. eexists. split; [reflexivity|].
    split; [reflexivity|]. cbn [msg]. split; [find_piece|].
    intros p Hin. find_piece.
  - intros Hp Hi Hg. rewrite Hp. cbn [negb].
    destruct (Z.ltb_spec config_index 0); [lia|].
    unfold St.try_except, St.bind, St.lift, St.raise,
      ProvidersConfigHandler.available_provider_configs.
    rewrite Hg. reflexivity.
  - intros Hp Hi. rewrite Hp. cbn [negb].
    destruct (Z.ltb_spec config_index 0); [|lia].
    eexists. split; [reflexivity|]. split; [reflexivity|]. cbn [msg]. find_piece.
  - intros l Hp Hl Hi. rewrite Hp. cbn [negb].
    destruct (Z.ltb_spec config_index 0); [lia|].
    unfold St.try_except, St.bind, St.lift, St.raise. rewrite Hl.
    destruct (Z.leb_spec (Z.of_nat (length l)) config_index); [|lia].
    eexists. split; [reflexivity|]. split; [reflexivity|]. cbn [msg].
    do 4 apply contains_app_l.
    change ("' (max: " +:+ ?x) with ("' " +:+ ("(max: " +:+ x)). find_piece.
Qed.

Lemma configure_api_rejects_provider_and_index_witness :
  PROVIDER_NAMES Scenario.env_package = ProviderName
  /\ (is_valid_provider_name Scenario.env_package "ACME" = false
      /\ exists e,
          APIConnectionManager.configure_api Scenario.env_package "ACME" 0 "openai"
            APIConnectionManager.__init__ = (APIConnectionManager.__init__, Raise e)
          /\ cls e = InvalidParameterError
          /\ Py.contains "'OPENROUTER'" (msg e) = true)
  /\ (is_valid_provider_name Scenario.env_package "HUGGINGFACE" = true
      /\ Py.get "HUGGINGFACE" (providers_file Scenario.env_package) = None
      /\ APIConnectionManager.configure_api Scenario.env_package "HUGGINGFACE" 0 "openai"
           APIConnectionManager.__init__
         = (APIConnectionManager.__init__,
            Raise (Exn APIClientError
                     ("Failed to configure API for provider '" +:+ "HUGGINGFACE" +:+ "': "
                      +:+ msg (ProvidersConfigHandler.provider_not_found
                                 Scenario.env_package "HUGGINGFACE")))))
  /\ (Z.of_nat (length [Scenario.openai_conf]) <= 999
      /\ exists e,
          APIConnectionManager.configure_api Scenario.env_package "OPENAI" 999 "openai"
            APIConnectionManager.__init__ = (APIConnectionManager.__init__, Raise e)
          /\ Py.contains ("(max: "
                          +:+ Py.str_int (Z.of_nat (length [Scenario.openai_conf]) - 1)
                          +:+ ")") (msg e) = true).
Proof.
  pose proof (configure_api_rejects_provider_and_index Scenario.env_package "ACME" 0
                "openai" APIConnectionManager.__init__) as (H1 & _ & _ & _).
  pose proof (configure_api_rejects_provider_and_index Scenario.env_package "HUGGINGFACE"
                0 "openai" APIConnectionManager.__init__) as (_ & H2 & _ & _).
  pose proof (configure_api_rejects_provider_and_index Scenario.env_package "OPENAI" 999
                "openai" APIConnectionManager.__init__) as (_ & _ & _ & H4).
  split; [reflexivity|]. split; [|split].
  - split; [reflexivity|]. destruct (H1 eq_refl) as (e & He & Hc & _ & Hl).
    exists e. split; [exact He|]. split; [exact Hc|].
    apply (Hl "OPENROUTER"). simpl. tauto.
  - split; [reflexivity|]. split; [reflexivity|].
    apply H2; [reflexivity | lia | reflexivity].
  - split; [simpl; lia|].
    destruct (H4 [Scenario.openai_conf] eq_refl eq_refl ltac:(simpl; lia))
      as (e & He & _ & Hm).
    exists e. split; [exact He | exact Hm].
Defined.

(** X25: an api type that the selected configuration does not list raises
    [InvalidParameterError], whose message names the type asked for and
    prints the supported ones; the manager is left as it was. *)
Theorem configure_api_rejects_api_type
    (env : Env) (provider : string) (config_index : Z) (api_type : string)
    (m : APIConnectionManager.t) (l : list ProvidersConfigParams.t)
    (apis : list string) :
  is_valid_provider_name env provider = true ->
  ProvidersConfigHandler.available_provider_configs env provider = Return l ->
  0 <= config_index < Z.of_nat (length l) ->
  ProvidersConfigHandler.get_provider_api_supported env provider config_index
  = Return apis ->
  Py.mem api_type apis = false ->
  exists e,
    APIConnectionManager.configure_api env provider config_index api_type m = (m, Raise e)
    /\ cls e = InvalidParameterError
    /\ Py.contains api_type (msg e) = true
    /\ Py.contains ("Supported: " +:+ Py.repr_list apis) (msg e) = true.
Proof.
  intros Hp Hl [Hi0 Hi1] Ha Hm. unfold APIConnectionManager.configure_api.
  rewrite Hp. cbn [negb]. destruct (Z.ltb_spec config_index 0); [lia|].
  unfold St.try_except, St.bind, St.lift, St.raise. rewrite Hl.
  destruct (Z.leb_spec (Z.of_nat (length l)) config_index); [lia|].
  rewrite Ha, Hm. cbn [negb].
  eexists. split; [reflexivity|]. split; [reflexivity|]. cbn [msg]. split; [find_piece|].
  do 6 apply contains_app_l.
  change (". Supported: " +:+ ?x) with (". " +:+ ("Supported: " +:+ x)). find_piece.
Qed.

Lemma configure_api_rejects_api_type_witness :
  exists e,
    APIConnectionManager.configure_api Scenario.env "ACME" 0 "requests"
      APIConnectionManager.__init__ = (APIConnectionManager.__init__, Raise e)
    /\ cls e = InvalidParameterError
    /\ Py.contains "requests" (msg e) = true
    /\ Py.contains ("Supported: " +:+ Py.repr_list ["openai"]) (msg e) = true.
Proof.
  apply (configure_api_rejects_api_type Scenario.env "ACME" 0 "requests"
           APIConnectionManager.__init__ [Scenario.acme] ["openai"]);
    try reflexivity.
  simpl. lia.
Defined.

(** X26: a failure while the connection fields are resolved. When the
    checks pass but the endpoint, the model name or the init message cannot
    be read from the store, [configure_api] raises an error of the
    [APIClientError] family and the manager is exactly as before: the
    fields are stored only once all three are resolved. *)
Theorem configure_api_field_failure_leaves_manager
    (env : Env) (provider : string) (config_index : Z) (api_type : string)
    (m : APIConnectionManager.t) (l : list ProvidersConfigParams.t)
    (apis : list string) :
  is_valid_provider_name env provider = true ->
  ProvidersConfigHandler.available_provider_configs env provider = Return l ->
  0 <= config_index < Z.of_nat (length l) ->
  ProvidersConfigHandler.get_provider_api_supported env provider config_index
  = Return apis ->
  Py.mem api_type apis = true ->
  (exists e, ProvidersConfigHandler.get_provider_endpoint env provider api_type config_index
             = Raise e)
  \/ (exists e, ProvidersConfigHandler.get_provider_config_attribute
                  env provider a_model_name config_index = Raise e)
  \/ (exists e, ProvidersConfigHandler.get_provider_config_attribute
                  env provider a_init_config_msg config_index = Raise e) ->
  exists e',
    APIConnectionManager.configure_api env provider config_index api_type m = (m, Raise e')
    /\ isinstance e' APIClientError = true.
Proof.
  intros Hp Hl [Hi0 Hi1] Ha Hm Hf. unfold APIConnectionManager.configure_api.
  rewrite Hp. cbn [negb]. destruct (Z.ltb_spec config_index 0); [lia|].
  unfold St.try_except, St.bind, St.lift, St.raise. rewrite Hl.
  destruct (Z.leb_spec (Z.of_nat (length l)) config_index); [lia|].
  rewrite Ha, Hm. cbn [negb].
  assert (Hfam : forall e : exn,
             isinstance e InvalidParameterError || isinstance e APIClientError = true ->
             isinstance e APIClientError = true).
  { intros e E. apply orb_true_iff in E as [E|E]; [|exact E].
    destruct e as [[] ?]; simpl in *; try discriminate; reflexivity. }
  destruct (ProvidersConfigHandler.get_provider_endpoint env provider api_type config_index)
    as [url|e1].
  2: { cbn. destruct (isinstance e1 InvalidParameterError || isinstance e1 APIClientError)
         eqn:E; eexists; (split; [reflexivity|]); [apply Hfam, E | reflexivity]. }
  destruct (ProvidersConfigHandler.get_provider_config_attribute
              env provider a_model_name config_index) as [mn|e2].
  2: { cbn. destruct (isinstance e2 InvalidParameterError || isinstance e2 APIClientError)
         eqn:E; eexists; (split; [reflexivity|]); [apply Hfam, E | reflexivity]. }
  destruct (ProvidersConfigHandler.get_provider_config_attribute
              env provider a_init_config_msg config_index) as [im|e3].
  2: { cbn. destruct (isinstance e3 InvalidParameterError || isinstance e3 APIClientError)
         eqn:E; eexists; (split; [reflexivity|]); [apply Hfam, E | reflexivity]. }
  exfalso. destruct Hf as [[e Hx]|[[e Hx]|[e Hx]]]; discriminate.
Qed.

Lemma configure_api_field_failure_leaves_manager_witness :
  (exists e, ProvidersConfigHandler.get_provider_endpoint
               Scenario.env_no_endpoints "ACME" "openai" 0 = Raise e)
  /\ exists e',
       APIConnectionManager.configure_api Scenario.env_no_endpoints "ACME" 0 "openai"
         Scenario.manager = (Scenario.manager, Raise e')
       /\ isinstance e' APIClientError = true.
Proof.
  assert (H : exists e, ProvidersConfigHandler.get_provider_endpoint
                          Scenario.env_no_endpoints "ACME" "openai" 0 = Raise e)
    by (eexists; reflexivity).
  split; [exact H|].
  apply (configure_api_field_failure_leaves_manager Scenario.env_no_endpoints "ACME" 0
           "openai" Scenario.manager [Scenario.no_endpoints] ["openai"]);
    try reflexivity; [simpl; lia | left; exact H].
Defined.

(** X27: after a call of [configure_api] that returns,
    [validate_configuration] holds and [get_connection_params] reports the
    provider, index and api type of the call together with the endpoint,
    model name and init message that the store returns for them; the
    sessions tracked by the manager are untouched. *)
Theorem configure_api_then_connection_params
    (env : Env) (provider : string) (config_index : Z) (api_type : string)
    (m m' : APIConnectionManager.t) :
  APIConnectionManager.configure_api env provider config_index api_type m
  = (m', Return tt) ->
  APIConnectionManager.validate_configuration m' = true
  /\ APIConnectionManager._active_clients m' = APIConnectionManager._active_clients m
  /\ exists url mn im,
       ProvidersConfigHandler.get_provider_endpoint env provider api_type config_index
       = Return url
       /\ ProvidersConfigHandler.get_provider_config_attribute
            env provider a_model_name config_index = Return mn
       /\ ProvidersConfigHandler.get_provider_config_attribute
            env provider a_init_config_msg config_index = Return im
       /\ APIConnectionManager.get_connection_params m'
          = {| APIConnectionManager.info_provider := provider;
               APIConnectionManager.info_config_index := inl config_index;
               APIConnectionManager.info_api_type := api_type;
               APIConnectionManager.info_endpoint_url := url;
               APIConnectionManager.info_model_name := mn;
               APIConnectionManager.info_init_config_msg := im |}.
Proof.
  intros H.
  destruct (configure_api_returns env provider config_index api_type m m' H)
    as (url & mn & im & k & -> & Hu & Hn & Hi & _ & _ & Hv).
  split; [exact Hv|]. split; [reflexivity|].
  exists url, mn, im. repeat split; assumption.
Qed.

Lemma configure_api_then_connection_params_witness :
  APIConnectionManager.configure_api Scenario.env "ACME" 0 "openai"
    APIConnectionManager.__init__ = (Scenario.manager, Return tt)
  /\ APIConnectionManager.validate_configuration Scenario.manager = true
  /\ APIConnectionManager.info_endpoint_url
       (APIConnectionManager.get_connection_params Scenario.manager) = "http://x/v1"
  /\ APIConnectionManager.info_provider
       (APIConnectionManager.get_connection_params APIConnectionManager.__init__)
     = EmptyString.
Proof.
  assert (H : APIConnectionManager.configure_api Scenario.env "ACME" 0 "openai"
                APIConnectionManager.__init__ = (Scenario.manager, Return tt))
    by (vm_compute; reflexivity).
  destruct (configure_api_then_connection_params Scenario.env "ACME" 0 "openai"
              APIConnectionManager.__init__ Scenario.manager H) as (Hv & _ & _).
  split; [exact H|]. split; [exact Hv|]. split; reflexivity.
Defined.

(** X28: [create_chatclient] on a manager that is not fully configured.
    [validate_configuration] holds exactly when the list of missing entries
    that the factory would report is empty. When it does not hold, the call
    raises [InvalidParameterError] whatever session id is given, changes
    nothing, and its message prints every connection field the manager
    lacks, and [secret_api_key] when no secret was ever stored. *)
Theorem create_chatclient_unconfigured
    (w : APIConnectionManager.World) (session_id : option string) :
  let m := APIConnectionManager.self w in
  (APIConnectionManager.validate_configuration m = true
   <-> APIConnectionManager.missing_config m = [])
  /\ (APIConnectionManager.validate_configuration m = false ->
      exists e,
        APIConnectionManager.create_chatclient session_id w = (w, Raise e)
        /\ cls e = InvalidParameterError
        /\ (forall k,
               ConnectionParams.has (APIConnectionManager._connection_params m) k = false ->
               Py.contains (Py.repr_str (ConnectionParams.key_name k)) (msg e) = true)
        /\ (APIConnectionManager._secret_api_key m = None ->
            Py.contains (Py.repr_str "secret_api_key") (msg e) = true)).
Proof.
  intros m. split.
  - unfold APIConnectionManager.validate_configuration, APIConnectionManager.missing_config.
    destruct (APIConnectionManager._connection_params m) as [pr ci at' eu mn im].
    destruct (APIConnectionManager._secret_api_key m), pr, ci, at', eu, mn, im;
      cbn; split; intros H; try reflexivity; discriminate.
  - intros Hv. unfold APIConnectionManager.create_chatclient. fold m. rewrite Hv.
    cbn [negb]. eexists. split; [reflexivity|]. split; [reflexivity|]. cbn [msg]. split.
    + intros k Hk.
      assert (Hin : In (ConnectionParams.key_name k) (APIConnectionManager.missing_config m)).
      { unfold APIConnectionManager.missing_config. apply in_or_app. left.
        apply in_map, filter_In. split; [destruct k; simpl; tauto|]. rewrite Hk. reflexivity. }
      find_piece.
    + intros Hs.
      assert (Hin : In "secret_api_key" (APIConnectionManager.missing_config m)).
      { unfold APIConnectionManager.missing_config. apply in_or_app. right.
        rewrite Hs. simpl. tauto. }
      find_piece.
Qed.

Lemma create_chatclient_unconfigured_witness :
  let w := {| APIConnectionManager.self := APIConnectionManager.__init__;
              APIConnectionManager.heap := [] |} in
  APIConnectionManager.validate_configuration APIConnectionManager.__init__ = false
  /\ exists e,
       APIConnectionManager.create_chatclient None w = (w, Raise e)
       /\ cls e = InvalidParameterError
       /\ Py.contains "'endpoint_url'" (msg e) = true
       /\ Py.contains "'secret_api_key'" (msg e) = true.
Proof.
  intros w. split; [reflexivity|].
  destruct (create_chatclient_unconfigured w None) as [_ H].
  destruct (H eq_refl) as (e & He & Hc & Hk & Hs).
  exists e. split; [exact He|]. split; [exact Hc|]. split.
  - apply (Hk ConnectionParams.k_endpoint_url). reflexivity.
  - apply Hs. reflexivity.
Defined.

(** The session constructor on parameters that hold the four required
    entries, with a secret and a session id that are not blank. *)
Lemma ChatClient_init_present
    (session_id secret : string) (pr : option string) (ci : option Z)
    (a u mn im : string) :
  Py.all_space secret = false ->
  Py.all_space session_id = false ->
  ChatClient.__init__ session_id
    (ConnectionParams.Build pr ci (Some a) (Some u) (Some mn) (Some im)) secret
  = if Py.all_space a || Py.all_space u || Py.all_space mn || Py.all_space im then
      Raise (Exn InvalidParameterError
               ("Empty values for required parameters: "
                +:+ Py.repr_list
                      (map ConnectionParams.key_name
                         (List.filter
                            (ConnectionParams.empty_value
                               (ConnectionParams.Build pr ci (Some a) (Some u) (Some mn)
                                  (Some im)))
                            ChatClient.required_params))))
    else
      Return (ChatClient.Build session_id false secret
                (ConnectionParams.Build pr ci (Some a) (Some u) (Some mn) (Some im)) []
                (CompatibleClient.Build CompatibleClientDispatcher._registry a u secret mn
                   None (if String.eqb a "requests" then Some (30, 60) else None) 0)
                []).
Proof.
  intros Hk Hs. unfold ChatClient.__init__.
  assert (He : ConnectionParams.is_empty
                 (ConnectionParams.Build pr ci (Some a) (Some u) (Some mn) (Some im))
               = false) by (destruct pr, ci; reflexivity).
  rewrite He, !blank_all_space, Hk, Hs.
  cbn [ChatClient.required_params List.filter ConnectionParams.has
       ConnectionParams.api_type ConnectionParams.endpoint_url
       ConnectionParams.model_name ConnectionParams.init_config_msg negb].
  cbn [ConnectionParams.empty_value ConnectionParams.api_type
       ConnectionParams.endpoint_url ConnectionParams.model_name
       ConnectionParams.init_config_msg from_option].
  rewrite !blank_all_space.
  destruct (Py.all_space a) eqn:Ea, (Py.all_space u) eqn:Eu, (Py.all_space mn) eqn:Em,
    (Py.all_space im) eqn:Ei; try reflexivity.
  cbn. unfold CompatibleClient.__init__, validate_client_parameters.
  rewrite !blank_all_space, Eu, Hk, Em. cbn.
  unfold CompatibleClient.configure_rest_timeouts. cbn.
  destruct (String.eqb a "requests"); reflexivity.
Qed.

Lemma ChatClient_init_inv
    (session_id secret : string) (p : ConnectionParams.t) (c : ChatClient.t) :
  ChatClient.__init__ session_id p secret = Return c ->
  Py.all_space secret = false /\ Py.all_space session_id = false
  /\ exists a u mn im,
       ConnectionParams.api_type p = Some a /\ ConnectionParams.endpoint_url p = Some u
       /\ ConnectionParams.model_name p = Some mn
       /\ ConnectionParams.init_config_msg p = Some im.
Proof.
  unfold ChatClient.__init__. intros H.
  destruct (ConnectionParams.is_empty p); [discriminate|].
  rewrite !blank_all_space in H.
  destruct (Py.all_space secret); [discriminate|].
  destruct (Py.all_space session_id); [discriminate|].
  destruct (negb (bool_decide (_ = []))) eqn:Hm in H; [discriminate|].
  apply negb_false_iff, bool_decide_eq_true in Hm.
  split; [reflexivity|]. split; [reflexivity|].
  assert (Hhas : forall k, In k ChatClient.required_params ->
                           ConnectionParams.has p k = true).
  { intros k Hk. pose proof (filter_nil_In _ _ k Hm Hk) as Hf. cbv beta in Hf.
    destruct (ConnectionParams.has p k); [reflexivity | discriminate]. }
  pose proof (Hhas ConnectionParams.k_api_type ltac:(simpl; tauto)) as H1.
  pose proof (Hhas ConnectionParams.k_endpoint_url ltac:(simpl; tauto)) as H2.
  pose proof (Hhas ConnectionParams.k_model_name ltac:(simpl; tauto)) as H3.
  pose proof (Hhas ConnectionParams.k_init_config_msg ltac:(simpl; tauto)) as H4.
  simpl in H1, H2, H3, H4.
  apply bool_decide_eq_true in H1 as [a Ha]. apply bool_decide_eq_true in H2 as [u Hu].
  apply bool_decide_eq_true in H3 as [mn Hn]. apply bool_decide_eq_true in H4 as [im Hi].
  exists a, u, mn, im. repeat split; assumption.
Qed.

(** X29: what the session constructor accepts. When the secret and the
    session id are not blank and the parameters hold an api type, an
    endpoint, a model name and an init message that are not blank,
    [ChatClient.__init__] returns a session, whether or not the api type has
    a transport: it is open, has an empty history, holds the id, the secret
    and the parameters it was given, and its proxy carries the api type, the
    endpoint, the secret and the model name, has no transport yet, and
    stores the timeouts 30 and 60 when the api type is [requests].
    Conversely, whenever the constructor returns, all of these conditions
    hold. *)
Theorem ChatClient_init_accepts
    (session_id secret : string) (p : ConnectionParams.t) :
  (forall a u mn im,
      Py.all_space secret = false -> Py.all_space session_id = false ->
      ConnectionParams.api_type p = Some a -> Py.all_space a = false ->
      ConnectionParams.endpoint_url p = Some u -> Py.all_space u = false ->
      ConnectionParams.model_name p = Some mn -> Py.all_space mn = false ->
      ConnectionParams.init_config_msg p = Some im -> Py.all_space im = false ->
      exists c,
        ChatClient.__init__ session_id p secret = Return c
        /\ ChatClient._session_id c = session_id
        /\ ChatClient._is_closed c = false
        /\ ChatClient._secret_api_key c = secret
        /\ ChatClient._connection_params c = p
        /\ ChatClient._chat_history c = []
        /\ CompatibleClient.api_type (ChatClient.compatible_client c) = a
        /\ CompatibleClient.base_url (ChatClient.compatible_client c) = u
        /\ CompatibleClient.api_key (ChatClient.compatible_client c) = secret
        /\ CompatibleClient.model_name (ChatClient.compatible_client c) = mn
        /\ CompatibleClient._client (ChatClient.compatible_client c) = None
        /\ CompatibleClient._rest_timeout_config (ChatClient.compatible_client c)
           = if String.eqb a "requests" then Some (30, 60) else None)
  /\ (forall c,
         ChatClient.__init__ session_id p secret = Return c ->
         Py.all_space secret = false /\ Py.all_space session_id = false
         /\ exists a u mn im,
              ConnectionParams.api_type p = Some a /\ Py.all_space a = false
              /\ ConnectionParams.endpoint_url p = Some u /\ Py.all_space u = false
              /\ ConnectionParams.model_name p = Some mn /\ Py.all_space mn = false
              /\ ConnectionParams.init_config_msg p = Some im
              /\ Py.all_space im = false).
Proof.
  split.
  - intros a u mn im Hk Hs Ha Ea Hu Eu Hn En Hi Ei.
    destruct p as [pr ci at' eu mn' im']. simpl in Ha, Hu, Hn, Hi. subst.
    rewrite (ChatClient_init_present session_id secret pr ci a u mn im Hk Hs).
    rewrite Ea, Eu, En, Ei. cbn [orb].
    eexists. split; [reflexivity|]. cbn. repeat split.
  - intros c H.
    destruct (ChatClient_init_inv session_id secret p c H)
      as (Hk & Hs & a & u & mn & im & Ha & Hu & Hn & Hi).
    split; [exact Hk|]. split; [exact Hs|]. exists a, u, mn, im.
    destruct p as [pr ci at' eu mn' im']. simpl in Ha, Hu, Hn, Hi. subst.
    rewrite (ChatClient_init_present session_id secret pr ci a u mn im Hk Hs) in H.
    destruct (Py.all_space a), (Py.all_space u), (Py.all_space mn), (Py.all_space im);
      try discriminate.
    repeat split.
Qed.

Lemma ChatClient_init_accepts_witness :
  (Py.all_space "sk-test" = false /\ Py.all_space "s1" = false
   /\ exists c,
       ChatClient.__init__ "s1" (ChatClient._connection_params Scenario.hub_session)
         "sk-test" = Return c
       /\ ChatClient._is_closed c = false
       /\ CompatibleClient.api_type (ChatClient.compatible_client c) = "huggingface_hub"
       /\ CompatibleClient._client (ChatClient.compatible_client c) = None)
  /\ (ChatClient.__init__ "session_0" (ChatClient._connection_params Scenario.rest_session)
        "sk-test" = Return Scenario.rest_session
      /\ Py.all_space "sk-test" = false /\ Py.all_space "session_0" = false).
Proof.
  pose proof (ChatClient_init_accepts "s1" "sk-test"
                (ChatClient._connection_params Scenario.hub_session)) as [H1 _].
  pose proof (ChatClient_init_accepts "session_0" "sk-test"
                (ChatClient._connection_params Scenario.rest_session)) as [_ H2].
  split.
  - split; [reflexivity|]. split; [reflexivity|].
    destruct (H1 "huggingface_hub" "http://x/hub" "m1" "hi"
                eq_refl eq_refl eq_refl eq_refl eq_refl eq_refl eq_refl eq_refl
                eq_refl eq_refl)
      as (c & Hc & _ & Ho & _ & _ & _ & Ha & _ & _ & _ & Hn & _).
    exists c. repeat split; assumption.
  - split; [reflexivity|].
    destruct (H2 Scenario.rest_session eq_refl) as (Hk & Hs & _).
    split; assumption.
Defined.

(** X30: from configuration to session. After a call of [configure_api]
    that returns, [create_chatclient] without session id creates a session
    exactly when the api type and the endpoint, model name and init message
    resolved from the store are not blank: the session is stored, tracked,
    open, with an empty history and a copy of the manager's parameters.
    Otherwise the factory raises [InvalidParameterError] and changes
    nothing. *)
Theorem configure_then_create
    (env : Env) (provider : string) (config_index : Z) (api_type : string)
    (m : APIConnectionManager.t) (w : APIConnectionManager.World) :
  APIConnectionManager.configure_api env provider config_index api_type m
  = (APIConnectionManager.self w, Return tt) ->
  exists url mn im,
    ProvidersConfigHandler.get_provider_endpoint env provider api_type config_index
    = Return url
    /\ ProvidersConfigHandler.get_provider_config_attribute
         env provider a_model_name config_index = Return mn
    /\ ProvidersConfigHandler.get_provider_config_attribute
         env provider a_init_config_msg config_index = Return im
    /\ (Py.all_space api_type || Py.all_space url || Py.all_space mn || Py.all_space im
        = false ->
        exists c,
          APIConnectionManager.create_chatclient None w
          = ({| APIConnectionManager.self :=
                  APIConnectionManager.set__active_clients
                    (APIConnectionManager._active_clients (APIConnectionManager.self w)
                     ++ [length (APIConnectionManager.heap w)])
                    (APIConnectionManager.self w);
                APIConnectionManager.heap := APIConnectionManager.heap w ++ [c] |},
             Return (length (APIConnectionManager.heap w)))
          /\ ChatClient._is_closed c = false
          /\ ChatClient._chat_history c = []
          /\ ChatClient._connection_params c
             = APIConnectionManager._connection_params (APIConnectionManager.self w))
    /\ (Py.all_space api_type || Py.all_space url || Py.all_space mn || Py.all_space im
        = true ->
        exists e,
          APIConnectionManager.create_chatclient None w = (w, Raise e)
          /\ cls e = InvalidParameterError).
Proof.
  intros H.
  destruct (configure_api_returns env provider config_index api_type m _ H)
    as (url & mn & im & k & Hself & Hu & Hn & Hi & _ & Hk & Hv).
  exists url, mn, im. split; [exact Hu|]. split; [exact Hn|]. split; [exact Hi|].
  rewrite blank_all_space in Hk.
  assert (Hsid : forall n : nat, Py.all_space ("session_" +:+ Py.str_int (Z.of_nat n)) = false)
    by reflexivity.
  pose proof (ChatClient_init_present
                ("session_" +:+ Py.str_int
                   (Z.of_nat (length (APIConnectionManager._active_clients
                                        (APIConnectionManager.self w)))))
                k (Some provider) (Some config_index) api_type url mn im Hk (Hsid _))
    as Hinit.
  unfold APIConnectionManager.create_chatclient. rewrite Hv. cbn [negb].
  unfold St.try_except, St.bind, St.ret, St.lift, ConnectionParams.copy.
  rewrite Hself.
  cbn [APIConnectionManager._secret_api_key APIConnectionManager._connection_params
       APIConnectionManager._active_clients APIConnectionManager.self].
  rewrite Hself in Hinit.
  cbn [APIConnectionManager._active_clients] in Hinit. rewrite Hinit.
  split; intros Hb; rewrite Hb.
  - eexists. split; [reflexivity|]. repeat split.
  - eexists. split; reflexivity.
Qed.

Lemma configure_then_create_witness :
  APIConnectionManager.configure_api Scenario.env "ACME" 0 "openai"
    APIConnectionManager.__init__ = (APIConnectionManager.self Scenario.world, Return tt)
  /\ exists c,
       APIConnectionManager.create_chatclient None Scenario.world
       = ({| APIConnectionManager.self :=
               APIConnectionManager.set__active_clients [0%nat] Scenario.manager;
             APIConnectionManager.heap := [c] |}, Return 0%nat)
       /\ ChatClient._is_closed c = false
       /\ ChatClient._chat_history c = [].
Proof.
  assert (H : APIConnectionManager.configure_api Scenario.env "ACME" 0 "openai"
                APIConnectionManager.__init__
              = (APIConnectionManager.self Scenario.world, Return tt))
    by (vm_compute; reflexivity).
  split; [exact H|].
  destruct (configure_then_create Scenario.env "ACME" 0 "openai"
              APIConnectionManager.__init__ Scenario.world H)
    as (url & mn & im & Hu & Hn & Hi & Hok & _).
  injection Hu as <-. injection Hn as <-. injection Hi as <-.
  destruct (Hok eq_refl) as (c & Hc & Hcl & Hh & _).
  exists c. split; [exact Hc|]. split; [exact Hcl | exact Hh].
Defined.

(** ** The cached loaders *)

(** X7: the providers file is read at most once until the cache is
    cleared. A load that returns keeps its value: every later load returns
    it without looking at the file, whatever the file has become. A load
    that fails stores nothing, so the next load reads the file again; a
    missing or malformed file is reported as a [ValueError] naming the
    path. After [clear_config_cache] the next load reads the file. *)
Theorem load_providers_file_cached
    (fs : config_loaders.Files) (c : config_loaders.Cache) :
  (forall c' v,
      config_loaders.load_providers_file fs c = (c', Return v) ->
      forall fs', config_loaders.load_providers_file fs' c' = (c', Return v))
  /\ (forall c' e,
         config_loaders.load_providers_file fs c = (c', Raise e) ->
         c' = c /\ config_loaders.providers_cache c = None)
  /\ (forall text,
         config_loaders.providers_cache c = None ->
         config_loaders.providers_json fs = config_loaders.FileNotFound text
         \/ config_loaders.providers_json fs = config_loaders.FileMalformed text ->
         exists m,
           config_loaders.load_providers_file fs c = (c, Raise (Exn ValueError m))
           /\ Py.contains (config_loaders.PROVIDER_FILE_PATH fs) m = true
           /\ Py.contains text m = true)
  /\ (forall v,
         config_loaders.providers_json fs = config_loaders.FileContent v ->
         snd (config_loaders.load_providers_file fs (config_loaders.clear_config_cache c))
         = Return v).
Proof.
  unfold config_loaders.load_providers_file. split; [|split; [|split]].
  - intros c' v H fs'.
    destruct (config_loaders.providers_cache c) as [v0|] eqn:Ec.
    + injection H as <- <-. rewrite Ec. reflexivity.
    + destruct (config_loaders.load_file _ _ _) as [v1|e]; [|discriminate].
      injection H as <- <-. reflexivity.
  - intros c' e H.
    destruct (config_loaders.providers_cache c) as [v0|]; [discriminate|].
    destruct (config_loaders.load_file _ _ _) as [v1|e1]; [discriminate|].
    injection H as <- _. split; reflexivity.
  - intros text Hc Hf. rewrite Hc.
    destruct Hf as [Hf|Hf]; rewrite Hf; cbn [config_loaders.load_file];
      eexists; (split; [reflexivity|]); split; find_piece.
  - intros v Hf. cbn. rewrite Hf. reflexivity.
Qed.

Lemma load_providers_file_cached_witness :
  let empty := {| config_loaders.providers_cache := None;
                  config_loaders.secrets_cache := None;
                  config_loaders.defaults_cache := None |} in
  (exists c',
      config_loaders.load_providers_file Scenario.files empty
      = (c', Return (providers_file Scenario.env))
      /\ config_loaders.load_providers_file Scenario.files_removed c'
         = (c', Return (providers_file Scenario.env)))
  /\ (exists m,
         config_loaders.load_providers_file Scenario.files_removed empty
         = (empty, Raise (Exn ValueError m))
         /\ Py.contains "config/providers.json" m = true).
Proof.
  intros empty.
  pose proof (load_providers_file_cached Scenario.files empty) as (H1 & _).
  pose proof (load_providers_file_cached Scenario.files_removed empty) as (_ & _ & H3 & _).
  split.
  - eexists. split; [reflexivity|]. apply (H1 _ _ eq_refl).
  - destruct (H3 "[Errno 2] No such file or directory" eq_refl (or_introl eq_refl))
      as (m & Hm & Hp & _).
    exists m. split; [exact Hm | exact Hp].
Defined.

(** The same holds for the secrets and for the defaults: a value that was
    loaded is returned again whatever the files have become, and the three
    caches do not disturb one another. *)
Lemma loaders_independent
    (fs fs' : config_loaders.Files) (c c' : config_loaders.Cache)
    (s : gmap string string) :
  config_loaders.load_secrets_config fs c = (c', Return s) ->
  config_loaders.load_secrets_config fs' c' = (c', Return s)
  /\ config_loaders.providers_cache c' = config_loaders.providers_cache c
  /\ config_loaders.defaults_cache c' = config_loaders.defaults_cache c.
Proof.
  unfold config_loaders.load_secrets_config. intros H.
  destruct (config_loaders.secrets_cache c) as [v0|] eqn:Ec.
  - injection H as <- <-. rewrite Ec. repeat split.
  - destruct (config_loaders.load_file _ _ _) as [v1|e]; [|discriminate].
    injection H as <- <-. repeat split.
Qed.
